(** * ABACIA edge functions: the shared substrate and its handlers

    A shallow embedding of the TypeScript sources: the shared substrate
    ([_shared/brain-client.ts], [_shared/trace.ts], [_shared/air-client.ts]),
    the agents built on it (SYNC, SAGE, SHADOW, LUKE, VARA, and the smaller
    GRIT, DOD, TIM, HEAR, HUNTER, MARK, QUILL, DRAFT, IMAN, DAWN, RADAR), and
    the properties of the substrate stated against them.

    Conventions of the embedding.
    - An [async] function is a computation in the monad [M]: it reads the
      [Env] (the process configuration and how the outside services behave),
      threads the [State] (the memory table, the cache, what the outside
      services have received, the console) and either returns a value or
      throws; the thrown value is represented by its [message].
    - Every call to an outside service reads how that service behaves at the
      current instant from the [Env] and then advances the clock, so any
      pattern of failures over successive calls can be described.
    - JavaScript strings are [string]s of code units; integers are [Z];
      [undefined] for an optional field is [None].
    - A request body is taken at the interface its handler declares for it
      (or at the fields the handler reads), [None] standing for a body that
      is not JSON.
    - An instant ([Date.now()], [new Date().toISOString()]) is the clock
      reading, printed in decimal where the source interpolates it. *)

From Stdlib Require Import ZArith List String Ascii Bool Lia.
From stdpp Require Import base option list gmap strings pretty sorting.

Set Warnings "-register-all".

Open Scope string_scope.
Open Scope Z_scope.
Open Scope list_scope.

(** ** JSON values *)

Inductive Json : Type :=
| JNull
| JBool (b : bool)
| JNum (z : Z)
| JFloat (bits : Z)             (* a number that is not an integer, as the
                                  integer encoding of its binary64 value *)
| JStr (s : string)
| JArr (items : list Json)
| JObj (fields : list (string * Json)).

(** [obj[key]]: the first binding of [key], [None] for [undefined]. *)
Fixpoint js_field (key : string) (fields : list (string * Json))
  : option Json :=
  match fields with
  | [] => None
  | (k, v) :: rest => if String.eqb k key then Some v else js_field key rest
  end.

Definition json_field (key : string) (j : Json) : option Json :=
  match j with
  | JObj fields => js_field key fields
  | _ => None
  end.

Definition opt_json {A} (f : A -> Json) (o : option A) : list Json :=
  match o with Some a => [f a] | None => [] end.

(** A field whose value is [undefined] is dropped by [JSON.stringify]. *)
Definition opt_field {A} (key : string) (f : A -> Json) (o : option A)
  : list (string * Json) :=
  match o with Some a => [(key, f a)] | None => [] end.

Definition JNat (n : nat) : Json := JNum (Z.of_nat n).

(** ** Strings as the sources use them *)

Definition lower_ascii (c : ascii) : ascii :=
  let n := nat_of_ascii c in
  if (Nat.leb 65 n && Nat.leb n 90)%bool then ascii_of_nat (n + 32) else c.

Definition upper_ascii (c : ascii) : ascii :=
  let n := nat_of_ascii c in
  if (Nat.leb 97 n && Nat.leb n 122)%bool then ascii_of_nat (n - 32) else c.

Fixpoint map_string (f : ascii -> ascii) (s : string) : string :=
  match s with
  | EmptyString => EmptyString
  | String c rest => String (f c) (map_string f rest)
  end.

Definition toLowerCase : string -> string := map_string lower_ascii.
Definition toUpperCase : string -> string := map_string upper_ascii.

(** [s.substring(0, n)] *)
Definition prefix_of (n : nat) (s : string) : string := String.substring 0 n s.

(** [s.includes(sub)] *)
Fixpoint includes (sub s : string) : bool :=
  if String.prefix sub s then true
  else match s with
       | EmptyString => false
       | String _ rest => includes sub rest
       end.

Definition show_nat (n : nat) : string := pretty n.
Definition show_Z (z : Z) : string := pretty z.
Definition show_bool (b : bool) : string := if b then "true" else "false".

Definition mem_string (x : string) (l : list string) : bool :=
  existsb (String.eqb x) l.

(** [a || b] on optional strings: the empty string counts as absent. *)
Definition or_string (a : option string) (b : string) : string :=
  match a with
  | Some s => if String.eqb s EmptyString then b else s
  | None => b
  end.

(** The double-quote character. *)
Definition dquote : string := String (ascii_of_nat 34) EmptyString.

(** ** The memory table *)

(** Components of an embedding are never inspected by this code; each is
    carried as the integer encoding of its binary64 value. *)
Definition Embedding : Type := list Z.

(** [interface BrainMemory] *)
Record BrainMemory : Type := mkBrainMemory {
  bm_id : option string;
  bm_content : string;
  bm_memory_type : string;
  bm_categories : option (list string);
  bm_importance : option Z;
  bm_is_system : option bool;
  bm_source : option string;
  bm_tags : option (list string);
  bm_embedding : option Embedding
}.

(** A row of table [aba_memory]: the columns of [BrainMemory] and the two
    timestamps [brainWrite] adds. A column never supplied is [None]. *)
Record Row : Type := mkRow {
  row_id : string;
  row_content : string;
  row_memory_type : string;
  row_categories : option (list string);
  row_importance : option Z;
  row_is_system : option bool;
  row_source : option string;
  row_tags : option (list string);
  row_embedding : option Embedding;
  row_created_at : nat;
  row_updated_at : nat
}.

Definition set_row_embedding (e : Embedding) (r : Row) : Row :=
  mkRow (row_id r) (row_content r) (row_memory_type r) (row_categories r)
        (row_importance r) (row_is_system r) (row_source r) (row_tags r)
        (Some e) (row_created_at r) (row_updated_at r).

(** ** The world outside a handler *)

(** What an HTTP endpoint does with one request. *)
Inductive HttpReply : Type :=
| Rejected (message : string)          (* fetch rejects: no response *)
| Responded (status : Z).              (* a response with this status *)

Definition http_ok (status : Z) : bool := (200 <=? status) && (status <=? 299).

(** [POST /api/escalate] body *)
Record Escalation : Type := mkEscalation {
  esc_urgency : Z;
  esc_message : string;
  esc_source : string
}.

(** [POST /api/sms/send] body *)
Record Sms : Type := mkSms {
  sms_to : string;
  sms_message : string
}.

Inductive ReachRequest : Type :=
| ReachEscalate (e : Escalation)
| ReachSms (s : Sms).

(** One [fetch] issued to the notification service, and whether it got
    through. *)
Record ReachCall : Type := mkReachCall {
  rc_request : ReachRequest;
  rc_delivered : bool
}.

(** [POST /api/air/agent-report] body *)
Record AirReport : Type := mkAirReport {
  air_agent : string;
  air_status : string;
  air_data : Json;
  air_timestamp : nat
}.

(** A cached key: the JSON payload and the expiry set on it, if any. *)
Record CacheEntry : Type := mkCacheEntry {
  ce_value : Json;
  ce_ttl : option Z
}.

(** What the embedding service answers to one request. *)
Inductive EmbedReply : Type :=
| EmbedRejected (message : string)     (* fetch or response.json() rejects *)
| EmbedMalformed                       (* a body without data[0] *)
| EmbedVector (v : Embedding).

(** What the speech service answers to one request. *)
Inductive SpeechReply : Type :=
| SpeechRejected (message : string)
| SpeechError (text : string)          (* a response that is not ok *)
| SpeechAudio (bytes : list Z).

(** What a JSON API answers to one request: [fetch] or [response.json()]
    rejects, or the body parses to a value. *)
Inductive JsonReply : Type :=
| JsonRejected (message : string)
| JsonAnswer (value : Json).

(** [interface Email] of the inbox agent; [sender_emails] holds the [email]
    field of each entry of [from]. *)
Record Email : Type := mkEmail {
  email_id : string;
  sender_emails : list (option string);
  subject : string;
  snippet : option string;
  email_date : Z;
  unread : bool
}.

(** The inbox service: [data.data] of the answer, [None] when it has none. *)
Inductive InboxReply : Type :=
| InboxRejected (message : string)
| InboxAnswer (emails : option (list Email)).

(** The fields the calendar agent reads of an event. *)
Record EventTime : Type := mkEventTime {
  dateTime : option string;
  date : option string
}.

Record CalendarEvent : Type := mkCalendarEvent {
  event_id : option string;
  summary : option string;
  event_start : option EventTime;
  event_end : option EventTime
}.

(** The token service: [data.access_token] of the answer. *)
Inductive TokenReply : Type :=
| TokenRejected (message : string)
| TokenAnswer (access_token : option string).

(** The calendar service: [data.items] of the answer. *)
Inductive EventsReply : Type :=
| EventsRejected (message : string)
| EventsAnswer (items : option (list CalendarEvent)).

(** What a handler cannot change: the process configuration and the
    behaviour of the outside services at each instant. *)
Record Env : Type := mkEnv {
  env_supabase : bool;       (* SUPABASE_URL and SUPABASE_SERVICE_ROLE_KEY *)
  env_upstash : bool;        (* UPSTASH_REDIS_REST_URL and ..._TOKEN *)
  store_fault : nat -> option string;    (* the error the store answers *)
  text_match : string -> string -> bool; (* the engine's textSearch *)
  cache_fault : nat -> option string;    (* fetch to the cache rejects *)
  reach_fault : nat -> option string;    (* fetch to REACH rejects *)
  air_fault : nat -> option string;      (* fetch to AIR rejects *)
  http_get : string -> nat -> HttpReply; (* GET url *)
  embed_reply : nat -> string -> EmbedReply;
  speech_reply : nat -> string -> SpeechReply;
  (* the database function match_memories(query_embedding, match_threshold,
     match_count): the rows it returns, each with its similarity *)
  match_memories : Embedding -> Z -> nat -> list Row -> list (Row * Z);
  (* POST /functions/v1/<agent> with a JSON body *)
  functions_reply : nat -> string -> Json -> JsonReply;
  (* the mail service: GET messages?limit=n, POST messages/send *)
  nylas_inbox : nat -> Z -> InboxReply;
  nylas_send : nat -> Json -> JsonReply;
  (* the calendar service: token, events between two instants, new event *)
  google_token : nat -> TokenReply;
  google_events : nat -> option string -> nat -> Z -> EventsReply;
  google_create : nat -> option string -> Json -> JsonReply;
  (* the runtime's dates: [new Date(text).getTime()], [None] for an invalid
     date, and the en-US renderings of an instant *)
  parse_date : option string -> option Z;
  locale_date : nat -> string;
  locale_time : nat -> string
}.

(** What a handler reads and changes. *)
Record State : Type := mkState {
  clock : nat;
  aba_memory : list Row;     (* in the order the engine scans it *)
  next_id : nat;
  cache : gmap string CacheEntry;
  reach_log : list ReachCall;      (* every fetch issued to REACH *)
  air_inbox : list AirReport;
  console : list string
}.

Definition upd_clock (f : nat -> nat) (s : State) : State :=
  mkState (f (clock s)) (aba_memory s) (next_id s) (cache s) (reach_log s)
    (air_inbox s) (console s).

Definition upd_memory (f : list Row -> list Row) (s : State) : State :=
  mkState (clock s) (f (aba_memory s)) (next_id s) (cache s) (reach_log s)
    (air_inbox s) (console s).

Definition upd_next_id (f : nat -> nat) (s : State) : State :=
  mkState (clock s) (aba_memory s) (f (next_id s)) (cache s) (reach_log s)
    (air_inbox s) (console s).

Definition upd_cache (f : gmap string CacheEntry -> gmap string CacheEntry)
  (s : State) : State :=
  mkState (clock s) (aba_memory s) (next_id s) (f (cache s)) (reach_log s)
    (air_inbox s) (console s).

Definition upd_reach (f : list ReachCall -> list ReachCall) (s : State)
  : State :=
  mkState (clock s) (aba_memory s) (next_id s) (cache s) (f (reach_log s))
    (air_inbox s) (console s).

Definition upd_air (f : list AirReport -> list AirReport) (s : State) : State :=
  mkState (clock s) (aba_memory s) (next_id s) (cache s) (reach_log s)
    (f (air_inbox s)) (console s).

Definition upd_console (f : list string -> list string) (s : State) : State :=
  mkState (clock s) (aba_memory s) (next_id s) (cache s) (reach_log s)
    (air_inbox s) (f (console s)).

(** ** Computations: state and exceptions *)

Inductive Outcome (A : Type) : Type :=
| Ok (a : A)
| Throw (message : string).
Arguments Ok {A} a.
Arguments Throw {A} message.

Definition M (A : Type) : Type := Env -> State -> Outcome A * State.

#[global] Instance M_ret : MRet M := fun A a env s => (Ok a, s).

#[global] Instance M_bind : MBind M := fun A B k m env s =>
  match m env s with
  | (Ok a, s') => k a env s'
  | (Throw e, s') => (Throw e, s')
  end.

Definition throw {A} (message : string) : M A :=
  fun env s => (Throw message, s).

(** [try { body } catch (err) { handler(err.message) }] *)
Definition try_catch {A} (body : M A) (handler : string -> M A) : M A :=
  fun env s =>
    match body env s with
    | (Ok a, s') => (Ok a, s')
    | (Throw e, s') => handler e env s'
    end.

Definition ask : M Env := fun env s => (Ok env, s).
Definition modify (f : State -> State) : M unit := fun env s => (Ok tt, f s).

Definition now : M nat := fun env s => (Ok (clock s), s).
Definition tick : M unit := modify (upd_clock S).

(** [console.log] and [console.error] *)
Definition console_log (line : string) : M unit :=
  modify (upd_console (fun c => c ++ [line])).

(** [for (const x of xs) { body(x) }] *)
Fixpoint for_each {A} (xs : list A) (body : A -> M unit) : M unit :=
  match xs with
  | [] => mret tt
  | x :: rest => _ ← body x; for_each rest body
  end.

(** ** [_shared/brain-client.ts] *)

(** What awaiting a query builder resolves to: [{ data, error }] with exactly
    one of the two set. A store at fault answers with [error]; the client
    itself does not throw. *)
Inductive StoreReply (A : Type) : Type :=
| StoreData (data : A)
| StoreError (error : string).
Arguments StoreData {A} data.
Arguments StoreError {A} error.

(** [data] of a reply whose [error] the caller does not look at. *)
Definition reply_data {A} (r : StoreReply A) : option A :=
  match r with StoreData d => Some d | StoreError _ => None end.

(** One round trip to the store: [run] is what the query does to the table. *)
Definition store_call {A} (run : State -> A * State) : M (StoreReply A) :=
  fun env s =>
    match store_fault env (clock s) with
    | Some e => (Ok (StoreError e), upd_clock S s)
    | None => let '(a, s') := run s in (Ok (StoreData a), upd_clock S s')
    end.

(** A query that only reads the table. *)
Definition store_select {A} (q : list Row -> A) : M (StoreReply A) :=
  store_call (fun s => (q (aba_memory s), s)).

(** [createBrainClient]: [createClient] throws when the URL is missing. *)
Definition createBrainClient : M unit :=
  fun env s =>
    if env_supabase env then (Ok tt, s)
    else (Throw "supabaseUrl is required.", s).

(** [.insert(record).select().single()]: the table gains one row holding the
    record as given; the store assigns [id] when the record has none. *)
Definition insert_row (memory : BrainMemory) (created updated : nat)
  : State -> Row * State :=
  fun s =>
    let id := match bm_id memory with
              | Some i => i
              | None => "mem_" +:+ show_nat (next_id s)
              end in
    let r := mkRow id (bm_content memory) (bm_memory_type memory)
               (bm_categories memory) (bm_importance memory)
               (bm_is_system memory) (bm_source memory) (bm_tags memory)
               (bm_embedding memory) created updated in
    (r, upd_next_id S (upd_memory (fun rows => rows ++ [r]) s)).

Definition brainWrite (memory : BrainMemory) : M Row :=
  created ← now;
  updated ← now;
  reply ← store_call (insert_row memory created updated);
  match reply with
  | StoreError e => throw e
  | StoreData data => mret data
  end.

(** [.order(column, { ascending: false })]: a stable sort, so rows the
    ordering does not tell apart stay in the order the engine scanned them. *)
Fixpoint insert_desc {A} (ge : A -> A -> bool) (x : A) (l : list A) : list A :=
  match l with
  | [] => [x]
  | y :: rest => if ge x y then x :: y :: rest else y :: insert_desc ge x rest
  end.

Fixpoint order_desc {A} (ge : A -> A -> bool) (l : list A) : list A :=
  match l with
  | [] => []
  | x :: rest => insert_desc ge x (order_desc ge rest)
  end.

(** Descending order on a nullable integer column: NULL sorts first. *)
Definition imp_ge (a b : option Z) : bool :=
  match a, b with
  | None, _ => true
  | Some _, None => false
  | Some x, Some y => y <=? x
  end.

Definition by_importance (r s : Row) : bool :=
  imp_ge (row_importance r) (row_importance s).

Definition by_created_at (r s : Row) : bool :=
  Nat.leb (row_created_at s) (row_created_at r).

(** The query of [brainSearch] on a table. *)
Definition search_rows (matches : string -> string -> bool) (query : string)
  (limit : nat) (rows : list Row) : list Row :=
  take limit
    (order_desc by_importance
       (List.filter (fun r => matches query (row_content r)) rows)).

Definition brainSearch (query : string) (limit : nat) : M (list Row) :=
  env ← ask;
  reply ← store_select (search_rows (text_match env) query limit);
  match reply with
  | StoreError e => throw e
  | StoreData data => mret data
  end.

(** ** [_shared/trace.ts] *)

Record TraceEntry : Type := mkTraceEntry {
  notation : string;
  action : string;
  result : string;
  timestamp : nat;
  agent : string
}.

Definition set_result (r : string) (t : TraceEntry) : TraceEntry :=
  mkTraceEntry (notation t) (action t) r (timestamp t) (agent t).

(** [createTrace(passer, agent, receiver, action, result = 'OK')]; an
    omitted [result] is [None]. *)
Definition createTrace (passer agent receiver action : string)
  (result : option string) : M TraceEntry :=
  let result := default "OK" result in
  ts ← now;
  let entry := mkTraceEntry (passer +:+ "*" +:+ agent +:+ "*" +:+ receiver)
                 action result ts agent in
  _ ← console_log ("[TRACE] " +:+ notation entry +:+ " | " +:+ action
                    +:+ " | " +:+ result);
  mret entry.

Definition logTrace (trace : TraceEntry) : M unit :=
  try_catch
    (_ ← createBrainClient;
     stamp ← now;
     _ ← brainWrite (mkBrainMemory None
           ("TRACE [" +:+ show_nat (timestamp trace) +:+ "]: "
              +:+ notation trace +:+ " | " +:+ action trace +:+ " | "
              +:+ result trace)
           "system"
           (Some ["trace"; toLowerCase (agent trace)])
           (Some 2)
           (Some true)
           (Some ("trace_" +:+ agent trace +:+ "_" +:+ show_nat stamp))
           (Some ["trace"; "routing"; toLowerCase (agent trace)])
           None);
     mret tt)
    (fun message => console_log ("[TRACE] Failed to log: " +:+ message)).

(** ** [_shared/air-client.ts] *)

Definition reportToAIR (agentId status : string) (data : Json) : M unit :=
  try_catch
    (ts ← now;
     env ← ask;
     _ ← tick;
     match air_fault env ts with
     | Some e => throw e
     | None =>
         modify (upd_air (fun l => l ++ [mkAirReport agentId status data ts]))
     end)
    (fun message =>
       console_log
         ("[" +:+ agentId +:+ "] Failed to report to AIR: " +:+ message)).

(** One [fetch] to the notification service: a rejected fetch throws. *)
Definition reach_post (request : ReachRequest) : M unit :=
  env ← ask;
  instant ← now;
  _ ← tick;
  match reach_fault env instant with
  | Some e =>
      _ ← modify (upd_reach (fun l => l ++ [mkReachCall request false]));
      throw e
  | None => modify (upd_reach (fun l => l ++ [mkReachCall request true]))
  end.

Definition escalateToREACH (urgency : Z) (message source : string) : M unit :=
  reach_post (ReachEscalate (mkEscalation urgency message source)).

(** [dispatchAgent]: one request to the target's endpoint; what the target
    does with it happens in its own run, outside this one. *)
Definition dispatchAgent (targetAgent : string) (intent request : Json)
  : M Json :=
  env ← ask;
  instant ← now;
  _ ← tick;
  match functions_reply env instant (toLowerCase targetAgent)
          (JObj [("intent", intent); ("request", request)]) with
  | JsonRejected e => throw e
  | JsonAnswer value => mret value
  end.

(** ** HTTP responses of the handlers *)

Inductive Body : Type :=
| JsonBody (j : Json)          (* [JSON.stringify(value)] *)
| BinaryBody (bytes : list Z). (* an [ArrayBuffer] *)

Record Response : Type := mkResponse {
  resp_status : Z;
  resp_headers : list (string * string);
  resp_body : Body
}.

Definition json_headers : list (string * string) :=
  [("Content-Type", "application/json")].

(** [new Response(JSON.stringify(value), { headers })]: status 200. *)
Definition json_response (value : Json) : Response :=
  mkResponse 200 json_headers (JsonBody value).

(** [new Response(JSON.stringify(value), { status, headers })] *)
Definition json_response_with (status : Z) (value : Json) : Response :=
  mkResponse status json_headers (JsonBody value).

(** What JavaScript takes for true in a condition. *)
Definition js_truthy (j : Json) : bool :=
  match j with
  | JNull => false
  | JBool b => b
  | JNum z => negb (z =? 0)
  | JFloat _ => true
  | JStr s => negb (String.eqb s EmptyString)
  | JArr _ => true
  | JObj _ => true
  end.

Definition json_strings (l : list string) : Json := JArr (map JStr l).

(** A nullable column in a JSON row. *)
Definition opt_string_json (o : option string) : Json :=
  match o with Some s => JStr s | None => JNull end.

Definition opt_Z_json (o : option Z) : Json :=
  match o with Some z => JNum z | None => JNull end.

Definition opt_strings_json (o : option (list string)) : Json :=
  match o with Some l => json_strings l | None => JNull end.

(** ** [sync/index.ts] *)

Module Sync.

Record SYNCRequest : Type := mkSYNCRequest {
  req_action : option string;
  req_state : option Json
}.

(** One [fetch] to the cache: a rejected fetch throws; a response means
    the command was carried out. *)
Definition cache_fetch {A}
  (command : gmap string CacheEntry -> A * gmap string CacheEntry) : M A :=
  fun env s =>
    match cache_fault env (clock s) with
    | Some e => (Throw e, upd_clock S s)
    | None =>
        let '(a, c) := command (cache s) in
        (Ok a, upd_clock S (upd_cache (fun _ => c) s))
    end.

(** [POST /set/key] with the JSON text of the value as body. *)
Definition cmd_set (key : string) (value : Json)
  (c : gmap string CacheEntry) : unit * gmap string CacheEntry :=
  (tt, <[key := mkCacheEntry value None]> c).

(** [POST /expire/key/ttl] *)
Definition cmd_expire (key : string) (ttl : Z)
  (c : gmap string CacheEntry) : unit * gmap string CacheEntry :=
  (tt, alter (fun e => mkCacheEntry (ce_value e) (Some ttl)) key c).

(** [GET /get/key]: [{ result }], the stored text or null. *)
Definition cmd_get (key : string)
  (c : gmap string CacheEntry) : option Json * gmap string CacheEntry :=
  (ce_value <$> c !! key, c).

Definition upstashSet (key : string) (value : Json) (ttl : Z) : M bool :=
  env ← ask;
  if negb (env_upstash env) then mret false
  else
    try_catch
      (_ ← cache_fetch (cmd_set key value);
       _ ← (if 0 <? ttl then cache_fetch (cmd_expire key ttl) else mret tt);
       mret true)
      (fun message =>
         _ ← console_log ("[SYNC] Upstash SET failed: " +:+ message);
         mret false).

Definition upstashGet (key : string) : M Json :=
  env ← ask;
  if negb (env_upstash env) then mret JNull
  else
    try_catch
      (data ← cache_fetch (cmd_get key);
       mret (match data with Some value => value | None => JNull end))
      (fun message =>
         _ ← console_log ("[SYNC] Upstash GET failed: " +:+ message);
         mret JNull).

Record AgentsState : Type := mkAgentsState {
  as_timestamp : nat;
  agentCount : nat;
  syncedTo : list string
}.

Definition agents_json (s : AgentsState) : Json :=
  JObj [("timestamp", JNat (as_timestamp s));
        ("agentCount", JNat (agentCount s));
        ("syncedTo", json_strings (syncedTo s))].

Record TracesState : Type := mkTracesState {
  ts_timestamp : nat;
  traceCount : nat
}.

Definition traces_fields (s : TracesState) : list (string * Json) :=
  [("timestamp", JNat (ts_timestamp s)); ("traceCount", JNat (traceCount s))].

Definition traces_json (s : TracesState) : Json := JObj (traces_fields s).

(** [.select('content').eq('memory_type', 'aba_agents')
     .order('importance', { ascending: false }).limit(100)] *)
Definition agent_records (rows : list Row) : list string :=
  map row_content
    (take 100%nat
       (order_desc by_importance
          (List.filter (fun r => String.eqb (row_memory_type r) "aba_agents")
             rows))).

Definition has_tag (tag : string) (r : Row) : bool :=
  match row_tags r with
  | Some tags => mem_string tag tags
  | None => false
  end.

(** [.select('content, created_at').contains('tags', ['trace'])
     .order('created_at', { ascending: false }).limit(100)] *)
Definition trace_records (rows : list Row) : list (string * nat) :=
  map (fun r => (row_content r, row_created_at r))
    (take 100%nat
       (order_desc by_created_at (List.filter (has_tag "trace") rows))).

Definition trace_record_json (t : string * nat) : Json :=
  JObj [("content", JStr (fst t)); ("created_at", JNat (snd t))].

(** [records?.length || 0] *)
Definition count_or_zero {A} (records : option (list A)) : nat :=
  match records with Some l => length l | None => 0%nat end.

Definition syncAgents : M AgentsState :=
  trace ← createTrace "AIR" "SYNC" "UPSTASH" "Syncing agent registry"
            (Some "SYNCING");
  _ ← createBrainClient;
  reply ← store_select agent_records;
  let agentRecords := reply_data reply in
  let count := count_or_zero agentRecords in
  ts ← now;
  let state := mkAgentsState ts count ["upstash"; "brain"] in
  _ ← upstashSet "aba:agents:registry" (agents_json state) 300;
  stamp ← now;
  _ ← brainWrite (mkBrainMemory None
        ("SYNC AGENTS [" +:+ show_nat (as_timestamp state) +:+ "]: "
           +:+ show_nat count +:+ " agents synced")
        "system" (Some ["sync"; "agents"]) (Some 3) (Some true)
        (Some ("sync_agents_" +:+ show_nat stamp))
        (Some ["sync"; "agents"]) None);
  _ ← logTrace (set_result (show_nat count +:+ " agents synced") trace);
  mret state.

Definition syncTraces : M TracesState :=
  trace ← createTrace "AIR" "SYNC" "UPSTASH" "Syncing traces" (Some "SYNCING");
  _ ← createBrainClient;
  reply ← store_select trace_records;
  let traces := reply_data reply in
  ts ← now;
  let state := mkTracesState ts (count_or_zero traces) in
  _ ← upstashSet "aba:traces:recent"
        (JObj (traces_fields state ++
               opt_field "traces"
                 (fun l => JArr (map trace_record_json (take 50%nat l)))
                 traces)%list)
        600;
  _ ← logTrace (set_result (show_nat (traceCount state) +:+ " traces synced")
                  trace);
  mret state.

Record Aggregate : Type := mkAggregate {
  agg_timestamp : nat;
  agents : AgentsState;
  traces : TracesState;
  inputState : Json;
  upstashConnected : bool
}.

Definition aggregate_json (r : Aggregate) : Json :=
  JObj [("timestamp", JNat (agg_timestamp r));
        ("agents", agents_json (agents r));
        ("traces", traces_json (traces r));
        ("inputState", inputState r);
        ("upstashConnected", JBool (upstashConnected r))].

(** [inputState || {}] *)
Definition state_or_empty (inputState : option Json) : Json :=
  match inputState with
  | Some j => if js_truthy j then j else JObj []
  | None => JObj []
  end.

Definition syncAll (inputState : option Json) : M Aggregate :=
  trace ← createTrace "CRON" "SYNC" "ALL" "Full sync starting" (Some "SYNCING");
  ts ← now;
  a ← syncAgents;
  t ← syncTraces;
  env ← ask;
  let results := mkAggregate ts a t (state_or_empty inputState)
                   (env_upstash env) in
  _ ← upstashSet "aba:state:current" (aggregate_json results) 300;
  _ ← logTrace (set_result "Full sync complete" trace);
  mret results.

Record Restored : Type := mkRestored {
  state : Json;
  r_agents : Json;
  r_traces : Json
}.

Definition restored_json (r : Restored) : Json :=
  JObj [("state", state r); ("agents", r_agents r); ("traces", r_traces r)].

Definition restore : M Restored :=
  trace ← createTrace "BOOT" "SYNC" "UPSTASH" "Restoring state"
            (Some "RESTORING");
  state ← upstashGet "aba:state:current";
  agents ← upstashGet "aba:agents:registry";
  traces ← upstashGet "aba:traces:recent";
  _ ← logTrace (set_result
         ("Restored: state=" +:+ show_bool (js_truthy state)
            +:+ ", agents=" +:+ show_bool (js_truthy agents)
            +:+ ", traces=" +:+ show_bool (js_truthy traces))
         trace);
  mret (mkRestored state agents traces).

Definition AGENT_NAME : string :=
  "Systematic Yielding and Network Coordinator (SYNC)".

Definition complete (action : string) (data : Json) : Json :=
  JObj [("agent", JStr AGENT_NAME); ("status", JStr "complete");
        ("action", JStr action); ("data", data)].

(** [body.action || 'sync_all'] *)
Definition action_of (body : SYNCRequest) : string :=
  match req_action body with
  | Some a => if String.eqb a EmptyString then "sync_all" else a
  | None => "sync_all"
  end.

(** The handler; a request whose body is not JSON is [None] and is read
    as [{}]. *)
Definition serve (req : option SYNCRequest) : M Response :=
  try_catch
    (let body := default (mkSYNCRequest None None) req in
     let action := action_of body in
     result ←
       (if String.eqb action "sync_agents" then
          data ← syncAgents; mret (complete action (agents_json data))
        else if String.eqb action "sync_traces" then
          data ← syncTraces; mret (complete action (traces_json data))
        else if String.eqb action "restore" then
          data ← restore; mret (complete action (restored_json data))
        else
          data ← syncAll (req_state body);
          mret (complete "sync_all" (aggregate_json data)));
     _ ← reportToAIR "SYNC" "complete" result;
     mret (json_response result))
    (fun message =>
       let errorResult :=
         JObj [("agent", JStr AGENT_NAME); ("status", JStr "error");
               ("error", JStr message)] in
       _ ← reportToAIR "SYNC" "error" errorResult;
       mret (json_response_with 500 errorResult)).

End Sync.

(** ** [sage/index.ts] *)

Module Sage.

Record SAGERequest : Type := mkSAGERequest {
  req_query : option string;
  req_action : option string;
  req_limit : option nat;
  req_intent_content : option string      (* [body.intent?.content] *)
}.

Definition AGENT_NAME : string :=
  "Strategic Assessment and Governance Engine (SAGE)".

(** [generateEmbedding]: one request to the embedding service with the
    text cut to 8000 characters; [data.data[0].embedding] of the answer. *)
Definition generateEmbedding (text : string) : M Embedding :=
  env ← ask;
  instant ← now;
  _ ← tick;
  match embed_reply env instant (prefix_of (80 * 100) text) with
  | EmbedRejected e => throw e
  | EmbedMalformed =>
      throw "Cannot read properties of undefined (reading '0')"
  | EmbedVector v => mret v
  end.

Definition text_result (r : Row) : Json :=
  JObj [("id", JStr (row_id r));
        ("preview", JStr (prefix_of 200 (row_content r)));
        ("type", JStr (row_memory_type r));
        ("importance", opt_Z_json (row_importance r));
        ("tags", opt_strings_json (row_tags r))].

Definition handleSearch (query : string) (limit : nat) : M Json :=
  trace ← createTrace "AIR" "SAGE" "SUPABASE"
            ("Searching: " +:+ prefix_of 50 query) (Some "SEARCHING");
  results ← brainSearch query limit;
  _ ← logTrace (set_result
         ("Found " +:+ show_nat (length results) +:+ " results") trace);
  mret (JObj [("agent", JStr AGENT_NAME); ("status", JStr "complete");
              ("searchType", JStr "text"); ("query", JStr query);
              ("found", JNat (length results));
              ("results", JArr (map text_result results))]).

(** [semanticSearch] of the shared client: threshold 0.5. *)
Definition semanticSearch (embedding : Embedding) (limit : nat)
  : M (list (Row * Z)) :=
  env ← ask;
  reply ← store_select
            (match_memories env embedding 4602678819172646912 limit);
  match reply with
  | StoreError e => throw e
  | StoreData data => mret data
  end.

Definition semantic_result (m : Row * Z) : Json :=
  let r := fst m in
  JObj [("id", JStr (row_id r));
        ("preview", JStr (prefix_of 200 (row_content r)));
        ("type", JStr (row_memory_type r));
        ("importance", opt_Z_json (row_importance r));
        ("similarity", JFloat (snd m))].

Definition handleSemanticSearch (query : string) (limit : nat) : M Json :=
  trace ← createTrace "AIR" "SAGE" "OPENAI"
            ("Generating embedding for: " +:+ prefix_of 30 query)
            (Some "EMBEDDING");
  embedding ← generateEmbedding query;
  _ ← logTrace (set_result "Embedding generated" trace);
  results ← semanticSearch embedding limit;
  mret (JObj [("agent", JStr AGENT_NAME); ("status", JStr "complete");
              ("searchType", JStr "semantic"); ("query", JStr query);
              ("found", JNat (length results));
              ("results", JArr (map semantic_result results))]).

(** [.select('id, content').is('embedding', null).limit(batchSize)] *)
Definition missing_embeddings (batchSize : nat) (rows : list Row)
  : list (string * string) :=
  map (fun r => (row_id r, row_content r))
    (take batchSize
       (List.filter (fun r => match row_embedding r with
                              | None => true
                              | Some _ => false
                              end) rows)).

(** [.update({ embedding }).eq('id', id)] *)
Definition update_embedding (id : string) (e : Embedding) (rows : list Row)
  : list Row :=
  map (fun r => if String.eqb (row_id r) id then set_row_embedding e r else r)
    rows.

(** The body of the loop of [handleBackfill] for one record; the value is
    the counter [processed] after it. *)
Definition backfill_one (memory : string * string) (processed : nat) : M nat :=
  try_catch
    (embedding ← generateEmbedding (snd memory);
     _ ← store_call (fun s =>
            (tt, upd_memory (update_embedding (fst memory) embedding) s));
     mret (S processed))
    (fun message =>
       _ ← console_log ("Failed to embed " +:+ fst memory +:+ ": " +:+ message);
       mret processed).

Fixpoint backfill_loop (memories : list (string * string)) (processed : nat)
  : M nat :=
  match memories with
  | [] => mret processed
  | memory :: rest =>
      processed' ← backfill_one memory processed;
      backfill_loop rest processed'
  end.

(** The fields [processed] and [total] of what [handleBackfill] returns. *)
Record Backfill : Type := mkBackfill {
  processed : nat;
  total : nat
}.

Definition backfill_json (b : Backfill) : Json :=
  JObj [("agent", JStr AGENT_NAME); ("status", JStr "complete");
        ("action", JStr "backfill");
        ("processed", JNat (processed b)); ("total", JNat (total b))].

Definition handleBackfill (batchSize : nat) : M Backfill :=
  trace ← createTrace "CRON" "SAGE" "SUPABASE" "Starting embedding backfill"
            (Some "BACKFILLING");
  reply ← store_select (missing_embeddings batchSize);
  match reply with
  | StoreError e => throw e
  | StoreData memories =>
      done ← backfill_loop memories 0%nat;
      _ ← logTrace (set_result
             ("Processed " +:+ show_nat done +:+ "/"
                +:+ show_nat (length memories)) trace);
      mret (mkBackfill done (length memories))
  end.

(** [body.limit || 10] *)
Definition limit_of (body : SAGERequest) : nat :=
  match req_limit body with
  | Some O => 10%nat
  | Some n => n
  | None => 10%nat
  end.

(** The handler; a request whose body is not JSON is [None]. *)
Definition serve (req : option SAGERequest) : M Response :=
  try_catch
    (body ← match req with
            | Some b => mret b
            | None => throw "Unexpected end of JSON input"
            end;
     _ ← createBrainClient;
     let action := or_string (req_action body) "search" in
     let query := or_string (req_query body)
                    (or_string (req_intent_content body) EmptyString) in
     let limit := limit_of body in
     result ←
       (if String.eqb action "semantic" then handleSemanticSearch query limit
        else if String.eqb action "backfill" then
          b ← handleBackfill limit; mret (backfill_json b)
        else handleSearch query limit);
     _ ← reportToAIR "SAGE" "complete" result;
     mret (json_response result))
    (fun message =>
       let errorResult :=
         JObj [("agent", JStr AGENT_NAME); ("status", JStr "error");
               ("error", JStr message)] in
       _ ← reportToAIR "SAGE" "error" errorResult;
       mret (json_response_with 500 errorResult)).

End Sage.

(** ** [shadow/index.ts] *)

Module Shadow.

Definition ABACIA_URL : string := "https://abacia-services.onrender.com".
Definition REACH_URL : string := "https://aba-reach.onrender.com".
Definition BRANDON_PHONE : string := "+13363898116".

Record SHADOWCheck : Type := mkSHADOWCheck {
  name : string;
  pass : bool;
  claimed : option string;
  reality : option string;
  error : option string;
  latencyMs : option nat
}.

Record Hallucination : Type := mkHallucination {
  claim : string;
  h_reality : string;
  severity : string
}.

Record SHADOWSnapshot : Type := mkSHADOWSnapshot {
  s_timestamp : nat;
  cycleId : string;
  checks : list SHADOWCheck;
  hallucinations : list Hallucination;
  trustScore : Z
}.

Definition checkEndpoint (url name : string) : M SHADOWCheck :=
  start ← now;
  env ← ask;
  _ ← tick;
  finish ← now;
  match http_get env url start with
  | Responded status =>
      mret (mkSHADOWCheck name (http_ok status) (Some "operational")
              (Some (if http_ok status then "operational"
                     else "status " +:+ show_Z status))
              None (Some (finish - start)%nat))
  | Rejected message =>
      mret (mkSHADOWCheck name false (Some "operational")
              (Some "unreachable") (Some message)
              (Some (finish - start)%nat))
  end.

(** [if (!checks[i].pass) trustScore -= penalty]; reading [pass] of a
    missing element throws. *)
Definition penalise (checks : list SHADOWCheck) (i : nat) (penalty score : Z)
  : M Z :=
  match checks !! i with
  | Some c => mret (if pass c then score else score - penalty)
  | None => throw "Cannot read properties of undefined (reading 'pass')"
  end.

(** CHECK 6: the probe of the memory table. [Array.isArray(data)] fails
    when the store answers with an error; only a throw costs points. *)
Definition brain_read_check (score : Z) : M (SHADOWCheck * Z) :=
  try_catch
    (_ ← createBrainClient;
     reply ← store_select (fun rows => map row_id (take 1%nat rows));
     mret (match reply_data reply with
           | Some _ =>
               mkSHADOWCheck "BRAIN_READ" true None (Some "accessible")
                 None None
           | None =>
               mkSHADOWCheck "BRAIN_READ" false None (Some "inaccessible")
                 None None
           end, score))
    (fun message =>
       mret (mkSHADOWCheck "BRAIN_READ" false None None (Some message) None,
             score - 15)).

(** [check.error || check.reality || 'failed'] *)
Definition first_nonempty (a b : option string) (c : string) : string :=
  let truthy o := match o with
                  | Some s => negb (String.eqb s EmptyString)
                  | None => false
                  end in
  if truthy a then default c a
  else if truthy b then default c b
  else c.

Definition hallucination_of (check : SHADOWCheck) : Hallucination :=
  mkHallucination (name check +:+ " should be working")
    (first_nonempty (error check) (reality check) "failed")
    (if includes "ALIVE" (name check) then "CRITICAL" else "WARNING").

Definition runAudit : M SHADOWSnapshot :=
  stamp ← now;
  let cycleId := "shadow_" +:+ show_nat stamp in
  ts ← now;
  let checks : list SHADOWCheck := [] in
  let score := 100 in
  _ ← createTrace "CRON" "SHADOW" "AIR" "Starting silent audit"
        (Some "AUDITING");
  c ← checkEndpoint ABACIA_URL "ABACIA_ALIVE";
  let checks := (checks ++ [c])%list in
  score ← penalise checks 0 25 score;
  c ← checkEndpoint (REACH_URL +:+ "/api/pulse/status") "REACH_ALIVE";
  let checks := (checks ++ [c])%list in
  score ← penalise checks 1 25 score;
  c ← checkEndpoint (ABACIA_URL +:+ "/api/air/status") "AIR_STATUS";
  let checks := (checks ++ [c])%list in
  score ← penalise checks 2 15 score;
  c ← checkEndpoint (ABACIA_URL +:+ "/api/email/inbox?limit=1")
        "EMAIL_ENDPOINT";
  let checks := (checks ++ [c])%list in
  score ← penalise checks 3 10 score;
  c ← checkEndpoint (ABACIA_URL +:+ "/api/omi/manifest") "OMI_MANIFEST";
  let checks := (checks ++ [c])%list in
  score ← penalise checks 4 10 score;
  '(c, score) ← brain_read_check score;
  let checks := (checks ++ [c])%list in
  let failedChecks := List.filter (fun c => negb (pass c)) checks in
  let hallucinations := map hallucination_of failedChecks in
  mret (mkSHADOWSnapshot ts cycleId checks hallucinations (Z.max 0 score)).

Definition join_with (sep : string) (l : list string) : string :=
  String.concat sep l.

Definition alertBrandon (snapshot : SHADOWSnapshot) : M unit :=
  if 80 <=? trustScore snapshot then mret tt
  else
    _ ← createTrace "SHADOW" "REACH" "SMS"
          ("Trust " +:+ show_Z (trustScore snapshot) +:+ "% - alerting")
          (Some "ALERTING");
    let criticalIssues :=
      List.filter (fun h => String.eqb (severity h) "CRITICAL")
        (hallucinations snapshot) in
    (* the leading emoji is two code units in the source and four bytes
       here *)
    let message :=
      "🚨 SHADOW: Trust " +:+ show_Z (trustScore snapshot) +:+ "%"
        +:+ String (ascii_of_nat 10) EmptyString
        +:+ show_nat (length criticalIssues) +:+ " critical: "
        +:+ join_with ", " (map claim criticalIssues) in
    try_catch
      (reach_post (ReachSms (mkSms BRANDON_PHONE (prefix_of 160 message))))
      (fun e => console_log ("[SHADOW] Alert failed: " +:+ e)).

Definition storeSnapshot (snapshot : SHADOWSnapshot) : M unit :=
  let low := trustScore snapshot <? 80 in
  _ ← brainWrite (mkBrainMemory None
        ("SHADOW SNAPSHOT [" +:+ show_nat (s_timestamp snapshot)
           +:+ "]: Trust " +:+ show_Z (trustScore snapshot)
           +:+ "%. Checks: " +:+ show_nat (length (checks snapshot))
           +:+ ". Passed: "
           +:+ show_nat (length (List.filter pass (checks snapshot)))
           +:+ ". Hallucinations: "
           +:+ show_nat (length (hallucinations snapshot)))
        "system" (Some ["shadow"; "snapshot"; "audit"])
        (Some (if low then 9 else 4)) (Some true)
        (Some (cycleId snapshot))
        (Some ["shadow"; "snapshot"; if low then "alert" else "ok"])
        None);
  mret tt.

Definition AGENT_NAME : string :=
  "Stealthy Historical Audit and Daily Oversight Watch (SHADOW)".

(** The handler: the request is not read. *)
Definition serve : M Response :=
  try_catch
    (_ ← createBrainClient;
     snapshot ← runAudit;
     _ ← storeSnapshot snapshot;
     _ ← (if trustScore snapshot <? 80 then alertBrandon snapshot
          else mret tt);
     _ ← createTrace "SHADOW" "AIR" "AIR"
           ("Audit complete. Trust: " +:+ show_Z (trustScore snapshot)
              +:+ "%")
           (Some "COMPLETE");
     let result :=
       JObj [("agent", JStr AGENT_NAME); ("status", JStr "complete");
             ("vaulted", JBool true);
             ("access", JStr "AIR + ABA + BRANDON ONLY");
             ("trustScore", JNum (trustScore snapshot));
             ("checksRun", JNat (length (checks snapshot)));
             ("checksPassed",
               JNat (length (List.filter pass (checks snapshot))));
             ("hallucinationsDetected",
               JNat (length (hallucinations snapshot)));
             ("alertSent", JBool (trustScore snapshot <? 80))] in
     _ ← reportToAIR "SHADOW" "complete" result;
     mret (json_response result))
    (fun message =>
       let errorResult :=
         JObj [("agent", JStr AGENT_NAME); ("status", JStr "error");
               ("vaulted", JBool true); ("error", JStr message)] in
       _ ← reportToAIR "SHADOW" "error" errorResult;
       mret (json_response_with 500 errorResult)).

End Shadow.

(** ** [luke/index.ts] *)

Module Luke.

Record LUKERequest : Type := mkLUKERequest {
  req_content : option string;
  req_transcript_id : option string;
  req_source : option string
}.

Record ActionItem : Type := mkActionItem {
  text : string;
  type : string;
  urgency : Z;
  confidence : Z       (* binary64 encoding; the source writes 0.8 *)
}.

Definition AGENT_NAME : string :=
  "Listening and Understanding Key Extracts (LUKE)".

Definition item_json (i : ActionItem) : Json :=
  JObj [("text", JStr (text i)); ("type", JStr (type i));
        ("urgency", JNum (urgency i)); ("confidence", JFloat (confidence i))].

Section Handler.

(** [extractActionItems]: the regular-expression scan of the content,
    taken as given; the handler only uses the items it returns. *)
Variable extractActionItems : string -> list ActionItem.

(** The body of the loop over the extracted items. *)
Definition store_and_escalate (source : string) (item : ActionItem)
  : M unit :=
  stamp ← now;
  _ ← brainWrite (mkBrainMemory None
        ("ACTION ITEM [" +:+ toUpperCase (type item) +:+ "] (urgency "
           +:+ show_Z (urgency item) +:+ "/10): " +:+ text item)
        "system" (Some ["action_item"; type item; "luke"])
        (Some (urgency item)) (Some true)
        (Some ("luke_" +:+ source +:+ "_" +:+ show_nat stamp))
        (Some ["action_needed"; "luke"; type item; source]) None);
  if 8 <=? urgency item then
    _ ← escalateToREACH (urgency item)
          ("URGENT " +:+ toUpperCase (type item) +:+ ": " +:+ text item)
          "luke_extract";
    _ ← createTrace "LUKE" "REACH" "ESCALATE"
          ("Urgent: " +:+ prefix_of 30 (text item)) (Some "ESCALATED");
    mret tt
  else mret tt.

(** The handler; a request whose body is not JSON is [None]. *)
Definition serve (req : option LUKERequest) : M Response :=
  try_catch
    (body ← match req with
            | Some b => mret b
            | None => throw "Unexpected end of JSON input"
            end;
     _ ← createBrainClient;
     let content := or_string (req_content body) EmptyString in
     let source := or_string (req_source body) "manual" in
     if String.eqb content EmptyString
        || Nat.ltb (String.length content) 10
     then
       mret (json_response
               (JObj [("agent", JStr AGENT_NAME);
                      ("status", JStr "skipped");
                      ("reason", JStr "Content too short")]))
     else
       trace ← createTrace (if String.eqb source "omi" then "OMI" else "AIR")
                 "LUKE" "AIR"
                 ("Extracting from " +:+ show_nat (String.length content)
                    +:+ " chars")
                 (Some "EXTRACTING");
       let items := extractActionItems content in
       _ ← for_each items (store_and_escalate source);
       _ ← logTrace (set_result
              ("Extracted " +:+ show_nat (length items) +:+ " items")
              trace);
       let result :=
         JObj [("agent", JStr AGENT_NAME); ("status", JStr "complete");
               ("source", JStr source);
               ("contentLength", JNat (String.length content));
               ("itemsExtracted", JNat (length items));
               ("urgentItems",
                 JNat (length (List.filter (fun i => 8 <=? urgency i)
                                 items)));
               ("items", JArr (map item_json (take 20%nat items)))] in
       _ ← reportToAIR "LUKE" "complete" result;
       mret (json_response result))
    (fun message =>
       let errorResult :=
         JObj [("agent", JStr AGENT_NAME); ("status", JStr "error");
               ("error", JStr message)] in
       _ ← reportToAIR "LUKE" "error" errorResult;
       mret (json_response_with 500 errorResult)).

End Handler.

End Luke.

(** ** [vara/index.ts] *)

Module Vara.

Record VARARequest : Type := mkVARARequest {
  req_text : option string;
  req_emotion : option string;
  req_returnFormat : option string
}.

Definition AGENT_NAME : string :=
  "Vocal Authorized Representative of ABA (VARA)".

Definition prosody (rate pitch text : string) : string :=
  "<speak><prosody rate=" +:+ dquote +:+ rate +:+ dquote +:+ " pitch="
    +:+ dquote +:+ pitch +:+ dquote +:+ ">" +:+ text
    +:+ "</prosody></speak>".

Definition addEmotionTags (text emotion : string) : string :=
  if String.eqb emotion "warm" then prosody "95%" "-2%" text
  else if String.eqb emotion "excited" then prosody "105%" "+3%" text
  else if String.eqb emotion "concerned" then prosody "90%" "-3%" text
  else if String.eqb emotion "encouraging" then prosody "100%" "+1%" text
  else text.

(** [/a|b|c/i.test(lower)] for literal alternatives. *)
Definition mentions (keywords : list string) (lower : string) : bool :=
  existsb (fun k => includes k lower) keywords.

Definition detectEmotion (text : string) : string :=
  let lower := toLowerCase text in
  if mentions ["urgent"; "problem"; "issue"; "error"; "failed"; "broken";
               "critical"] lower
  then "concerned"
  else if mentions ["congratulations"; "amazing"; "excellent"; "wonderful";
                    "success"; "completed"; "done"] lower
  then "excited"
  else if mentions ["you can"; "keep going"; "almost"; "good job";
                    "great work"; "progress"] lower
  then "encouraging"
  else "warm".

Definition textToSpeech (text : string) : M (list Z) :=
  env ← ask;
  instant ← now;
  _ ← tick;
  match speech_reply env instant text with
  | SpeechRejected e => throw e
  | SpeechError e => throw ("ElevenLabs error: " +:+ e)
  | SpeechAudio bytes => mret bytes
  end.

Definition base64_alphabet : string :=
  "ABCDEFGHIJKLMNOPQRSTUVWXYZabcdefghijklmnopqrstuvwxyz0123456789+/".

Definition base64_digit (n : Z) : string :=
  match String.get (Z.to_nat n) base64_alphabet with
  | Some c => String c EmptyString
  | None => EmptyString
  end.

(** [btoa] of the bytes. *)
Fixpoint arrayBufferToBase64 (bytes : list Z) : string :=
  match bytes with
  | [] => EmptyString
  | [a] =>
      base64_digit (Z.shiftr a 2)
        +:+ base64_digit (Z.shiftl (Z.land a 3) 4) +:+ "=="
  | [a; b] =>
      base64_digit (Z.shiftr a 2)
        +:+ base64_digit (Z.lor (Z.shiftl (Z.land a 3) 4) (Z.shiftr b 4))
        +:+ base64_digit (Z.shiftl (Z.land b 15) 2) +:+ "="
  | a :: b :: c :: rest =>
      base64_digit (Z.shiftr a 2)
        +:+ base64_digit (Z.lor (Z.shiftl (Z.land a 3) 4) (Z.shiftr b 4))
        +:+ base64_digit (Z.lor (Z.shiftl (Z.land b 15) 2) (Z.shiftr c 6))
        +:+ base64_digit (Z.land c 63)
        +:+ arrayBufferToBase64 rest
  end.

Definition result_json (text emotion : string) (audio : list Z)
  (audioBase64 : option string) : Json :=
  JObj ([("agent", JStr AGENT_NAME); ("status", JStr "complete");
         ("textLength", JNat (String.length text));
         ("emotion", JStr emotion);
         ("audioFormat", JStr "audio/mpeg");
         ("audioSize", JNat (length audio))]
        ++ opt_field "audioBase64" JStr audioBase64
        ++ [("personality", JStr "warm, butler-like, never punchy")])%list.

(** The handler; a request whose body is not JSON is [None]. *)
Definition serve (req : option VARARequest) : M Response :=
  try_catch
    (body ← match req with
            | Some b => mret b
            | None => throw "Unexpected end of JSON input"
            end;
     _ ← createBrainClient;
     let text := or_string (req_text body) EmptyString in
     if String.eqb text EmptyString || Nat.ltb (String.length text) 1 then
       mret (json_response_with 400
               (JObj [("agent", JStr AGENT_NAME); ("status", JStr "error");
                      ("error", JStr "No text provided")]))
     else
       trace ← createTrace "AIR" "VARA" "ELEVENLABS"
                 ("Speaking: " +:+ prefix_of 30 text +:+ "...")
                 (Some "SPEAKING");
       let emotion := or_string (req_emotion body) (detectEmotion text) in
       let emotionalText := addEmotionTags text emotion in
       audioBuffer ← textToSpeech emotionalText;
       let audioBase64 := arrayBufferToBase64 audioBuffer in
       _ ← logTrace (set_result
              ("Generated " +:+ show_nat (length audioBuffer) +:+ " bytes")
              trace);
       ts ← now;
       stamp ← now;
       _ ← brainWrite (mkBrainMemory None
             ("VARA SPOKE [" +:+ show_nat ts +:+ "]: " +:+ dquote
                +:+ prefix_of 100 text +:+ "..." +:+ dquote +:+ " ("
                +:+ emotion +:+ " emotion)")
             "system" (Some ["vara"; "voice"]) (Some 3) (Some true)
             (Some ("vara_speak_" +:+ show_nat stamp))
             (Some ["vara"; "voice"; "elevenlabs"]) None);
       let wants_base64 :=
         match req_returnFormat body with
         | Some f => String.eqb f "base64"
         | None => false
         end in
       let result :=
         result_json text emotion audioBuffer
           (if wants_base64 then Some audioBase64 else None) in
       _ ← reportToAIR "VARA" "complete"
             (result_json text emotion audioBuffer None);
       if wants_base64 then mret (json_response result)
       else
         mret (mkResponse 200
                 [("Content-Type", "audio/mpeg");
                  ("X-VARA-Status", "complete");
                  ("X-VARA-Emotion", emotion)]
                 (BinaryBody audioBuffer)))
    (fun message =>
       let errorResult :=
         JObj [("agent", JStr AGENT_NAME); ("status", JStr "error");
               ("error", JStr message)] in
       _ ← reportToAIR "VARA" "error" errorResult;
       mret (json_response_with 500 errorResult)).

End Vara.

(** ** The smaller agents *)

(** [${value}] of an optional string: an absent one prints as "undefined". *)
Definition show_opt (o : option string) : string := default "undefined" o.

Definition newline : string := String (ascii_of_nat 10) EmptyString.

(** The [catch] block of the handlers that do not report the failure. *)
Definition plain_error (agent_name message : string) : M Response :=
  mret (json_response_with 500
          (JObj [("agent", JStr agent_name); ("status", JStr "error");
                 ("error", JStr message)])).

(** [await req.json()] of a request whose body is not JSON. *)
Definition parse_body {A} (req : option A) : M A :=
  match req with
  | Some body => mret body
  | None => throw "Unexpected end of JSON input"
  end.

(** *** GRIT *)

Module Grit.

Record GRITRequest : Type := mkGRITRequest {
  req_task : option string;
  req_attempts : option (list Json);
  req_maxAttempts : option Z
}.

Definition AGENT_NAME : string :=
  "Genuine Resolution through Intelligent Tenacity (GRIT)".

Definition alternatives : list string :=
  ["Try a different approach";
   "Break the task into smaller steps";
   "Search for documentation";
   "Check for similar past solutions";
   "Simplify the requirements";
   "Ask clarifying questions";
   "Use a template or example";
   "Escalate with specific blockers"].

Definition serve (req : option GRITRequest) : M Response :=
  try_catch
    (body ← parse_body req;
     let task := req_task body in
     let attempts := default [] (req_attempts body) in
     let maxAttempts := default 8 (req_maxAttempts body) in
     _ ← createTrace "AIR" "GRIT" "AIR"
           ("Attempt " +:+ show_nat (length attempts + 1) +:+ "/"
              +:+ show_Z maxAttempts +:+ ": "
              +:+ show_opt (prefix_of 30 <$> task))
           (Some "TRYING");
     if maxAttempts <=? Z.of_nat (length attempts) then
       mret (json_response
               (JObj [("agent", JStr AGENT_NAME); ("status", JStr "exhausted");
                      ("message",
                        JStr "Tried 8 alternatives. Escalating to human.");
                      ("attempts", JNat (length attempts))]))
     else
       _ ← createBrainClient;
       solutions ← brainSearch (show_opt task +:+ " solution fix resolve") 5;
       let nextAlternative :=
         default "Try again with new context"
           (alternatives !! length attempts) in
       stamp ← now;
       _ ← brainWrite (mkBrainMemory None
             ("GRIT ATTEMPT " +:+ show_nat (length attempts + 1)
                +:+ ": Task: " +:+ show_opt (prefix_of 100 <$> task)
                +:+ ". Next: " +:+ nextAlternative)
             "system" (Some ["grit"; "resilience"]) (Some 5) (Some true)
             (Some ("grit_" +:+ show_nat stamp)) (Some ["grit"; "attempt"])
             None);
       let result :=
         JObj [("agent", JStr AGENT_NAME); ("status", JStr "trying");
               ("attemptNumber", JNat (length attempts + 1));
               ("maxAttempts", JNum maxAttempts);
               ("nextAlternative", JStr nextAlternative);
               ("solutionsFound", JNat (length solutions));
               ("message",
                 JStr "GRIT never gives up. Trying alternative approach.")] in
       _ ← reportToAIR "GRIT" "complete" result;
       mret (json_response result))
    (plain_error AGENT_NAME).

End Grit.

(** *** DOD *)

Module Dod.

Record DODRequest : Type := mkDODRequest {
  req_company : option string;
  req_role : option string;
  req_action : option string
}.

Definition AGENT_NAME : string := "Drill or Die (DOD)".

Definition STAR_TEMPLATE : string :=
  "STAR Method:" +:+ newline
    +:+ "S - Situation: Describe the context" +:+ newline
    +:+ "T - Task: What was required?" +:+ newline
    +:+ "A - Action: What did YOU do?" +:+ newline
    +:+ "R - Result: What was the outcome?".

Definition questions (company role : option string) : list string :=
  ["Tell me about yourself and why you're interested in "
     +:+ or_string company "this role";
   "Describe a challenging project you led. What was the outcome?";
   "How do you handle tight deadlines and competing priorities?";
   "Where do you see yourself in 5 years?";
   "Why should we hire you for " +:+ or_string role "this position" +:+ "?"].

Definition serve (req : option DODRequest) : M Response :=
  try_catch
    (body ← parse_body req;
     let company := req_company body in
     let role := req_role body in
     _ ← createTrace "AIR" "DOD" "AIR"
           ("Drill: " +:+ or_string company "interview" +:+ " "
              +:+ or_string role "prep")
           (Some "DRILLING");
     _ ← createBrainClient;
     context ← brainSearch
                 (show_opt company +:+ " " +:+ show_opt role +:+ " interview") 5;
     let questions := questions company role in
     ts ← now;
     stamp ← now;
     _ ← brainWrite (mkBrainMemory None
           ("DOD DRILL [" +:+ show_nat ts +:+ "]: "
              +:+ or_string company "Company" +:+ " - "
              +:+ or_string role "Role" +:+ ". Questions: "
              +:+ show_nat (length questions))
           "system" (Some ["dod"; "interview"; "drill"]) (Some 7) (Some true)
           (Some ("dod_" +:+ show_nat stamp))
           (Some ["dod"; "interview"; "prep"]) None);
     let result :=
       JObj ([("agent", JStr AGENT_NAME); ("status", JStr "complete")]
             ++ opt_field "company" JStr company
             ++ opt_field "role" JStr role
             ++ [("questionCount", JNat (length questions));
                 ("questions", json_strings questions);
                 ("starTemplate", JStr STAR_TEMPLATE);
                 ("contextFound", JNat (length context))]) in
     _ ← reportToAIR "DOD" "complete" result;
     mret (json_response result))
    (plain_error AGENT_NAME).

End Dod.

(** *** TIM *)

Module Tim.

Record TIMRequest : Type := mkTIMRequest {
  req_query : option string
}.

Definition AGENT_NAME : string := "Temporary Interim Model (TIM)".

(** [/a|b/i.test(lower)] for literal alternatives. *)
Definition mentions (keywords : list string) (lower : string) : bool :=
  existsb (fun k => includes k lower) keywords.

Definition serve (req : option TIMRequest) : M Response :=
  start ← now;
  try_catch
    (body ← parse_body req;
     let query := or_string (req_query body) EmptyString in
     _ ← createTrace "AIR" "TIM" "AIR" ("Quick: " +:+ prefix_of 30 query)
           (Some "PROCESSING");
     let lower := toLowerCase query in
     env ← ask;
     instant ← now;
     let answer : option string := None in
     let answer := if mentions ["what time"; "current time"] lower
                   then Some (locale_time env instant) else answer in
     let answer := if mentions ["what date"; "today"] lower
                   then Some (locale_date env instant) else answer in
     if negb (String.eqb (default EmptyString answer) EmptyString) then
       finish ← now;
       mret (json_response
               (JObj [("agent", JStr AGENT_NAME); ("status", JStr "complete");
                      ("answer", JStr (default EmptyString answer));
                      ("latencyMs", JNat (finish - start))]))
     else
       _ ← createBrainClient;
       results ← brainSearch query 3;
       finish ← now;
       mret (json_response
               (JObj [("agent", JStr AGENT_NAME); ("status", JStr "complete");
                      ("found", JNat (length results));
                      ("answer",
                        JStr (or_string
                                (prefix_of 200 ∘ row_content <$> head results)
                                "No quick answer"));
                      ("latencyMs", JNat (finish - start))])))
    (plain_error AGENT_NAME).

End Tim.

(** *** HEAR *)

Module Hear.

Record HEARRequest : Type := mkHEARRequest {
  req_transcript : option string;
  req_text : option string
}.

Definition AGENT_NAME : string :=
  "Hearing Engine for Ambient Recognition (HEAR)".

Definition serve (req : option HEARRequest) : M Response :=
  try_catch
    (body ← parse_body req;
     _ ← createTrace "OMI" "HEAR" "AIR" "Receiving audio" (Some "TRANSCRIBING");
     let transcript :=
       or_string (req_transcript body)
         (or_string (req_text body) EmptyString) in
     if String.eqb transcript EmptyString then
       mret (json_response
               (JObj [("agent", JStr AGENT_NAME); ("status", JStr "skipped");
                      ("reason", JStr "No transcript")]))
     else
       _ ← createBrainClient;
       ts ← now;
       stamp ← now;
       _ ← brainWrite (mkBrainMemory None
             ("HEAR TRANSCRIPT [" +:+ show_nat ts +:+ "]: "
                +:+ prefix_of 500 transcript)
             "system" (Some ["hear"; "transcript"]) (Some 5) (Some true)
             (Some ("hear_" +:+ show_nat stamp))
             (Some ["hear"; "transcript"; "omi"]) None);
       _ ← dispatchAgent "LUKE" (JObj [("content", JStr transcript)])
             (JObj [("source", JStr "hear")]);
       let result :=
         JObj [("agent", JStr AGENT_NAME); ("status", JStr "complete");
               ("transcriptLength", JNat (String.length transcript));
               ("dispatchedTo", JStr "LUKE")] in
       _ ← reportToAIR "HEAR" "complete" result;
       mret (json_response result))
    (plain_error AGENT_NAME).

End Hear.

(** *** HUNTER *)

Module Hunter.

Record HUNTERRequest : Type := mkHUNTERRequest {
  req_action : option string;
  req_jobUrl : option string;
  req_query : option string
}.

Definition AGENT_NAME : string :=
  "Hunting Useful New Talent and Employment Resources (HUNTER)".

Definition job_source (jobUrl : string) : string :=
  if includes "idealist" jobUrl then "idealist"
  else if includes "linkedin" jobUrl then "linkedin"
  else "other".

Definition job_json (j : Row) : Json :=
  JObj [("preview", JStr (prefix_of 100 (row_content j)));
        ("tags", opt_strings_json (row_tags j))].

Definition serve (req : option HUNTERRequest) : M Response :=
  try_catch
    (body ← parse_body req;
     let action := req_action body in
     let jobUrl := or_string (req_jobUrl body) EmptyString in
     let query := req_query body in
     _ ← createTrace "AIR" "HUNTER" "AIR"
           (or_string action "search" +:+ ": "
              +:+ or_string query (or_string (req_jobUrl body) "jobs"))
           (Some "HUNTING");
     _ ← createBrainClient;
     if bool_decide (action = Some "parse_url")
        && negb (String.eqb jobUrl EmptyString)
     then
       parsedAt ← now;
       let source := job_source jobUrl in
       stamp ← now;
       _ ← brainWrite (mkBrainMemory None
             ("JOB FOUND: " +:+ jobUrl +:+ " (" +:+ source +:+ ")")
             "system" (Some ["hunter"; "job"; source]) (Some 7) (Some true)
             (Some ("hunter_" +:+ show_nat stamp))
             (Some ["job"; "hunter"; "action_needed"; source]) None);
       _ ← dispatchAgent "QUILL"
             (JObj [("type", JStr "cover_letter");
                    ("context", JStr ("Job: " +:+ jobUrl))])
             (JObj []);
       mret (json_response
               (JObj [("agent", JStr AGENT_NAME); ("status", JStr "complete");
                      ("action", JStr "parse_url");
                      ("job", JObj [("url", JStr jobUrl);
                                    ("parsedAt", JNat parsedAt);
                                    ("source", JStr source)]);
                      ("dispatchedTo", JStr "QUILL")]))
     else
       jobs ← brainSearch (or_string query "job application") 10;
       let result :=
         JObj [("agent", JStr AGENT_NAME); ("status", JStr "complete");
               ("action", JStr "search"); ("found", JNat (length jobs));
               ("jobs", JArr (map job_json jobs))] in
       _ ← reportToAIR "HUNTER" "complete" result;
       mret (json_response result))
    (plain_error AGENT_NAME).

End Hunter.

(** *** MARK *)

Module Mark.

Record MARKRequest : Type := mkMARKRequest {
  req_transcript : option string;
  req_meetingTitle : option string;
  req_attendees : option (list string)
}.

Definition AGENT_NAME : string := "Meeting After Report Keeper (MARK)".

Definition serve (req : option MARKRequest) : M Response :=
  try_catch
    (body ← parse_body req;
     let transcript := or_string (req_transcript body) EmptyString in
     let meetingTitle := req_meetingTitle body in
     _ ← createTrace "AIR" "MARK" "AIR"
           ("MAR: " +:+ or_string meetingTitle "Meeting") (Some "GENERATING");
     if String.eqb transcript EmptyString then
       mret (json_response
               (JObj [("agent", JStr AGENT_NAME); ("status", JStr "skipped");
                      ("reason", JStr "No transcript")]))
     else
       _ ← dispatchAgent "LUKE"
             (JObj [("content", JStr transcript); ("source", JStr "mark")])
             (JObj []);
       let title := or_string meetingTitle "Meeting" in
       date ← now;
       let attendees := default [] (req_attendees body) in
       let summary := prefix_of 500 transcript in
       _ ← createBrainClient;
       stamp ← now;
       _ ← brainWrite (mkBrainMemory None
             ("MEETING AFTER REPORT: " +:+ title +:+ " [" +:+ show_nat date
                +:+ "]" +:+ newline +:+ "Attendees: "
                +:+ String.concat ", " attendees +:+ newline +:+ "Summary: "
                +:+ summary)
             "system" (Some ["mark"; "meeting"; "mar"]) (Some 7) (Some true)
             (Some ("mark_" +:+ show_nat stamp))
             (Some ["mark"; "meeting"; "mar"]) None);
       let result :=
         JObj [("agent", JStr AGENT_NAME); ("status", JStr "complete");
               ("meetingTitle", JStr title);
               ("attendeeCount", JNat (length attendees));
               ("summaryLength", JNat (String.length summary));
               ("dispatchedToLuke", JBool true)] in
       _ ← reportToAIR "MARK" "complete" result;
       mret (json_response result))
    (plain_error AGENT_NAME).

End Mark.

(** *** QUILL *)

Module Quill.

Record QUILLRequest : Type := mkQUILLRequest {
  req_type : option string;
  req_context : option string;
  req_template : option string
}.

Definition AGENT_NAME : string :=
  "Quality Unified Intelligence for Letters and Language (QUILL)".

Definition compose (type context : option string) : string :=
  if bool_decide (type = Some "cover_letter") then
    "Dear Hiring Manager," +:+ newline +:+ newline
      +:+ or_string context "I am writing to express my interest..."
      +:+ newline +:+ newline +:+ "Sincerely," +:+ newline +:+ "Brandon Pierce"
  else if bool_decide (type = Some "email") then
    or_string context "Email content here..."
  else or_string context "Content...".

(** [draftResult?.passed ?? true] *)
Definition draft_passed (draftResult : Json) : Json :=
  match json_field "passed" draftResult with
  | None | Some JNull => JBool true
  | Some value => value
  end.

Definition result_json (type : option string) (content : string)
  (draftResult : Json) (examples : list Row) (with_content : bool) : Json :=
  JObj ([("agent", JStr AGENT_NAME); ("status", JStr "complete")]
        ++ opt_field "type" JStr type
        ++ [("contentLength", JNat (String.length content));
            ("draftPassed", draft_passed draftResult);
            ("examplesFound", JNat (length examples))]
        ++ (if with_content then [("content", JStr content)] else [])).

Definition serve (req : option QUILLRequest) : M Response :=
  try_catch
    (body ← parse_body req;
     let type := req_type body in
     let context := req_context body in
     _ ← createTrace "AIR" "QUILL" "AIR"
           ("Writing " +:+ or_string type "content") (Some "WRITING");
     _ ← createBrainClient;
     examples ← brainSearch (show_opt type +:+ " template example") 5;
     let content := compose type context in
     draftResult ← dispatchAgent "DRAFT" (JObj [("content", JStr content)])
                     (JObj []);
     stamp ← now;
     _ ← brainWrite (mkBrainMemory None
           ("QUILL OUTPUT [" +:+ show_opt type +:+ "]: "
              +:+ prefix_of 200 content +:+ "...")
           "system" (Some ["quill"; or_string type "writing"]) (Some 5)
           (Some true) (Some ("quill_" +:+ show_nat stamp))
           (Some ["quill"; "writing"; or_string type "general"]) None);
     _ ← reportToAIR "QUILL" "complete"
           (result_json type content draftResult examples false);
     mret (json_response (result_json type content draftResult examples true)))
    (plain_error AGENT_NAME).

End Quill.

(** *** DRAFT *)

Module Draft.

Record DRAFTRequest : Type := mkDRAFTRequest {
  req_content : option string;
  req_text : option string
}.

Definition AGENT_NAME : string :=
  "Detection and Review of AI-Fabricated Text (DRAFT)".

(** The alternative matched at the start of [s], letter case aside: the
    first one in the order written. *)
Definition match_at (alternatives : list string) (s : string) : option string :=
  (fun alt => prefix_of (String.length alt) s)
    <$> List.find (fun alt => String.prefix (toLowerCase alt) (toLowerCase s))
          alternatives.

(** [content.match(/a|b|c/gi)] for literal alternatives: the matches from
    left to right, none overlapping another. [skip] is what is left of the
    match being stepped over. *)
Fixpoint match_all (alternatives : list string) (skip : nat) (s : string)
  : list string :=
  match s with
  | EmptyString => []
  | String _ rest =>
      match skip with
      | S k => match_all alternatives k rest
      | O =>
          match match_at alternatives s with
          | Some m => m :: match_all alternatives (String.length m - 1) rest
          | None => match_all alternatives 0 rest
          end
      end
  end.

Record Pattern : Type := mkPattern {
  alternatives : list string;
  type : string;
  severity : string
}.

Definition BS_PATTERNS : list Pattern :=
  [mkPattern ["I cannot"; "I can't help"; "I understand your"; "certainly";
              "definitely"] "ai_phrase" "high";
   mkPattern ["as an AI"; "as a language model"; "I don't have access"]
     "meta_commentary" "critical";
   mkPattern ["please note that"; "it's important to"; "keep in mind"]
     "filler" "medium";
   mkPattern ["TODO"; "PLACEHOLDER"; "DEMO"; "INSERT"; "EXAMPLE"]
     "placeholder" "critical";
   mkPattern ["delve"; "leverage"; "utilize"; "facilitate"; "synergy"]
     "corporate_speak" "medium";
   mkPattern ["Lorem ipsum"; "foo bar"; "test123"] "test_content" "critical"].

Record Violation : Type := mkViolation {
  v_type : string;
  v_severity : string;
  v_matches : list string;
  v_count : nat
}.

Definition violation_json (v : Violation) : Json :=
  JObj [("type", JStr (v_type v)); ("severity", JStr (v_severity v));
        ("matches", json_strings (v_matches v)); ("count", JNat (v_count v))].

Definition violations_of (content : string) : list Violation :=
  flat_map
    (fun p =>
       match match_all (alternatives p) 0 content with
       | [] => []
       | matches =>
           [mkViolation (type p) (severity p) (take 3 matches) (length matches)]
       end)
    BS_PATTERNS.

Definition is_critical (v : Violation) : bool :=
  String.eqb (v_severity v) "critical".

Definition serve (req : option DRAFTRequest) : M Response :=
  try_catch
    (body ← parse_body req;
     let content :=
       or_string (req_content body) (or_string (req_text body) EmptyString) in
     _ ← createTrace "AIR" "DRAFT" "AIR"
           ("Checking " +:+ show_nat (String.length content) +:+ " chars")
           (Some "AUDITING");
     let violations := violations_of content in
     let criticalViolations := length (List.filter is_critical violations) in
     let passed := Nat.eqb criticalViolations 0 in
     let result :=
       JObj [("agent", JStr AGENT_NAME); ("status", JStr "complete");
             ("passed", JBool passed);
             ("violationCount", JNat (length violations));
             ("criticalViolations", JNat criticalViolations);
             ("violations", JArr (map violation_json (take 10 violations)))] in
     _ ← reportToAIR "DRAFT" "complete" result;
     mret (json_response result))
    (plain_error AGENT_NAME).

End Draft.

(** *** IMAN *)

Module Iman.

Record IMANRequest : Type := mkIMANRequest {
  req_action : option string;
  req_limit : option Z;
  req_to : option string;
  req_subject : option string;
  req_body : option string
}.

Definition AGENT_NAME : string := "Inbox Management Agent Navigator (IMAN)".

Definition URGENT_KEYWORDS : list string :=
  ["urgent"; "asap"; "emergency"; "critical"; "immediate"; "deadline";
   "today"; "eod"].

Definition JOB_KEYWORDS : list string :=
  ["idealist"; "job alert"; "new job"; "application"; "interview"; "position"].

Record Category : Type := mkCategory {
  risk : string;
  urgency : Z;
  type : string
}.

Definition categorizeEmail (email : Email) : Category :=
  let content :=
    toLowerCase (subject email +:+ " " +:+ show_opt (snippet email)) in
  if existsb (fun kw => includes kw content) URGENT_KEYWORDS then
    mkCategory "critical" 9 "urgent"
  else if existsb (fun kw => includes kw content) JOB_KEYWORDS then
    mkCategory "high" 7 "job_alert"
  else if includes "client" content || includes "meeting" content
          || includes "deadline" content then
    mkCategory "high" 6 "work"
  else mkCategory "low" 3 "general".

(** [fetchInbox]: [data.data || []] of the answer. *)
Definition fetchInbox (limit : Z) : M (list Email) :=
  env ← ask;
  instant ← now;
  _ ← tick;
  match nylas_inbox env instant limit with
  | InboxRejected e => throw e
  | InboxAnswer emails => mret (default [] emails)
  end.

Definition sendEmail (to subject body : option string) : M Json :=
  env ← ask;
  instant ← now;
  _ ← tick;
  match nylas_send env instant
          (JObj ([("to", JArr [JObj (opt_field "email" JStr to)])]
                 ++ opt_field "subject" JStr subject
                 ++ opt_field "body" JStr body)) with
  | JsonRejected e => throw e
  | JsonAnswer value => mret value
  end.

Record Categorized : Type := mkCategorized {
  c_id : string;
  c_from : string;
  c_subject : string;
  c_snippet : option string;
  c_unread : bool;
  c_category : Category
}.

(** [email.from?.[0]?.email || 'unknown'] *)
Definition first_sender (email : Email) : string :=
  or_string (mjoin (head (sender_emails email))) "unknown".

Definition categorize (email : Email) : Categorized :=
  mkCategorized (email_id email) (first_sender email) (subject email)
    (prefix_of 100 <$> snippet email) (unread email) (categorizeEmail email).

Definition categorized_json (c : Categorized) : Json :=
  JObj ([("id", JStr (c_id c)); ("from", JStr (c_from c));
         ("subject", JStr (c_subject c))]
        ++ opt_field "snippet" JStr (c_snippet c)
        ++ [("unread", JBool (c_unread c));
            ("risk", JStr (risk (c_category c)));
            ("urgency", JNum (urgency (c_category c)));
            ("type", JStr (type (c_category c)))]).

Definition escalate_email (email : Categorized) : M unit :=
  _ ← escalateToREACH 9
        ("URGENT EMAIL from " +:+ c_from email +:+ ": " +:+ c_subject email)
        "iman_inbox_check";
  _ ← createTrace "IMAN" "REACH" "ESCALATE"
        ("Urgent: " +:+ prefix_of 30 (c_subject email)) (Some "ESCALATED");
  mret tt.

Definition store_job_alert (job : Categorized) : M unit :=
  _ ← brainWrite (mkBrainMemory None
        ("JOB ALERT: " +:+ c_subject job +:+ " - from " +:+ c_from job)
        "system" (Some ["job"; "email"; "alert"]) (Some 7) (Some true)
        (Some ("iman_job_" +:+ c_id job))
        (Some ["job_alert"; "iman"; "action_needed"]) None);
  mret tt.

(** [body.limit || 10] *)
Definition limit_of (body : IMANRequest) : Z :=
  match req_limit body with
  | Some n => if n =? 0 then 10 else n
  | None => 10
  end.

(** The handler; a request whose body is not JSON is read as [{}]. *)
Definition serve (req : option IMANRequest) : M Response :=
  try_catch
    (let body := default (mkIMANRequest None None None None None) req in
     _ ← createBrainClient;
     let action := or_string (req_action body) "fetch" in
     let limit := limit_of body in
     result ←
       (if String.eqb action "send" then
          trace ← createTrace "AIR" "IMAN" "NYLAS"
                    ("Sending email to " +:+ show_opt (req_to body))
                    (Some "SENDING");
          _ ← sendEmail (req_to body) (req_subject body) (req_body body);
          _ ← logTrace (set_result "Email sent" trace);
          mret (JObj ([("agent", JStr AGENT_NAME); ("status", JStr "complete");
                       ("action", JStr "send"); ("sent", JBool true)]
                      ++ opt_field "to" JStr (req_to body)))
        else
          trace ← createTrace "CRON" "IMAN" "NYLAS" "Fetching inbox"
                    (Some "FETCHING");
          emails ← fetchInbox limit;
          let categorized := map categorize emails in
          let critical :=
            List.filter
              (fun e => String.eqb (risk (c_category e)) "critical")
              categorized in
          _ ← for_each critical escalate_email;
          let jobAlerts :=
            List.filter
              (fun e => String.eqb (type (c_category e)) "job_alert")
              categorized in
          _ ← for_each jobAlerts store_job_alert;
          _ ← logTrace (set_result
                 (show_nat (length emails) +:+ " emails, "
                    +:+ show_nat (length critical) +:+ " critical, "
                    +:+ show_nat (length jobAlerts) +:+ " jobs")
                 trace);
          mret (JObj [("agent", JStr AGENT_NAME); ("status", JStr "complete");
                      ("action", JStr "fetch");
                      ("total", JNat (length emails));
                      ("critical", JNat (length critical));
                      ("jobAlerts", JNat (length jobAlerts));
                      ("emails", JArr (map categorized_json categorized))]));
     _ ← reportToAIR "IMAN" "complete" result;
     mret (json_response result))
    (fun message =>
       let errorResult :=
         JObj [("agent", JStr AGENT_NAME); ("status", JStr "error");
               ("error", JStr message)] in
       _ ← reportToAIR "IMAN" "error" errorResult;
       mret (json_response_with 500 errorResult)).

End Iman.

(** *** DAWN *)

Module Dawn.

Record DAWNRequest : Type := mkDAWNRequest {
  req_trigger : option string;
  req_audience : option string;
  req_type : option string
}.

Definition AGENT_NAME : string := "Daily Automated Wisdom Notifier (DAWN)".
Definition BRANDON_PHONE : string := "+13363898116".

(** [.contains('tags', [tag]).order('importance', { ascending: false })
     .limit(10)] *)
Definition getActionItems : M (list Row) :=
  reply ← store_select
            (fun rows =>
               take 10%nat
                 (order_desc by_importance
                    (List.filter (Sync.has_tag "action_needed") rows)));
  mret (default [] (reply_data reply)).

(** [.contains('tags', [tag]).order('created_at', { ascending: false })
     .limit(10)] *)
Definition getPendingDAWNItems : M (list Row) :=
  reply ← store_select
            (fun rows =>
               take 10%nat
                 (order_desc by_created_at
                    (List.filter (Sync.has_tag "dawn_audit") rows)));
  mret (default [] (reply_data reply)).

(** The numbered lines of a section of the briefing. *)
Definition numbered (width : nat) (fallback : string) (items : list Row)
  : string :=
  String.concat EmptyString
    (imap (fun i item =>
             show_nat (i + 1) +:+ ". "
               +:+ or_string (Some (prefix_of width (row_content item)))
                     fallback
               +:+ newline)
       items).

Definition generateBriefing (actionItems pendingItems : list Row)
  (audience : string) : M string :=
  env ← ask;
  instant ← now;
  let date := locale_date env instant in
  let briefing :=
    "Good morning! Here's your " +:+ date +:+ " briefing:" +:+ newline
      +:+ newline in
  let briefing :=
    if Nat.ltb 0 (length actionItems) then
      briefing +:+ "📋 ACTION ITEMS (" +:+ show_nat (length actionItems)
        +:+ "):" +:+ newline
        +:+ numbered 80 "No description" (take 5 actionItems) +:+ newline
    else briefing in
  let briefing :=
    if Nat.ltb 0 (length pendingItems) then
      briefing +:+ "🔔 PENDING REVIEWS (" +:+ show_nat (length pendingItems)
        +:+ "):" +:+ newline
        +:+ numbered 60 "Needs review" (take 3 pendingItems) +:+ newline
    else briefing in
  mret (if String.eqb audience "brandon" then
          briefing +:+ "I'm here whenever you need me. Let's make today count."
        else if String.eqb audience "cj" then
          briefing +:+ "You've got this. I'll keep everything organized."
        else if String.eqb audience "bj" then
          briefing +:+ "Great things ahead. Let me know how I can help."
        else briefing).

Definition sendSMS (phone message : string) : M unit :=
  reach_post (ReachSms (mkSms phone (prefix_of 1500 message))).

(** The handler; a request whose body is not JSON is read as [{}]. *)
Definition serve (req : option DAWNRequest) : M Response :=
  try_catch
    (let body := default (mkDAWNRequest None None None) req in
     _ ← createBrainClient;
     let trigger := or_string (req_trigger body) "manual" in
     let audience := or_string (req_audience body) "brandon" in
     trace ← createTrace (if String.eqb trigger "cron" then "CRON" else "MANUAL")
               "DAWN" "AIR" "Generating daily briefing" (Some "PROCESSING");
     actionItems ← getActionItems;
     pendingItems ← getPendingDAWNItems;
     briefing ← generateBriefing actionItems pendingItems audience;
     ts ← now;
     stamp ← now;
     _ ← brainWrite (mkBrainMemory None
           ("DAWN BRIEFING [" +:+ show_nat ts +:+ "]:" +:+ newline
              +:+ briefing)
           "system" (Some ["dawn"; "briefing"]) (Some 7) (Some true)
           (Some ("dawn_briefing_" +:+ show_nat stamp))
           (Some ["dawn"; "briefing"; audience]) None);
     _ ← (if String.eqb audience "brandon" then
            _ ← sendSMS BRANDON_PHONE briefing;
            _ ← createTrace "DAWN" "REACH" "SMS" "Sent briefing to Brandon"
                  (Some "DELIVERED");
            mret tt
          else mret tt);
     _ ← logTrace (set_result "Briefing generated and delivered" trace);
     let result :=
       JObj [("agent", JStr AGENT_NAME); ("status", JStr "complete");
             ("trigger", JStr trigger); ("audience", JStr audience);
             ("actionItemCount", JNat (length actionItems));
             ("pendingItemCount", JNat (length pendingItems));
             ("briefingLength", JNat (String.length briefing));
             ("smsDelivered", JBool (String.eqb audience "brandon"))] in
     _ ← reportToAIR "DAWN" "complete" result;
     mret (json_response result))
    (fun message =>
       let errorResult :=
         JObj [("agent", JStr AGENT_NAME); ("status", JStr "error");
               ("error", JStr message)] in
       _ ← reportToAIR "DAWN" "error" errorResult;
       mret (json_response_with 500 errorResult)).

End Dawn.

(** *** RADAR *)

Module Radar.

Record NewEvent : Type := mkNewEvent {
  title : string;
  start : string;
  finish : string;
  description : option string
}.

Record RADARRequest : Type := mkRADARRequest {
  req_action : option string;
  req_days : option Z;
  req_event : option NewEvent
}.

Definition AGENT_NAME : string :=
  "Realtime Autonomous Data and Activity Recorder (RADAR)".
Definition BRANDON_PHONE : string := "+13363898116".

Definition getAccessToken : M (option string) :=
  env ← ask;
  instant ← now;
  _ ← tick;
  match google_token env instant with
  | TokenRejected e => throw e
  | TokenAnswer token => mret token
  end.

(** The clock counts milliseconds here. *)
Definition getUpcomingEvents (accessToken : option string) (days : Z)
  : M (list CalendarEvent) :=
  env ← ask;
  instant ← now;
  let future := Z.of_nat instant + days * 24 * 60 * 60 * 1000 in
  _ ← tick;
  match google_events env instant accessToken instant future with
  | EventsRejected e => throw e
  | EventsAnswer items => mret (default [] items)
  end.

Definition createEvent (accessToken : option string) (event : NewEvent)
  : M Json :=
  env ← ask;
  instant ← now;
  _ ← tick;
  match google_create env instant accessToken
          (JObj [("summary", JStr (title event));
                 ("start", JObj [("dateTime", JStr (start event))]);
                 ("end", JObj [("dateTime", JStr (finish event))]);
                 ("description",
                   JStr (or_string (description event) EmptyString))]) with
  | JsonRejected e => throw e
  | JsonAnswer value => mret value
  end.

(** [a || b] on optional strings. *)
Definition or_opt (a b : option string) : option string :=
  match a with
  | Some s => if String.eqb s EmptyString then b else Some s
  | None => b
  end.

(** [t?.dateTime || t?.date] *)
Definition time_text (t : option EventTime) : option string :=
  or_opt (t ≫= dateTime) (t ≫= date).

(** [a > b] on dates: false when either is invalid. *)
Definition date_gt (a b : option Z) : bool :=
  match a, b with
  | Some x, Some y => y <? x
  | _, _ => false
  end.

(** [a <= b] on dates: false when either is invalid. *)
Definition date_le (a b : option Z) : bool :=
  match a, b with
  | Some x, Some y => x <=? y
  | _, _ => false
  end.

Record Conflict : Type := mkConflict {
  event1 : option string;
  event2 : option string
}.

Definition conflict_json (c : Conflict) : Json :=
  JObj (opt_field "event1" JStr (event1 c)
        ++ opt_field "event2" JStr (event2 c)
        ++ [("overlap", JBool true)]).

Fixpoint checkForConflicts (parse : option string -> option Z)
  (events : list CalendarEvent) : list Conflict :=
  match events with
  | current :: ((next :: _) as rest) =>
      let currentEnd := parse (time_text (event_end current)) in
      let nextStart := parse (time_text (event_start next)) in
      (if date_gt currentEnd nextStart
       then [mkConflict (summary current) (summary next)] else [])
        ++ checkForConflicts parse rest
  | _ => []
  end.

Definition checkUpcomingMeetings (events : list CalendarEvent)
  : M (list CalendarEvent) :=
  env ← ask;
  instant ← now;
  let present := Some (Z.of_nat instant) in
  let in15min := Some (Z.of_nat instant + 15 * 60 * 1000) in
  mret (List.filter
          (fun event =>
             let starts := parse_date env (time_text (event_start event)) in
             date_gt starts present && date_le starts in15min)
          events).

Definition remind (meeting : CalendarEvent) : M unit :=
  _ ← reach_post
        (ReachSms (mkSms BRANDON_PHONE
                     ("⏰ MEETING IN 15 MIN: " +:+ show_opt (summary meeting))));
  _ ← createTrace "RADAR" "REACH" "SMS"
        ("Reminder: " +:+ show_opt (summary meeting)) (Some "SENT");
  mret tt.

Definition event_json (e : CalendarEvent) : Json :=
  JObj (opt_field "id" JStr (event_id e)
        ++ opt_field "title" JStr (summary e)
        ++ opt_field "start" JStr (time_text (event_start e))
        ++ opt_field "end" JStr (time_text (event_end e))).

(** [body.days || 7] *)
Definition days_of (body : RADARRequest) : Z :=
  match req_days body with
  | Some n => if n =? 0 then 7 else n
  | None => 7
  end.

(** The handler; a request whose body is not JSON is read as [{}]. *)
Definition serve (req : option RADARRequest) : M Response :=
  try_catch
    (let body := default (mkRADARRequest None None None) req in
     _ ← createBrainClient;
     let action := or_string (req_action body) "upcoming" in
     let days := days_of body in
     accessToken ← getAccessToken;
     result ←
       match (if String.eqb action "create" then req_event body else None) with
       | Some event =>
           trace ← createTrace "AIR" "RADAR" "GOOGLE"
                     ("Creating event: " +:+ title event) (Some "CREATING");
           created ← createEvent accessToken event;
           _ ← logTrace (set_result "Event created" trace);
           mret (JObj [("agent", JStr AGENT_NAME); ("status", JStr "complete");
                       ("action", JStr "create"); ("event", created)])
       | None =>
           trace ← createTrace "CRON" "RADAR" "GOOGLE"
                     ("Fetching " +:+ show_Z days +:+ " days of events")
                     (Some "FETCHING");
           events ← getUpcomingEvents accessToken days;
           env ← ask;
           let conflicts := checkForConflicts (parse_date env) events in
           upcoming ← checkUpcomingMeetings events;
           _ ← for_each upcoming remind;
           _ ← (if Nat.ltb 0 (length events) then
                  ts ← now;
                  stamp ← now;
                  _ ← brainWrite (mkBrainMemory None
                        ("RADAR SCAN [" +:+ show_nat ts +:+ "]: "
                           +:+ show_nat (length events) +:+ " events, "
                           +:+ show_nat (length conflicts) +:+ " conflicts, "
                           +:+ show_nat (length upcoming) +:+ " starting soon")
                        "system" (Some ["radar"; "calendar"]) (Some 4)
                        (Some true) (Some ("radar_scan_" +:+ show_nat stamp))
                        (Some ["radar"; "calendar"; "scan"]) None);
                  mret tt
                else mret tt);
           _ ← logTrace (set_result
                  (show_nat (length events) +:+ " events, "
                     +:+ show_nat (length conflicts) +:+ " conflicts")
                  trace);
           mret (JObj [("agent", JStr AGENT_NAME); ("status", JStr "complete");
                       ("action", JStr "upcoming");
                       ("eventCount", JNat (length events));
                       ("conflictCount", JNat (length conflicts));
                       ("upcomingCount", JNat (length upcoming));
                       ("conflicts", JArr (map conflict_json conflicts));
                       ("events", JArr (map event_json (take 10 events)))])
       end;
     _ ← reportToAIR "RADAR" "complete" result;
     mret (json_response result))
    (fun message =>
       let errorResult :=
         JObj [("agent", JStr AGENT_NAME); ("status", JStr "error");
               ("error", JStr message)] in
       _ ← reportToAIR "RADAR" "error" errorResult;
       mret (json_response_with 500 errorResult)).

End Radar.

(** ** Concrete worlds *)

Definition no_fault : nat -> option string := fun _ => None.

Definition always_fault (message : string) : nat -> option string :=
  fun _ => Some message.

(** A text matcher for the examples: the content mentions the query,
    letter case aside. *)
Definition mentions_query (query content : string) : bool :=
  includes (toLowerCase query) (toLowerCase content).

(** Everything configured and reachable. *)
Definition calm_env : Env :=
  mkEnv true true no_fault mentions_query no_fault no_fault no_fault
    (fun _ _ => Responded 200)
    (fun _ _ => EmbedVector [0])
    (fun _ _ => SpeechAudio [73; 68; 51])
    (fun _ _ _ _ => [])
    (fun _ _ _ => JsonAnswer (JObj [("status", JStr "complete")]))
    (fun _ _ => InboxAnswer (Some []))
    (fun _ _ => JsonAnswer (JObj []))
    (fun _ => TokenAnswer (Some "token"))
    (fun _ _ _ _ => EventsAnswer (Some []))
    (fun _ _ _ => JsonAnswer (JObj []))
    (fun _ => None)
    (fun _ => "Monday, November 2, 2026")
    (fun _ => "9:00:00 AM").

(** Nothing stored, cached or sent yet. *)
Definition fresh_state : State := mkState 0 [] 0 ∅ [] [] [].

Definition with_memory (rows : list Row) (s : State) : State :=
  upd_next_id (fun _ => length rows) (upd_memory (fun _ => rows) s).

Definition with_reach_fault (f : nat -> option string) (env : Env) : Env :=
  mkEnv (env_supabase env) (env_upstash env) (store_fault env)
    (text_match env) (cache_fault env) f (air_fault env) (http_get env)
    (embed_reply env) (speech_reply env) (match_memories env)
    (functions_reply env) (nylas_inbox env) (nylas_send env)
    (google_token env) (google_events env) (google_create env)
    (parse_date env) (locale_date env) (locale_time env).

Definition with_cache_fault (f : nat -> option string) (env : Env) : Env :=
  mkEnv (env_supabase env) (env_upstash env) (store_fault env)
    (text_match env) f (reach_fault env) (air_fault env) (http_get env)
    (embed_reply env) (speech_reply env) (match_memories env)
    (functions_reply env) (nylas_inbox env) (nylas_send env)
    (google_token env) (google_events env) (google_create env)
    (parse_date env) (locale_date env) (locale_time env).

Definition with_embed_reply (f : nat -> string -> EmbedReply) (env : Env)
  : Env :=
  mkEnv (env_supabase env) (env_upstash env) (store_fault env)
    (text_match env) (cache_fault env) (reach_fault env) (air_fault env)
    (http_get env) f (speech_reply env) (match_memories env)
    (functions_reply env) (nylas_inbox env) (nylas_send env)
    (google_token env) (google_events env) (google_create env)
    (parse_date env) (locale_date env) (locale_time env).

(** A row as [brainWrite] would have stored it at instant [at]. *)
Definition sample_row (id content : string) (importance : Z) (at_ : nat)
  : Row :=
  mkRow id content "system" (Some ["sample"]) (Some importance) (Some true)
    (Some "sample") (Some ["sample"]) None at_ at_.

Definition sample_memory (content : string) (importance : Z) : BrainMemory :=
  mkBrainMemory None content "system" (Some ["sample"]) (Some importance)
    (Some true) (Some "sample") (Some ["sample"]) None.

(** Two job alerts of equal importance, the older one scanned first. *)
Definition older_alert : Row := sample_row "mem_0" "JOB ALERT: Widget Co" 5 1.
Definition newer_alert : Row := sample_row "mem_1" "JOB ALERT: Gadget Inc" 5 2.

(** The cache out of reach, and a table with one agent-registry row and one
    trace row. *)
Definition cache_down_env : Env :=
  with_cache_fault (always_fault "connection refused") calm_env.

Definition registry_rows : list Row :=
  [mkRow "mem_0" "AGENT: SAGE" "aba_agents" (Some ["agents"]) (Some 8)
     (Some true) (Some "registry") (Some ["registry"]) None 1 1;
   mkRow "mem_1" "TRACE [2]: AIR*SAGE*SUPABASE | Searching | OK" "system"
     (Some ["trace"; "sage"]) (Some 2) (Some true) (Some "trace_SAGE_2")
     (Some ["trace"; "routing"; "sage"]) None 2 2].

(** Nothing configured, nothing reachable. *)
Definition dark_env : Env :=
  mkEnv false false (always_fault "store unavailable") mentions_query
    (always_fault "connection refused") (always_fault "connection refused")
    (always_fault "connection refused")
    (fun _ _ => Rejected "connection refused")
    (fun _ _ => EmbedRejected "connection refused")
    (fun _ _ => SpeechRejected "connection refused")
    (fun _ _ _ _ => [])
    (fun _ _ _ => JsonRejected "connection refused")
    (fun _ _ => InboxRejected "connection refused")
    (fun _ _ => JsonRejected "connection refused")
    (fun _ => TokenRejected "connection refused")
    (fun _ _ _ _ => EventsRejected "connection refused")
    (fun _ _ _ => JsonRejected "connection refused")
    (fun _ => None)
    (fun _ => "Monday, November 2, 2026")
    (fun _ => "9:00:00 AM").

(** The state a full sync leaves behind when everything works. *)
Definition synced_state : State :=
  snd (Sync.syncAll None calm_env (with_memory registry_rows fresh_state)).

(** The notification service out of reach. *)
Definition reach_down_env : Env :=
  with_reach_fault (always_fault "error sending request") calm_env.

(** A transcript with one urgent action item, and what [extractActionItems]
    returns for it: only the last pattern matches, with base urgency 10 and
    no modifier. *)
Definition urgent_request : Luke.LUKERequest :=
  Luke.mkLUKERequest (Some "urgent: restart the database") None None.

Definition urgent_item : Luke.ActionItem :=
  Luke.mkActionItem "restart the database" "urgent" 10 4605380978949069210.

Definition urgent_scan (content : string) : list Luke.ActionItem :=
  if String.eqb content "urgent: restart the database" then [urgent_item]
  else [].

(** Ten records without an embedding, and an embedding service that fails
    for three of them. *)
Definition ten_notes : list Row :=
  map (fun i => sample_row ("mem_" +:+ show_nat i) ("note " +:+ show_nat i) 5 i)
    (seq 0 10).

Definition flaky_embed_env : Env :=
  with_embed_reply
    (fun _ text =>
       if mem_string text ["note 2"; "note 8"] then EmbedRejected "timed out"
       else if String.eqb text "note 5" then EmbedMalformed
       else EmbedVector [1; 2; 3])
    calm_env.

(** ** What the specification asks of a stored or returned record *)

(** An importance inside the interval [1,10]. *)
Definition importance_clamped (r : Row) : Prop :=
  exists i, row_importance r = Some i /\ 1 <= i <= 10.

(** The ranking in the specification's words: importance descending, and
    among equal importances the most recently created first. *)
Definition spec_rank_ge (r s : Row) : bool :=
  match row_importance r, row_importance s with
  | Some a, Some b =>
      (b <? a) || ((a =? b) && Nat.leb (row_created_at s) (row_created_at r))
  | a, b => imp_ge a b
  end.

Definition spec_ranked (l : list Row) : Prop :=
  StronglySorted (fun r s => spec_rank_ge r s = true) l.

(** A list in the order [order_desc ge] produces. *)
Definition ranked {A} (ge : A -> A -> bool) (l : list A) : Prop :=
  StronglySorted (fun a b => ge a b = true) l.

(** The line [createTrace] prints for an entry. *)
Definition trace_line (entry : TraceEntry) : string :=
  "[TRACE] " +:+ notation entry +:+ " | " +:+ action entry +:+ " | "
    +:+ result entry.

(** The points a failed check costs. *)
Definition fine (passed : bool) (penalty : Z) : Z :=
  if passed then 0 else penalty.

(** Whether the embedding call issued at [instant] for [content] yields a
    vector. *)
Definition embed_succeeds (env : Env) (instant : nat) (content : string)
  : bool :=
  match embed_reply env instant (prefix_of (80 * 100) content) with
  | EmbedVector _ => true
  | _ => false
  end.

(** The number of records of a batch whose embedding call fails, the batch
    starting at [instant]: a record that succeeds takes two round trips (the
    embedding and the update), one that fails takes one. *)
Fixpoint embed_failures (env : Env) (memories : list (string * string))
  (instant : nat) : nat :=
  match memories with
  | [] => 0%nat
  | memory :: rest =>
      if embed_succeeds env instant (snd memory)
      then embed_failures env rest (S (S instant))
      else S (embed_failures env rest (S instant))
  end.

(** A record the backfill has yet to embed. *)
Definition lacks_embedding (r : Row) : bool :=
  match row_embedding r with None => true | Some _ => false end.

(** The records a backfill of [batchSize] is to work on, as identifier and
    content: the first [batchSize] records of the table that lack an
    embedding. *)
Definition backfill_batch (batchSize : nat) (rows : list Row)
  : list (string * string) :=
  map (fun r => (row_id r, row_content r))
    (take batchSize (List.filter lacks_embedding rows)).

(** How many records of a table lack an embedding. *)
Definition unembedded (rows : list Row) : nat :=
  length (List.filter lacks_embedding rows).

(** The cache cannot be used: it is not configured, or no request ever
    reaches it. *)
Definition cache_down (env : Env) : Prop :=
  env_upstash env = false \/ forall n, cache_fault env n <> None.

(** A cold cache: it cannot be used, or none of the three well-known keys
    is present. *)
Definition cold_cache (env : Env) (s : State) : Prop :=
  cache_down env
  \/ (cache s !! "aba:state:current" = None
      /\ cache s !! "aba:agents:registry" = None
      /\ cache s !! "aba:traces:recent" = None).

(** The rows [syncAgents] counts and the rows [syncTraces] counts. *)
Definition is_agent_record (r : Row) : bool :=
  String.eqb (row_memory_type r) "aba_agents".

Definition is_trace_record (r : Row) : bool := Sync.has_tag "trace" r.

(** The response contract in the specification's words: a JSON success
    body with status 200, or the JSON error object with status 500. *)
Definition json_success (r : Response) : Prop :=
  resp_status r = 200 /\ resp_headers r = json_headers
  /\ exists j, resp_body r = JsonBody j.

Definition json_error (status : Z) (r : Response) : Prop :=
  resp_status r = status /\ resp_headers r = json_headers
  /\ exists fields message,
       resp_body r = JsonBody (JObj fields)
       /\ js_field "status" fields = Some (JStr "error")
       /\ js_field "error" fields = Some (JStr message).

Definition within_contract (r : Response) : Prop :=
  json_success r \/ json_error 500 r.

(** A response that carries the audio itself. *)
Definition audio_success (r : Response) : Prop :=
  resp_status r = 200
  /\ js_field "Content-Type" (map (fun h => (fst h, JStr (snd h)))
                                (resp_headers r))
       = Some (JStr "audio/mpeg")
  /\ exists bytes, resp_body r = BinaryBody bytes.

(** ** Reasoning about computations *)

(** [wp m env s Q E]: run from [s], [m] either returns a value and a state
    that satisfy [Q] or throws a message in a state that satisfy [E]. *)
Definition wp {A} (m : M A) (env : Env) (s : State)
  (Q : A -> State -> Prop) (E : string -> State -> Prop) : Prop :=
  match m env s with
  | (Ok a, s') => Q a s'
  | (Throw e, s') => E e s'
  end.

(** The exceptional postcondition of a computation that does not throw. *)
Definition never : string -> State -> Prop := fun _ _ => False.


(** ** Invariants of a run *)

(** [keeps R m]: whatever [m] does, returning or throwing, the state it
    leaves is related by [R] to the state it started from. *)
Definition keeps {A} (R : State -> State -> Prop) (m : M A) : Prop :=
  forall env s, R s (snd (m env s)).

(** A part of the state that is left as it was. *)
Definition same {B} (part : State -> B) : State -> State -> Prop :=
  fun s s' => part s' = part s.

(** The table only grows: the rows it had are still there, unchanged and in
    place, followed by the new ones. *)
Definition grows : State -> State -> Prop :=
  fun s s' => exists added, aba_memory s' = aba_memory s ++ added.

(** A row with its embedding blanked. *)
Definition without_embedding (r : Row) : Row :=
  mkRow (row_id r) (row_content r) (row_memory_type r) (row_categories r)
        (row_importance r) (row_is_system r) (row_source r) (row_tags r)
        None (row_created_at r) (row_updated_at r).

(** The table only grows, and of the rows it had nothing but the embedding
    has changed. *)
Definition grows_but_embeddings : State -> State -> Prop :=
  fun s s' =>
    exists added,
      map without_embedding (aba_memory s')
        = map without_embedding (aba_memory s) ++ added.

(** A cache that takes the first command of a run and rejects the second. *)
Definition second_fetch_fails : nat -> option string :=
  fun t => if Nat.eqb t 1 then Some "fetch failed" else None.

Definition expire_down_env : Env :=
  with_cache_fault second_fetch_fails calm_env.

(** The row [logTrace] writes for a trace, stored at [stamp] under the
    next identifier [n]. *)
Definition trace_row (trace : TraceEntry) (n stamp : nat) : Row :=
  mkRow ("mem_" +:+ show_nat n)
    ("TRACE [" +:+ show_nat (timestamp trace) +:+ "]: "
       +:+ notation trace +:+ " | " +:+ action trace +:+ " | "
       +:+ result trace)
    "system"
    (Some ["trace"; toLowerCase (agent trace)])
    (Some 2)
    (Some true)
    (Some ("trace_" +:+ agent trace +:+ "_" +:+ show_nat stamp))
    (Some ["trace"; "routing"; toLowerCase (agent trace)])
    None stamp stamp.

(** What stands between [logTrace] and a stored row: a missing
    configuration, or the error the store answers. *)
Definition store_refusal (env : Env) (instant : nat) : option string :=
  if env_supabase env then store_fault env instant
  else Some "supabaseUrl is required.".

(** The request LUKE sends to the notification service for an item it
    escalates, delivered. *)
Definition luke_escalation (item : Luke.ActionItem) : ReachCall :=
  mkReachCall
    (ReachEscalate
       (mkEscalation (Luke.urgency item)
          ("URGENT " +:+ toUpperCase (Luke.type item) +:+ ": "
             +:+ Luke.text item)
          "luke_extract"))
    true.

Definition luke_urgent (item : Luke.ActionItem) : bool :=
  8 <=? Luke.urgency item.

(** LUKE's answer to a request it does not process. *)
Definition luke_skipped : Response :=
  json_response
    (JObj [("agent", JStr Luke.AGENT_NAME); ("status", JStr "skipped");
           ("reason", JStr "Content too short")]).

(** ** Requests one handler sends another *)

(** The body [dispatchAgent] posts: [JSON.stringify({ intent, request })]. *)
Definition dispatch_body (intent request : Json) : Json :=
  JObj [("intent", intent); ("request", request)].

(** A string property of a parsed body, [None] when the body has no such
    property. The handlers' request interfaces give these properties no
    other type. *)
Definition string_field (key : string) (body : Json) : option string :=
  match json_field key body with
  | Some (JStr s) => Some s
  | _ => None
  end.

(** [await req.json()] of a body, read as the handlers read it: LUKE takes
    [body.content] and [body.source], DRAFT [body.content] and
    [body.text]. *)
Definition luke_request_of (body : Json) : Luke.LUKERequest :=
  Luke.mkLUKERequest (string_field "content" body)
    (string_field "transcript_id" body) (string_field "source" body).

Definition draft_request_of (body : Json) : Draft.DRAFTRequest :=
  Draft.mkDRAFTRequest (string_field "content" body)
    (string_field "text" body).

Definition short_note : Luke.LUKERequest :=
  Luke.mkLUKERequest (Some "call mom") None None.

(** ** What the audit looks at *)

(** Whether [GET url] at an instant is answered with a 2xx status. *)
Definition answers_ok (env : Env) (url : string) (instant : nat) : bool :=
  match http_get env url instant with
  | Responded status => http_ok status
  | Rejected _ => false
  end.

(** Whether a read of the memory table at an instant yields rows: the
    client is configured and the store answers without an error. *)
Definition probe_ok (env : Env) (instant : nat) : bool :=
  env_supabase env
  && match store_fault env instant with None => true | Some _ => false end.

(** A field of the JSON body of a response. *)
Definition body_field (key : string) (r : Response) : option Json :=
  match resp_body r with
  | JsonBody j => json_field key j
  | BinaryBody _ => None
  end.

Definition with_http_get (f : string -> nat -> HttpReply) (env : Env) : Env :=
  mkEnv (env_supabase env) (env_upstash env) (store_fault env)
    (text_match env) (cache_fault env) (reach_fault env) (air_fault env) f
    (embed_reply env) (speech_reply env) (match_memories env)
    (functions_reply env) (nylas_inbox env) (nylas_send env)
    (google_token env) (google_events env) (google_create env)
    (parse_date env) (locale_date env) (locale_time env).

(** The store works; the audited endpoints and the notification service are
    out of reach. *)
Definition outage_env : Env :=
  with_http_get (fun _ _ => Rejected "connection refused") reach_down_env.

Definition with_functions_reply (f : nat -> string -> Json -> JsonReply)
  (env : Env) : Env :=
  mkEnv (env_supabase env) (env_upstash env) (store_fault env)
    (text_match env) (cache_fault env) (reach_fault env) (air_fault env)
    (http_get env) (embed_reply env) (speech_reply env) (match_memories env)
    f (nylas_inbox env) (nylas_send env)
    (google_token env) (google_events env) (google_create env)
    (parse_date env) (locale_date env) (locale_time env).

(** The other handlers' endpoints out of reach. *)
Definition dispatch_down_env : Env :=
  with_functions_reply (fun _ _ _ => JsonRejected "connection refused")
    calm_env.

(** The answer of the handlers whose [catch] block does not report. *)
Definition plain_failure (agent_name message : string) : Response :=
  json_response_with 500
    (JObj [("agent", JStr agent_name); ("status", JStr "error");
           ("error", JStr message)]).

Definition standup_recording : Hear.HEARRequest :=
  Hear.mkHEARRequest (Some "we must ship on friday") None.

Definition standup_meeting : Mark.MARKRequest :=
  Mark.mkMARKRequest (Some "we must ship on friday") (Some "Standup") None.

Definition team_briefing : Dawn.DAWNRequest :=
  Dawn.mkDAWNRequest (Some "cron") (Some "cj") None.

Definition deadline_email : Email :=
  mkEmail "msg_1" [Some "client@example.com"] "Project deadline moved"
    None 0 true.

(** The text [categorizeEmail] scans. *)
Definition email_text (email : Email) : string :=
  toLowerCase (subject email +:+ " " +:+ show_opt (snippet email)).

(** The four categories of the inbox agent. *)
Definition iman_categories : list Iman.Category :=
  [Iman.mkCategory "critical" 9 "urgent";
   Iman.mkCategory "high" 7 "job_alert";
   Iman.mkCategory "high" 6 "work";
   Iman.mkCategory "low" 3 "general"].

(** The emails IMAN escalates, and those it stores as job alerts. *)
Definition iman_critical (e : Iman.Categorized) : bool :=
  String.eqb (Iman.risk (Iman.c_category e)) "critical".

Definition iman_job_alert (e : Iman.Categorized) : bool :=
  String.eqb (Iman.type (Iman.c_category e)) "job_alert".

(** The keys SYNC keeps in the cache. *)
Definition sync_keys : list string :=
  ["aba:agents:registry"; "aba:traces:recent"; "aba:state:current"].

(** Every key but those of [keys] holds what it held. *)
Definition only_keys (keys : list string) : State -> State -> Prop :=
  fun s s' => forall k, k ∉ keys -> cache s' !! k = cache s !! k.

Definition search_request : Sage.SAGERequest :=
  Sage.mkSAGERequest (Some "deadline") None None None.

(** A table of two records, the first of which has its embedding. *)
Definition embedded_note : Row :=
  mkRow "mem_0" "note 0" "system" (Some ["sample"]) (Some 5) (Some true)
    (Some "sample") (Some ["sample"]) (Some [7; 7]) 0 0.

Definition half_embedded : State :=
  with_memory [embedded_note; sample_row "mem_1" "note 1" 5 1] fresh_state.

(** * Properties *)

Section WP.
Context {A B : Type}.
Variable env : Env.

Lemma wp_ret (a : A) s Q E : Q a s -> wp (mret a) env s Q E.
Proof. exact id. Qed.

Lemma wp_throw e s (Q : A -> State -> Prop) E :
  E e s -> wp (throw e) env s Q E.
Proof. exact id. Qed.

Lemma wp_bind (m : M A) (k : A -> M B) s Q E :
  wp m env s (fun a s' => wp (k a) env s' Q E) E -> wp (m ≫= k) env s Q E.
Proof.
  unfold wp, mbind, M_bind. destruct (m env s) as [[a|e] s']; exact id.
Qed.

(** When nothing is known of [m]: the rest must do for whatever it returns. *)
Lemma wp_bind_any (m : M A) (k : A -> M B) s Q (E : string -> State -> Prop) :
  (forall a s', wp (k a) env s' Q E) -> (forall e s', E e s') ->
  wp (m ≫= k) env s Q E.
Proof.
  intros Hk He. unfold wp, mbind, M_bind.
  destruct (m env s) as [[a|e] s']; [apply Hk | apply He].
Qed.

Lemma wp_try_catch (body : M A) handler s Q E :
  wp body env s Q (fun e s' => wp (handler e) env s' Q E) ->
  wp (try_catch body handler) env s Q E.
Proof.
  unfold wp, try_catch. destruct (body env s) as [[a|e] s']; exact id.
Qed.

Lemma wp_mono (m : M A) s (Q Q' : A -> State -> Prop)
  (E E' : string -> State -> Prop) :
  wp m env s Q E ->
  (forall a s', Q a s' -> Q' a s') -> (forall e s', E e s' -> E' e s') ->
  wp m env s Q' E'.
Proof.
  unfold wp. destruct (m env s) as [[a|e] s']; auto.
Qed.

Lemma wp_returns (m : M A) s Q :
  wp m env s Q never -> exists a s', m env s = (Ok a, s') /\ Q a s'.
Proof.
  unfold wp, never. destruct (m env s) as [[a|e] s']; [eauto | tauto].
Qed.
End WP.

Lemma wp_now env s Q E : Q (clock s) s -> wp now env s Q E.
Proof. exact id. Qed.

Lemma wp_ask env s Q E : Q env s -> wp ask env s Q E.
Proof. exact id. Qed.

Lemma wp_modify f env s Q E : Q tt (f s) -> wp (modify f) env s Q E.
Proof. exact id. Qed.

Lemma wp_tick env s Q E : Q tt (upd_clock S s) -> wp tick env s Q E.
Proof. exact id. Qed.

Lemma wp_console_log line env s Q E :
  Q tt (upd_console (fun c => c ++ [line]) s) ->
  wp (console_log line) env s Q E.
Proof. exact id. Qed.

(** *** [createTrace] *)

Lemma createTrace_eq passer agent_id receiver act res env s :
  createTrace passer agent_id receiver act res env s =
  let entry := mkTraceEntry (passer +:+ "*" +:+ agent_id +:+ "*" +:+ receiver)
                 act (default "OK" res) (clock s) agent_id in
  (Ok entry, upd_console (fun c => c ++ [trace_line entry]) s).
Proof. reflexivity. Qed.

Lemma wp_createTrace passer agent_id receiver act res env s Q E :
  (forall entry line, Q entry (upd_console (fun c => c ++ [line]) s)) ->
  wp (createTrace passer agent_id receiver act res) env s Q E.
Proof. intros H. unfold wp. rewrite createTrace_eq. apply H. Qed.

(** C8: [createTrace] always returns, touching nothing but the console; the
    entry's notation is passer, "*", agent, "*", receiver in that order, its
    action and agent are the arguments, and its result is the argument, or
    "OK" when the argument is omitted. *)
Theorem createTrace_total_notation :
  (forall passer agent_id receiver act res env s,
     exists entry,
       createTrace passer agent_id receiver act res env s
         = (Ok entry, upd_console (fun c => c ++ [trace_line entry]) s)
       /\ notation entry = passer +:+ "*" +:+ agent_id +:+ "*" +:+ receiver
       /\ action entry = act
       /\ agent entry = agent_id
       /\ result entry = default "OK" res
       /\ timestamp entry = clock s)
  /\ (forall passer agent_id receiver act env s,
        exists entry s',
          createTrace passer agent_id receiver act None env s = (Ok entry, s')
          /\ result entry = "OK").
Proof.
  split.
  - intros. eexists. rewrite createTrace_eq. cbv zeta. repeat split.
  - intros. do 2 eexists. rewrite createTrace_eq. cbv zeta. split; reflexivity.
Qed.

(** *** [brainWrite] *)

Lemma brainWrite_eq memory env s :
  brainWrite memory env s =
  match store_fault env (clock s) with
  | Some e => (Throw e, upd_clock S s)
  | None =>
      let '(r, s') := insert_row memory (clock s) (clock s) s in
      (Ok r, upd_clock S s')
  end.
Proof.
  cbv [brainWrite mbind M_bind mret M_ret now store_call throw].
  destruct (store_fault env (clock s)); [reflexivity|].
  destruct (insert_row memory (clock s) (clock s) s); reflexivity.
Qed.

(** C1, as the source has it: a write the store accepts appends one row that
    holds the importance exactly as given, so the stored importance lies in
    [1,10] exactly when the given one does; a write the store refuses throws
    the store's error and leaves the table as it was. *)
Theorem brainWrite_stores_importance_as_given :
  forall memory env s,
    match brainWrite memory env s with
    | (Ok r, s') =>
        store_fault env (clock s) = None
        /\ aba_memory s' = aba_memory s ++ [r]
        /\ row_importance r = bm_importance memory
        /\ (importance_clamped r <->
            exists i, bm_importance memory = Some i /\ 1 <= i <= 10)
        /\ row_created_at r = clock s
        /\ row_updated_at r = clock s
    | (Throw e, s') =>
        store_fault env (clock s) = Some e /\ aba_memory s' = aba_memory s
    end.
Proof.
  intros memory env s. rewrite brainWrite_eq.
  destruct (store_fault env (clock s)) as [e|]; [split; reflexivity|].
  cbn. repeat split; auto.
Qed.

(** C1, counterexample: a record written with importance 11 is stored with
    importance 11. *)
Lemma brainWrite_importance_11_stored :
  exists r s',
    brainWrite (sample_memory "JOB ALERT: Widget Co" 11) calm_env fresh_state
      = (Ok r, s')
    /\ aba_memory s' = [r]
    /\ row_importance r = Some 11
    /\ ~ importance_clamped r.
Proof.
  do 2 eexists. split; [reflexivity|]. repeat split.
  intros (i & Hi & Hrange). simpl in Hi. injection Hi as <-. lia.
Qed.

(** *** [runAudit] *)

Lemma wp_checkEndpoint url check_name env s Q E :
  (forall c, Q c (upd_clock S s)) ->
  wp (Shadow.checkEndpoint url check_name) env s Q E.
Proof.
  intros H. unfold wp, Shadow.checkEndpoint.
  cbv [mbind M_bind now ask tick modify mret M_ret].
  destruct (http_get env url (clock s)); apply H.
Qed.

Lemma wp_penalise cs i penalty score c env s (Q : Z -> State -> Prop) E :
  cs !! i = Some c ->
  Q (score - fine (Shadow.pass c) penalty) s ->
  wp (Shadow.penalise cs i penalty score) env s Q E.
Proof.
  intros Hc H. unfold wp, Shadow.penalise. rewrite Hc.
  unfold fine in H. destruct (Shadow.pass c); [|exact H].
  replace score with (score - 0) by lia. exact H.
Qed.

Lemma wp_brain_read_check score env s Q E :
  (forall c s', Q (c, score - fine (env_supabase env) 15) s') ->
  wp (Shadow.brain_read_check score) env s Q E.
Proof.
  intros H. unfold Shadow.brain_read_check. apply wp_try_catch.
  apply wp_bind. unfold fine in H. unfold wp at 1, createBrainClient.
  destruct (env_supabase env).
  - apply wp_bind. unfold wp at 1, store_select, store_call.
    replace score with (score - 0) by lia.
    destruct (store_fault env (clock s)); apply wp_ret, H.
  - apply wp_ret, H.
Qed.

(** The two ends of the scale: every check passing scores 100, every check
    failing and the memory probe throwing scores 0. *)
Lemma runAudit_extremes :
  (Shadow.trustScore <$> match fst (Shadow.runAudit calm_env fresh_state) with
                         | Ok snapshot => Some snapshot
                         | Throw _ => None
                         end) = Some 100
  /\ (Shadow.trustScore <$> match fst (Shadow.runAudit dark_env fresh_state) with
                            | Ok snapshot => Some snapshot
                            | Throw _ => None
                            end) = Some 0.
Proof. split; vm_compute; reflexivity. Qed.

(** C10: the audit always returns a snapshot; its trust score is 100 less
    the penalty of each failed check (25, 25, 15, 10, 10 for the five
    endpoints, 15 when the memory probe throws), floored at 0, and so an
    integer between 0 and 100. *)
Theorem runAudit_trustScore_range :
  forall env s,
    exists snapshot s' c1 c2 c3 c4 c5 c6,
      Shadow.runAudit env s = (Ok snapshot, s')
      /\ Shadow.checks snapshot = [c1; c2; c3; c4; c5; c6]
      /\ Shadow.trustScore snapshot =
           Z.max 0 (100 - fine (Shadow.pass c1) 25 - fine (Shadow.pass c2) 25
                        - fine (Shadow.pass c3) 15 - fine (Shadow.pass c4) 10
                        - fine (Shadow.pass c5) 10
                        - fine (env_supabase env) 15)
      /\ 0 <= Shadow.trustScore snapshot <= 100.
Proof.
  intros env s.
  enough (wp Shadow.runAudit env s
            (fun snapshot _ => exists c1 c2 c3 c4 c5 c6,
               Shadow.checks snapshot = [c1; c2; c3; c4; c5; c6]
               /\ Shadow.trustScore snapshot =
                    Z.max 0 (100 - fine (Shadow.pass c1) 25
                               - fine (Shadow.pass c2) 25
                               - fine (Shadow.pass c3) 15
                               - fine (Shadow.pass c4) 10
                               - fine (Shadow.pass c5) 10
                               - fine (env_supabase env) 15)
               /\ 0 <= Shadow.trustScore snapshot <= 100) never) as H.
  { apply wp_returns in H as (snapshot & s' & Hrun & c1 & c2 & c3 & c4 & c5
                               & c6 & H).
    exists snapshot, s', c1, c2, c3, c4, c5, c6. tauto. }
  unfold Shadow.runAudit.
  apply wp_bind, wp_now. apply wp_bind, wp_now.
  apply wp_bind, wp_createTrace; intros entry line.
  apply wp_bind, wp_checkEndpoint; intros c1.
  eapply wp_bind, wp_penalise; [reflexivity|].
  apply wp_bind, wp_checkEndpoint; intros c2.
  eapply wp_bind, wp_penalise; [reflexivity|].
  apply wp_bind, wp_checkEndpoint; intros c3.
  eapply wp_bind, wp_penalise; [reflexivity|].
  apply wp_bind, wp_checkEndpoint; intros c4.
  eapply wp_bind, wp_penalise; [reflexivity|].
  apply wp_bind, wp_checkEndpoint; intros c5.
  eapply wp_bind, wp_penalise; [reflexivity|].
  apply wp_bind, wp_brain_read_check; intros c6 s6.
  apply wp_ret. exists c1, c2, c3, c4, c5, c6.
  cbn [Shadow.checks Shadow.trustScore].
  split; [reflexivity|]. split; [reflexivity|].
  unfold fine.
  destruct (Shadow.pass c1), (Shadow.pass c2), (Shadow.pass c3),
    (Shadow.pass c4), (Shadow.pass c5), (env_supabase env); lia.
Qed.

(** *** Ordering *)

Lemma elem_of_bool_filter {A} (f : A -> bool) (x : A) (l : list A) :
  x ∈ List.filter f l <-> x ∈ l /\ f x = true.
Proof. rewrite !list_elem_of_In. apply filter_In. Qed.

Section Ordering.
Context {A : Type}.
Variable ge : A -> A -> bool.
Hypothesis ge_total : forall x y, ge x y = true \/ ge y x = true.
Hypothesis ge_trans :
  forall x y z, ge x y = true -> ge y z = true -> ge x z = true.

Lemma elem_of_insert_desc x y l : y ∈ insert_desc ge x l <-> y = x \/ y ∈ l.
Proof.
  induction l as [|z l IH]; simpl.
  - rewrite list_elem_of_singleton, elem_of_nil. tauto.
  - destruct (ge x z); rewrite !elem_of_cons; [tauto|]. rewrite IH. tauto.
Qed.

Lemma elem_of_order_desc y l : y ∈ order_desc ge l <-> y ∈ l.
Proof.
  induction l as [|z l IH]; simpl; [tauto|].
  rewrite elem_of_insert_desc, IH, elem_of_cons. tauto.
Qed.

Lemma length_insert_desc x l : length (insert_desc ge x l) = S (length l).
Proof.
  induction l as [|z l IH]; simpl; [reflexivity|].
  destruct (ge x z); simpl; congruence.
Qed.

Lemma length_order_desc l : length (order_desc ge l) = length l.
Proof.
  induction l as [|z l IH]; simpl; [reflexivity|].
  rewrite length_insert_desc. congruence.
Qed.

Lemma insert_desc_ranked x l : ranked ge l -> ranked ge (insert_desc ge x l).
Proof.
  unfold ranked. induction 1 as [|z l Hl IH Hz]; simpl.
  - repeat constructor.
  - rewrite Forall_forall in Hz. destruct (ge x z) eqn:Hxz.
    + apply StronglySorted_cons.
      split; [|by constructor; [|apply Forall_forall]].
      apply Forall_forall. intros y [->|Hy]%elem_of_cons; [done|]. eauto.
    + apply StronglySorted_cons. split; [|done].
      apply Forall_forall. intros y [->|Hy]%elem_of_insert_desc; [|eauto].
      destruct (ge_total x z); [congruence|done].
Qed.

Lemma order_desc_ranked l : ranked ge (order_desc ge l).
Proof.
  induction l as [|z l IH]; simpl; [constructor|].
  by apply insert_desc_ranked.
Qed.

Lemma ranked_take n l : ranked ge l -> ranked ge (take n l).
Proof.
  unfold ranked. rewrite <- (take_drop n l) at 1.
  apply StronglySorted_app_1_l.
Qed.

Lemma ranked_later l1 x l2 y :
  ranked ge (l1 ++ x :: l2) -> y ∈ l2 -> ge x y = true.
Proof.
  unfold ranked. intros H Hy. apply StronglySorted_app_1_r in H.
  apply StronglySorted_cons in H as [H _]. rewrite Forall_forall in H. eauto.
Qed.

(** In the first [n] of a ranked list, what [x] does not dominate comes
    before [x]. *)
Lemma ranked_take_earlier n l before x after y :
  ranked ge l -> take n l = before ++ x :: after ->
  y ∈ l -> ge x y = false -> y ∈ before.
Proof.
  intros Hl Htake Hy Hxy.
  rewrite <- (take_drop n l), Htake, <- app_assoc in Hl, Hy.
  simpl in Hl, Hy.
  apply elem_of_app in Hy as [Hy|Hy]; [done|].
  apply elem_of_cons in Hy as [->|Hy].
  - destruct (ge_total x x); congruence.
  - pose proof (ranked_later _ _ _ _ Hl Hy). congruence.
Qed.
End Ordering.

Lemma imp_ge_total a b : imp_ge a b = true \/ imp_ge b a = true.
Proof. destruct a, b; simpl; auto. lia. Qed.

Lemma imp_ge_trans a b c :
  imp_ge a b = true -> imp_ge b c = true -> imp_ge a c = true.
Proof. destruct a, b, c; simpl; try done. lia. Qed.

Lemma by_importance_total r s :
  by_importance r s = true \/ by_importance s r = true.
Proof. apply imp_ge_total. Qed.

Lemma by_importance_trans r s t :
  by_importance r s = true -> by_importance s t = true ->
  by_importance r t = true.
Proof. apply imp_ge_trans. Qed.

(** *** [brainSearch] *)

Lemma brainSearch_eq query limit env s :
  brainSearch query limit env s =
  match store_fault env (clock s) with
  | Some e => (Throw e, upd_clock S s)
  | None =>
      (Ok (search_rows (text_match env) query limit (aba_memory s)),
       upd_clock S s)
  end.
Proof.
  cbv [brainSearch mbind M_bind mret M_ret ask store_select store_call throw].
  destruct (store_fault env (clock s)); reflexivity.
Qed.

Lemma search_rows_ranked matches query limit rows :
  ranked by_importance (search_rows matches query limit rows).
Proof.
  apply ranked_take, order_desc_ranked;
    [exact by_importance_total | exact by_importance_trans].
Qed.

Lemma elem_of_search_rows matches query limit rows r :
  r ∈ search_rows matches query limit rows ->
  r ∈ rows /\ matches query (row_content r) = true.
Proof.
  unfold search_rows. intros Hr. apply subseteq_take in Hr.
  apply elem_of_order_desc in Hr. by apply elem_of_bool_filter in Hr.
Qed.

Lemma search_rows_earlier matches query limit rows before x after r :
  search_rows matches query limit rows = before ++ x :: after ->
  r ∈ rows -> matches query (row_content r) = true ->
  by_importance x r = false -> r ∈ before.
Proof.
  intros Hsplit Hr Hm Hxr.
  eapply (ranked_take_earlier by_importance by_importance_total);
    [ apply order_desc_ranked;
        [exact by_importance_total | exact by_importance_trans]
    | exact Hsplit | | exact Hxr ].
  apply elem_of_order_desc, elem_of_bool_filter. auto.
Qed.

(** C4, as the source has it: a search the store answers returns at most
    [limit] matching rows ranked by importance descending; every match the
    row at some position does not dominate comes before that position, and
    nothing after a position outranks it. In particular a match of
    importance 7 comes before, and never after, any returned row of
    importance 3. The order among rows of equal importance is left to the
    store: [created_at] is no part of the query. *)
Theorem brainSearch_ranked_by_importance :
  forall query limit env s,
    match brainSearch query limit env s with
    | (Ok l, s') =>
        ranked by_importance l
        /\ (length l <= limit)%nat
        /\ (forall r, r ∈ l ->
              r ∈ aba_memory s /\ text_match env query (row_content r) = true)
        /\ (forall before x after r,
              l = before ++ x :: after ->
              (r ∈ after -> by_importance x r = true)
              /\ (r ∈ aba_memory s ->
                   text_match env query (row_content r) = true ->
                   by_importance x r = false -> r ∈ before))
        /\ (forall before r3 after r7,
              l = before ++ r3 :: after ->
              row_importance r3 = Some 3 -> row_importance r7 = Some 7 ->
              (r7 ∉ after)
              /\ (r7 ∈ aba_memory s ->
                   text_match env query (row_content r7) = true ->
                   r7 ∈ before))
        /\ aba_memory s' = aba_memory s
    | (Throw e, s') => store_fault env (clock s) = Some e
    end.
Proof.
  intros query limit env s. rewrite brainSearch_eq.
  destruct (store_fault env (clock s)) as [e|]; [reflexivity|].
  pose proof (search_rows_ranked (text_match env) query limit (aba_memory s))
    as Hranked.
  split; [exact Hranked|].
  split; [unfold search_rows; rewrite length_take; lia|].
  split; [intros r; apply elem_of_search_rows|].
  split; [|split; [|reflexivity]].
  - intros before x after r Hsplit. split.
    + intros Hr. rewrite Hsplit in Hranked. eapply ranked_later; eauto.
    + intros Hr Hm Hxr. eapply search_rows_earlier; eauto.
  - intros before r3 after r7 Hsplit H3 H7.
    assert (by_importance r3 r7 = false) as Hlow.
    { unfold by_importance. rewrite H3, H7. reflexivity. }
    split.
    + intros Hr. rewrite Hsplit in Hranked.
      pose proof (ranked_later _ _ _ _ _ Hranked Hr). congruence.
    + intros Hr Hm. eapply search_rows_earlier; eauto.
Qed.

(** C4, counterexample: two matches of importance 5; the search returns the
    one created earlier first, where the claimed ranking wants the more
    recent one first. *)
Lemma brainSearch_ties_not_by_recency :
  exists l s',
    brainSearch "job" 10 calm_env
      (with_memory [older_alert; newer_alert] fresh_state) = (Ok l, s')
    /\ l = [older_alert; newer_alert]
    /\ ~ spec_ranked l.
Proof.
  do 2 eexists. split; [reflexivity|]. split; [reflexivity|].
  intros H. apply StronglySorted_cons in H as [H _].
  rewrite Forall_forall in H.
  specialize (H newer_alert ltac:(left)). discriminate H.
Qed.

(** *** Escalation *)

Lemma reach_post_eq request env s :
  reach_post request env s =
  match reach_fault env (clock s) with
  | Some e =>
      (Throw e,
       upd_reach (fun l => l ++ [mkReachCall request false]) (upd_clock S s))
  | None =>
      (Ok tt,
       upd_reach (fun l => l ++ [mkReachCall request true]) (upd_clock S s))
  end.
Proof.
  cbv [reach_post mbind M_bind mret M_ret ask now tick modify throw].
  destruct (reach_fault env (clock s)); reflexivity.
Qed.

(** A rejected fetch leaves [escalateToREACH] as an exception. *)
Lemma escalateToREACH_rejected urgency message source env s e :
  reach_fault env (clock s) = Some e ->
  fst (escalateToREACH urgency message source env s) = Throw e.
Proof.
  intros H. unfold escalateToREACH. rewrite reach_post_eq, H. reflexivity.
Qed.

(** C2, the failing request: LUKE is asked to extract from a transcript with
    one urgent item while the notification service is out of reach. The item
    is stored, the escalation's rejected fetch surfaces from
    [escalateToREACH], and the request is answered with the 500 error object
    instead of the extraction result. *)
Theorem luke_escalation_failure_fails_request :
  exists s',
    Luke.serve urgent_scan (Some urgent_request) reach_down_env fresh_state
      = (Ok (json_response_with 500
               (JObj [("agent", JStr Luke.AGENT_NAME);
                      ("status", JStr "error");
                      ("error", JStr "error sending request")])), s')
    /\ map row_content (aba_memory s')
         = ["ACTION ITEM [URGENT] (urgency 10/10): restart the database"]
    /\ map rc_delivered (reach_log s') = [false].
Proof.
  eexists. split; [vm_compute; reflexivity|]. split; reflexivity.
Qed.

(** The same request with the notification service in reach is answered
    200, the item stored and escalated. *)
Lemma luke_escalation_delivered :
  exists r s',
    Luke.serve urgent_scan (Some urgent_request) calm_env fresh_state
      = (Ok r, s')
    /\ resp_status r = 200
    /\ map rc_delivered (reach_log s') = [true].
Proof. do 2 eexists. split; [vm_compute; reflexivity|]. split; reflexivity. Qed.

Lemma store_and_escalate_reach_log source item env s :
  reach_log (snd (Luke.store_and_escalate source item env s)) =
  reach_log s ++
    match store_fault env (clock s) with
    | Some _ => []
    | None =>
        if 8 <=? Luke.urgency item then
          [mkReachCall
             (ReachEscalate
                (mkEscalation (Luke.urgency item)
                   ("URGENT " +:+ toUpperCase (Luke.type item) +:+ ": "
                      +:+ Luke.text item)
                   "luke_extract"))
             (bool_decide (reach_fault env (S (clock s)) = None))]
        else []
    end.
Proof.
  unfold Luke.store_and_escalate.
  cbv [mbind M_bind now]. rewrite brainWrite_eq.
  destruct (store_fault env (clock s)) as [e|]; cbn [snd];
    [by rewrite app_nil_r|].
  cbn. destruct (8 <=? Luke.urgency item); cbn; [|by rewrite app_nil_r].
  unfold escalateToREACH. cbv [mbind M_bind]. rewrite reach_post_eq. cbn.
  destruct (reach_fault env (S (clock s))); reflexivity.
Qed.

(** C3, as the source has it: [escalateToREACH] applies no threshold, every
    call issues exactly one request to the notification service whatever the
    urgency; the threshold 8 is the calling handler's. For an extracted item
    LUKE issues, after the item is stored, exactly one request when its
    urgency is at least 8 and none when it is below; nothing is issued when
    the store refuses the item. *)
Theorem escalation_threshold_is_the_callers :
  (forall urgency message source env s,
     map rc_request
       (reach_log (snd (escalateToREACH urgency message source env s)))
       = map rc_request (reach_log s)
           ++ [ReachEscalate (mkEscalation urgency message source)])
  /\ (forall source item env s,
        length (reach_log (snd (Luke.store_and_escalate source item env s))) =
        Nat.add (length (reach_log s))
          match store_fault env (clock s) with
          | Some _ => 0%nat
          | None => if 8 <=? Luke.urgency item then 1%nat else 0%nat
          end).
Proof.
  split.
  - intros. unfold escalateToREACH. rewrite reach_post_eq.
    destruct (reach_fault env (clock s)); cbn; by rewrite map_app.
  - intros. rewrite store_and_escalate_reach_log, length_app.
    destruct (store_fault env (clock s)); [reflexivity|].
    destruct (8 <=? Luke.urgency item); reflexivity.
Qed.

(** C3, counterexample: a call with urgency 7 issues its request. *)
Lemma escalateToREACH_urgency_7_is_sent :
  exists s',
    escalateToREACH 7 "URGENT TASK: water the plants" "luke_extract"
      calm_env fresh_state = (Ok tt, s')
    /\ reach_log s' =
         [mkReachCall
            (ReachEscalate
               (mkEscalation 7 "URGENT TASK: water the plants" "luke_extract"))
            true].
Proof. eexists. split; reflexivity. Qed.

(** *** [logTrace] and [reportToAIR]: best effort *)

Lemma wp_store_select {A} (q : list Row -> A) env s Q E :
  match store_fault env (clock s) with
  | Some e => Q (StoreError e) (upd_clock S s)
  | None => Q (StoreData (q (aba_memory s))) (upd_clock S s)
  end ->
  wp (store_select q) env s Q E.
Proof.
  unfold wp, store_select, store_call.
  destruct (store_fault env (clock s)); exact id.
Qed.

Lemma wp_brainWrite memory env s Q (E : string -> State -> Prop) :
  match store_fault env (clock s) with
  | Some e => E e (upd_clock S s)
  | None =>
      let '(r, s') := insert_row memory (clock s) (clock s) s in
      Q r (upd_clock S s')
  end ->
  wp (brainWrite memory) env s Q E.
Proof.
  unfold wp. rewrite brainWrite_eq.
  destruct (store_fault env (clock s)); [exact id|].
  destruct (insert_row memory (clock s) (clock s) s). exact id.
Qed.

(** [logTrace] never throws and leaves the cache and the notification log
    alone; when the store takes the write, the table gains one row tagged
    [trace]. *)
Lemma wp_logTrace trace env s (Q : unit -> State -> Prop) E :
  (forall s',
     cache s' = cache s -> reach_log s' = reach_log s ->
     (aba_memory s' = aba_memory s
      \/ exists r, aba_memory s' = aba_memory s ++ [r]) ->
     (env_supabase env = true -> store_fault env (clock s) = None ->
      exists r, aba_memory s' = aba_memory s ++ [r]
                /\ Sync.has_tag "trace" r = true
                /\ row_memory_type r = "system") ->
     Q tt s') ->
  wp (logTrace trace) env s Q E.
Proof.
  intros H. unfold logTrace. apply wp_try_catch, wp_bind.
  unfold wp at 1, createBrainClient. destruct (env_supabase env).
  - apply wp_bind, wp_now, wp_bind, wp_brainWrite.
    destruct (store_fault env (clock s)) as [e|].
    + apply wp_console_log, H; auto. discriminate.
    + cbn. apply wp_ret, H; eauto.
  - apply wp_console_log, H; auto. discriminate.
Qed.

Lemma wp_reportToAIR agentId status data env s (Q : unit -> State -> Prop) E :
  (forall s', Q tt s') -> wp (reportToAIR agentId status data) env s Q E.
Proof.
  intros H. unfold reportToAIR. apply wp_try_catch.
  apply wp_bind, wp_now, wp_bind, wp_ask, wp_bind, wp_tick.
  destruct (air_fault env (clock s)).
  - apply wp_throw, wp_console_log, H.
  - apply wp_modify, H.
Qed.

(** *** [handleBackfill] *)

Lemma backfill_one_runs memory done env s :
  exists s',
    Sage.backfill_one memory done env s
      = (Ok (if embed_succeeds env (clock s) (snd memory)
             then S done else done), s')
    /\ clock s' = (if embed_succeeds env (clock s) (snd memory)
                   then S (S (clock s)) else S (clock s)).
Proof.
  unfold Sage.backfill_one, Sage.generateEmbedding, embed_succeeds.
  cbv [try_catch mbind M_bind mret M_ret ask now tick modify throw
       console_log store_call].
  destruct (embed_reply env (clock s) (prefix_of (80 * 100) (snd memory)));
    cbn; eauto.
  destruct (store_fault env (S (clock s))); cbn; eauto.
Qed.

Lemma backfill_loop_counts memories :
  forall done env s,
    exists k s',
      Sage.backfill_loop memories done env s = (Ok k, s')
      /\ (k + embed_failures env memories (clock s)
           = done + length memories)%nat.
Proof.
  induction memories as [|memory rest IH]; intros done env s.
  - exists done, s. split; [reflexivity|]. simpl. lia.
  - destruct (backfill_one_runs memory done env s) as (s1 & Hone & Hclock).
    simpl Sage.backfill_loop. cbv [mbind M_bind]. rewrite Hone.
    destruct (IH (if embed_succeeds env (clock s) (snd memory)
                  then S done else done) env s1) as (k & s2 & Hrest & Hk).
    exists k, s2. split; [exact Hrest|].
    simpl embed_failures. rewrite Hclock in Hk.
    destruct (embed_succeeds env (clock s) (snd memory)); simpl; lia.
Qed.

Lemma elem_of_missing_embeddings batchSize rows id content :
  (id, content) ∈ Sage.missing_embeddings batchSize rows ->
  exists r, r ∈ rows /\ row_id r = id /\ row_content r = content
            /\ row_embedding r = None.
Proof.
  unfold Sage.missing_embeddings. intros H.
  apply list_elem_of_fmap in H as (r & Heq & Hr).
  apply subseteq_take, elem_of_bool_filter in Hr as [Hr Hnull].
  exists r. injection Heq as -> ->. repeat split; auto.
  by destruct (row_embedding r).
Qed.

(** What one turn of the loop does to the table when the store takes the
    update: the record gets the vector when the embedding call succeeds,
    and nothing changes when it fails. *)
Lemma backfill_one_table memory done env s :
  store_fault env (S (clock s)) = None ->
  exists s',
    Sage.backfill_one memory done env s
      = (Ok (if embed_succeeds env (clock s) (snd memory)
             then S done else done), s')
    /\ if embed_succeeds env (clock s) (snd memory)
       then exists v,
              aba_memory s'
                = Sage.update_embedding (fst memory) v (aba_memory s)
       else aba_memory s' = aba_memory s.
Proof.
  intros Hstore.
  unfold Sage.backfill_one, Sage.generateEmbedding, embed_succeeds.
  cbv [try_catch mbind M_bind mret M_ret ask now tick modify throw
       console_log store_call].
  destruct (embed_reply env (clock s) (prefix_of (80 * 100) (snd memory)));
    cbn; eauto.
  rewrite Hstore. cbn. eauto.
Qed.

Lemma update_embedding_ids id v rows :
  map row_id (Sage.update_embedding id v rows) = map row_id rows.
Proof.
  unfold Sage.update_embedding. rewrite map_map. apply map_ext.
  intros r. by destruct (String.eqb (row_id r) id).
Qed.

Lemma update_embedding_cons id v x rows :
  Sage.update_embedding id v (x :: rows)
    = (if String.eqb (row_id x) id then set_row_embedding v x else x)
        :: Sage.update_embedding id v rows.
Proof. reflexivity. Qed.

Lemma update_embedding_absent id v rows :
  id ∉ map row_id rows -> Sage.update_embedding id v rows = rows.
Proof.
  induction rows as [|x rows IH]; intros Hid; [reflexivity|].
  cbn [map] in Hid. apply not_elem_of_cons in Hid as [Hx Hrows].
  rewrite update_embedding_cons, (IH Hrows).
  destruct (String.eqb (row_id x) id) eqn:Heq; [|reflexivity].
  apply String.eqb_eq in Heq. congruence.
Qed.

Lemma elem_of_update_embedding_ne id v rows r :
  r ∈ rows -> row_id r <> id -> r ∈ Sage.update_embedding id v rows.
Proof.
  intros Hr Hid. unfold Sage.update_embedding.
  apply list_elem_of_fmap. exists r. split; [|exact Hr].
  apply String.eqb_neq in Hid. by rewrite Hid.
Qed.

(** With distinct identifiers, an update embeds exactly one record. *)
Lemma unembedded_update id v rows r :
  NoDup (map row_id rows) ->
  r ∈ rows -> row_id r = id -> lacks_embedding r = true ->
  (unembedded (Sage.update_embedding id v rows) + 1 = unembedded rows)%nat.
Proof.
  unfold unembedded.
  induction rows as [|x rows IH]; intros Hnodup Hr Hid Hlacks.
  - by apply elem_of_nil in Hr.
  - cbn [map] in Hnodup. apply NoDup_cons in Hnodup as [Hx Hnodup].
    apply elem_of_cons in Hr as [->|Hr].
    + rewrite <- Hid in *.
      rewrite update_embedding_cons, String.eqb_refl,
        (update_embedding_absent _ _ _ Hx).
      cbn [List.filter]. rewrite Hlacks. cbn. lia.
    + assert (row_id x <> id) as Hne.
      { intros Heq. apply Hx. rewrite Heq, <- Hid.
        change (map row_id rows) with (row_id <$> rows).
        apply list_elem_of_fmap. eauto. }
      apply String.eqb_neq in Hne.
      rewrite update_embedding_cons, Hne. cbn [List.filter].
      specialize (IH Hnodup Hr Hid Hlacks).
      destruct (lacks_embedding x); cbn [length]; lia.
Qed.

(** When the store takes every update and identifiers are distinct, each
    record the loop counts is a record that lacked its embedding and has it
    afterwards. *)
Lemma backfill_loop_embeds env :
  (forall t, store_fault env t = None) ->
  forall memories done s,
    NoDup (map row_id (aba_memory s)) ->
    NoDup (map fst memories) ->
    (forall memory, memory ∈ memories ->
       exists r, r ∈ aba_memory s /\ row_id r = fst memory
                 /\ lacks_embedding r = true) ->
    exists k s',
      Sage.backfill_loop memories done env s = (Ok k, s')
      /\ length (aba_memory s') = length (aba_memory s)
      /\ (unembedded (aba_memory s') + k
          = unembedded (aba_memory s) + done)%nat.
Proof.
  intros Hstore.
  induction memories as [|memory rest IH]; intros done s Hrows Hbatch Hin.
  - exists done, s. repeat split; lia.
  - cbn [map] in Hbatch. apply NoDup_cons in Hbatch as [Hhead Hbatch].
    destruct (backfill_one_table memory done env s (Hstore _))
      as (s1 & Hone & Htable).
    cbn [Sage.backfill_loop]. cbv [mbind M_bind]. rewrite Hone.
    destruct (Hin memory) as (r & Hr & Hid & Hlacks); [by left|].
    destruct (embed_succeeds env (clock s) (snd memory)).
    + destruct Htable as [v Htable].
      destruct (IH (S done) s1) as (k & s2 & Hloop & Hlen & Hcount).
      * by rewrite Htable, update_embedding_ids.
      * exact Hbatch.
      * intros m Hm.
        destruct (Hin m) as (r' & Hr' & Hid' & Hlacks'); [by right|].
        exists r'. rewrite Htable. repeat split; auto.
        apply elem_of_update_embedding_ne; [exact Hr'|].
        rewrite Hid'. intros Heq. apply Hhead. rewrite <- Heq.
        change (map fst rest) with (fst <$> rest).
        apply list_elem_of_fmap. eauto.
      * exists k, s2. split; [exact Hloop|].
        rewrite Hlen, Hcount, Htable.
        split; [unfold Sage.update_embedding; by rewrite length_map|].
        pose proof (unembedded_update (fst memory) v (aba_memory s) r
                      Hrows Hr Hid Hlacks).
        lia.
    + destruct (IH done s1) as (k & s2 & Hloop & Hlen & Hcount).
      * by rewrite Htable.
      * exact Hbatch.
      * intros m Hm. rewrite Htable. apply Hin. by right.
      * exists k, s2. split; [exact Hloop|]. by rewrite Hlen, Hcount, Htable.
Qed.

Lemma NoDup_map_filter {A B} (f : A -> B) (p : A -> bool) (l : list A) :
  NoDup (map f l) -> NoDup (map f (List.filter p l)).
Proof.
  induction l as [|x l IH]; intros Hnodup; [constructor|].
  cbn [map] in Hnodup. apply NoDup_cons in Hnodup as [Hx Hnodup].
  cbn [List.filter]. destruct (p x); [|by apply IH].
  cbn [map]. apply NoDup_cons. split; [|by apply IH].
  intros Hin. apply Hx.
  change (map f ?k) with (f <$> k) in *.
  apply list_elem_of_fmap in Hin as (y & Hy & Hin).
  apply elem_of_bool_filter in Hin as [Hin _].
  apply list_elem_of_fmap. eauto.
Qed.

Lemma backfill_batch_distinct batchSize rows :
  NoDup (map row_id rows) -> NoDup (map fst (backfill_batch batchSize rows)).
Proof.
  intros Hnodup. unfold backfill_batch. rewrite map_map. cbn [fst].
  change (map (fun r => row_id r) ?k) with (row_id <$> k).
  rewrite fmap_take.
  eapply sublist_NoDup; [|apply sublist_take].
  by apply NoDup_map_filter.
Qed.

(** The batch the handler selects is the first [batchSize] records that
    lack an embedding. *)
Lemma missing_embeddings_is_batch batchSize rows :
  Sage.missing_embeddings batchSize rows = backfill_batch batchSize rows.
Proof. reflexivity. Qed.

Lemma logTrace_appends trace env s :
  exists s',
    logTrace trace env s = (Ok tt, s')
    /\ (aba_memory s' = aba_memory s
        \/ exists r, aba_memory s' = aba_memory s ++ [r]).
Proof.
  enough (wp (logTrace trace) env s
            (fun _ s' => aba_memory s' = aba_memory s
                         \/ exists r, aba_memory s' = aba_memory s ++ [r])
            never) as H.
  { apply wp_returns in H as ([] & s' & Hrun & H). eauto. }
  apply wp_logTrace. intros s' _ _ H _. exact H.
Qed.

(** C5: when the store answers the selection, [handleBackfill] returns
    without throwing, whatever the embedding service does. Its [total] is
    the number of records it selects: the records of the table that lack an
    embedding, [batchSize] of them at most. Its [processed] is [total] less
    the number of selected records whose embedding call failed, whatever
    that number, so a failed call skips its record and the rest of the batch
    still runs. When the store also takes every update and identifiers are
    distinct, the records that still lack an embedding afterwards are fewer
    by exactly [processed]: each record counted has been given its
    embedding. *)
Theorem handleBackfill_counts :
  forall batchSize env s,
    store_fault env (clock s) = None ->
    exists b s',
      Sage.handleBackfill batchSize env s = (Ok b, s')
      /\ Sage.total b = Nat.min batchSize (unembedded (aba_memory s))
      /\ (Sage.total b <= batchSize)%nat
      /\ (Sage.processed b <= Sage.total b)%nat
      /\ (Sage.processed b
           + embed_failures env (backfill_batch batchSize (aba_memory s))
               (S (clock s))
           = Sage.total b)%nat
      /\ ((forall t, store_fault env t = None) ->
          NoDup (map row_id (aba_memory s)) ->
          (unembedded (take (length (aba_memory s)) (aba_memory s'))
           + Sage.processed b
           = unembedded (aba_memory s))%nat).
Proof.
  intros batchSize env s Hstore.
  set (memories := backfill_batch batchSize (aba_memory s)).
  assert (length memories = Nat.min batchSize (unembedded (aba_memory s)))
    as Htotal.
  { unfold memories, backfill_batch, unembedded.
    by rewrite length_map, length_take. }
  unfold Sage.handleBackfill. cbv [mbind M_bind].
  rewrite createTrace_eq. cbv beta iota zeta.
  unfold store_select, store_call. cbn [clock aba_memory upd_console].
  rewrite Hstore, missing_embeddings_is_batch. fold memories.
  cbv beta iota zeta.
  match goal with
  | |- context [Sage.backfill_loop memories 0%nat env ?s0] =>
      set (start := s0)
  end.
  destruct (backfill_loop_counts memories 0%nat env start)
    as (k & s1 & Hloop & Hk).
  rewrite Hloop.
  match goal with
  | |- context [logTrace ?t env s1] =>
      destruct (logTrace_appends t env s1) as (s2 & Hlog & Hrows);
      rewrite Hlog
  end.
  cbv [mret M_ret]. do 2 eexists. split; [reflexivity|].
  cbn [Sage.total Sage.processed]. subst start.
  cbn [clock upd_clock upd_console] in Hk.
  split; [exact Htotal|]. split; [lia|]. split; [lia|].
  split; [lia|].
  intros Hupdates Hdistinct.
  destruct (backfill_loop_embeds env Hupdates memories 0%nat
              (upd_clock S
                 (upd_console
                    (fun c => c ++ [trace_line
                       (mkTraceEntry
                          ("CRON" +:+ "*" +:+ "SAGE" +:+ "*" +:+ "SUPABASE")
                          "Starting embedding backfill"
                          (default "OK" (Some "BACKFILLING")) (clock s)
                          "SAGE")]) s)))
    as (k' & s1' & Hloop' & Hlen & Hcount).
  - exact Hdistinct.
  - by apply backfill_batch_distinct.
  - intros [id content] Hin.
    apply (elem_of_missing_embeddings batchSize) in Hin
      as (r & Hr & Hid & _ & Hnone).
    exists r. unfold lacks_embedding. rewrite Hnone. auto.
  - rewrite Hloop in Hloop'. injection Hloop' as <- <-.
    cbn [aba_memory upd_clock upd_console] in Hlen, Hcount.
    assert (take (length (aba_memory s)) (aba_memory s2) = aba_memory s1)
      as ->; [|lia].
    destruct Hrows as [->|[r ->]].
    + apply take_ge. lia.
    + rewrite <- Hlen. by rewrite take_app_length.
Qed.

(** C5, the example of the specification: the selection is answered, ten
    records lack an embedding, the embedding call fails for three of them,
    and the backfill returns 7 of 10 with three records still to embed. *)
Lemma handleBackfill_counts_witness :
  store_fault flaky_embed_env (clock (with_memory ten_notes fresh_state)) = None
  /\ embed_failures flaky_embed_env (backfill_batch 10 ten_notes) 1 = 3%nat
  /\ exists b s',
       Sage.handleBackfill 10 flaky_embed_env
         (with_memory ten_notes fresh_state) = (Ok b, s')
       /\ Sage.total b = 10%nat
       /\ Sage.processed b = 7%nat
       /\ unembedded (take 10 (aba_memory s')) = 3%nat.
Proof.
  split; [reflexivity|]. split; [vm_compute; reflexivity|].
  destruct (handleBackfill_counts 10 flaky_embed_env
              (with_memory ten_notes fresh_state) eq_refl)
    as (b & s' & Hrun & Htotal & _ & _ & Hsum & Htable).
  exists b, s'. split; [exact Hrun|].
  assert (unembedded (aba_memory (with_memory ten_notes fresh_state))
          = 10%nat) as Hten by (vm_compute; reflexivity).
  assert (embed_failures flaky_embed_env
            (backfill_batch 10 (aba_memory (with_memory ten_notes fresh_state)))
            (S (clock (with_memory ten_notes fresh_state))) = 3%nat)
    as Hthree by (vm_compute; reflexivity).
  rewrite Hten in Htotal. cbn in Htotal. rewrite Hthree in Hsum.
  split; [exact Htotal|]. split; [lia|].
  assert (NoDup (map row_id (aba_memory (with_memory ten_notes fresh_state))))
    as Hdistinct by (apply (bool_decide_unpack _); vm_compute; exact I).
  specialize (Htable (fun t => eq_refl) Hdistinct).
  rewrite Hten in Htable.
  change (length (aba_memory (with_memory ten_notes fresh_state)))
    with 10%nat in Htable.
  lia.
Defined.

(** The example of the specification: ten records selected, three embedding
    calls fail, seven are processed and nothing is thrown. *)
Lemma handleBackfill_seven_of_ten :
  fst (Sage.handleBackfill 10 flaky_embed_env
         (with_memory ten_notes fresh_state))
    = Ok (Sage.mkBackfill 7 10).
Proof. vm_compute. reflexivity. Qed.

(** *** The cache *)

Lemma wp_cache_fetch {A}
  (command : gmap string CacheEntry -> A * gmap string CacheEntry)
  env s Q (E : string -> State -> Prop) :
  match cache_fault env (clock s) with
  | Some e => E e (upd_clock S s)
  | None =>
      Q (fst (command (cache s)))
        (upd_clock S (upd_cache (fun _ => snd (command (cache s))) s))
  end ->
  wp (Sync.cache_fetch command) env s Q E.
Proof.
  unfold wp, Sync.cache_fetch.
  destruct (cache_fault env (clock s)); [exact id|].
  destruct (command (cache s)). exact id.
Qed.

Lemma wp_upstashGet key env s Q E :
  (forall j s',
     cache s' = cache s ->
     (env_upstash env = false \/ cache_fault env (clock s) <> None
      \/ cache s !! key = None -> j = JNull) ->
     Q j s') ->
  wp (Sync.upstashGet key) env s Q E.
Proof.
  intros H. unfold Sync.upstashGet. apply wp_bind, wp_ask.
  destruct (env_upstash env) eqn:Hcfg; cbn [negb].
  - apply wp_try_catch, wp_bind, wp_cache_fetch.
    destruct (cache_fault env (clock s)) as [e|] eqn:Hfault.
    + apply wp_bind, wp_console_log, wp_ret, H; [reflexivity|auto].
    + apply wp_ret, H; [reflexivity|].
      intros [?|[?|Hkey]]; [discriminate|congruence|].
      unfold Sync.cmd_get. cbn [fst]. by rewrite Hkey.
  - apply wp_ret, H; auto.
Qed.

Lemma wp_upstashSet key value ttl env s Q E :
  (forall b s',
     aba_memory s' = aba_memory s -> next_id s' = next_id s ->
     reach_log s' = reach_log s ->
     (cache_down env -> b = false /\ cache s' = cache s) ->
     Q b s') ->
  wp (Sync.upstashSet key value ttl) env s Q E.
Proof.
  intros H. unfold Sync.upstashSet. apply wp_bind, wp_ask.
  destruct (env_upstash env) eqn:Hcfg; cbn [negb].
  - assert (cache_fault env (clock s) = None -> cache_down env -> False)
      as Hup.
    { intros Hnone [?|Hdown]; [congruence|]. by destruct (Hdown (clock s)). }
    apply wp_try_catch, wp_bind, wp_cache_fetch.
    destruct (cache_fault env (clock s)) as [e|] eqn:Hfault.
    + apply wp_bind, wp_console_log, wp_ret, H; auto.
    + apply wp_bind. destruct (0 <? ttl).
      * apply wp_cache_fetch. cbn [clock upd_clock upd_cache].
        destruct (cache_fault env (S (clock s))) as [e|].
        -- apply wp_bind, wp_console_log, wp_ret, H; try reflexivity.
           intros Hdown. by destruct Hup.
        -- apply wp_ret, H; try reflexivity. intros Hdown. by destruct Hup.
      * apply wp_ret, wp_ret, H; try reflexivity.
        intros Hdown. by destruct Hup.
  - apply wp_ret, H; auto.
Qed.

(** [restore] never throws. *)
Lemma restore_returns env s :
  exists r s', Sync.restore env s = (Ok r, s').
Proof.
  enough (wp Sync.restore env s (fun _ _ => True) never) as H.
  { apply wp_returns in H as (r & s' & H & _). eauto. }
  unfold Sync.restore.
  apply wp_bind, wp_createTrace; intros entry line.
  apply wp_bind, wp_upstashGet; intros j1 s1 _ _.
  apply wp_bind, wp_upstashGet; intros j2 s2 _ _.
  apply wp_bind, wp_upstashGet; intros j3 s3 _ _.
  apply wp_bind, wp_logTrace; intros s4 _ _ _ _.
  by apply wp_ret.
Qed.

(** After a full sync that reached the cache, [restore] finds all three
    keys. *)
Lemma restore_after_sync :
  exists r s',
    Sync.restore calm_env synced_state = (Ok r, s')
    /\ js_truthy (Sync.state r) = true
    /\ json_field "agentCount" (Sync.r_agents r) = Some (JNum 1)
    /\ json_field "traceCount" (Sync.r_traces r) = Some (JNum 2).
Proof. do 2 eexists. split; [vm_compute; reflexivity|]. repeat split. Qed.

(** C6: on a cold cache (not configured, never reachable, or holding none
    of the three well-known keys) [restore] returns state, agents and traces
    all null, and does not throw. *)
Theorem restore_cold_cache :
  forall env s,
    cold_cache env s ->
    exists s',
      Sync.restore env s = (Ok (Sync.mkRestored JNull JNull JNull), s').
Proof.
  intros env s Hcold.
  enough (wp Sync.restore env s
            (fun r _ => r = Sync.mkRestored JNull JNull JNull) never) as H.
  { apply wp_returns in H as (r & s' & H & ->). eauto. }
  unfold Sync.restore.
  apply wp_bind, wp_createTrace; intros entry line.
  apply wp_bind, wp_upstashGet; intros j1 s1 Hc1 Hj1.
  apply wp_bind, wp_upstashGet; intros j2 s2 Hc2 Hj2.
  apply wp_bind, wp_upstashGet; intros j3 s3 Hc3 Hj3.
  apply wp_bind, wp_logTrace; intros s4 _ _ _ _.
  apply wp_ret.
  rewrite Hc1 in Hj2. rewrite Hc2, Hc1 in Hj3. cbn [cache upd_console] in *.
  destruct Hcold as [[Hcfg|Hdown]|(Hk1 & Hk2 & Hk3)].
  - rewrite Hj1, Hj2, Hj3; auto.
  - rewrite Hj1, Hj2, Hj3; auto.
  - rewrite Hj1, Hj2, Hj3; auto.
Qed.

(** C6, an instance: a configured, reachable cache with nothing in it. *)
Lemma restore_cold_cache_witness :
  cold_cache calm_env fresh_state
  /\ exists s',
       Sync.restore calm_env fresh_state
         = (Ok (Sync.mkRestored JNull JNull JNull), s').
Proof.
  assert (cold_cache calm_env fresh_state) as Hcold.
  { right. repeat split; reflexivity. }
  split; [exact Hcold|].
  exact (restore_cold_cache calm_env fresh_state Hcold).
Defined.

(** *** [syncAll] *)

Lemma wp_createBrainClient env s (Q : unit -> State -> Prop)
  (E : string -> State -> Prop) :
  (if env_supabase env then Q tt s else E "supabaseUrl is required." s) ->
  wp createBrainClient env s Q E.
Proof.
  unfold wp, createBrainClient. destruct (env_supabase env); exact id.
Qed.

Lemma length_agent_records rows :
  length (Sync.agent_records rows)
    = Nat.min 100 (length (List.filter is_agent_record rows)).
Proof.
  unfold Sync.agent_records.
  by rewrite length_fmap, length_take, length_order_desc.
Qed.

Lemma length_trace_records rows :
  length (Sync.trace_records rows)
    = Nat.min 100 (length (List.filter is_trace_record rows)).
Proof.
  unfold Sync.trace_records.
  by rewrite length_fmap, length_take, length_order_desc.
Qed.

Section StoreAvailable.
Variable env : Env.
Hypothesis client_configured : env_supabase env = true.
Hypothesis store_answers : forall n, store_fault env n = None.

Lemma wp_syncAgents s Q E :
  (forall st s' r1 r2,
     Sync.agentCount st = length (Sync.agent_records (aba_memory s)) ->
     aba_memory s' = aba_memory s ++ [r1; r2] ->
     is_trace_record r1 = false -> is_trace_record r2 = true ->
     (cache_down env -> cache s' = cache s) ->
     Q st s') ->
  wp Sync.syncAgents env s Q E.
Proof.
  intros H. unfold Sync.syncAgents.
  apply wp_bind, wp_createTrace; intros entry line.
  apply wp_bind, wp_createBrainClient. rewrite client_configured.
  apply wp_bind, wp_store_select. rewrite store_answers.
  apply wp_bind, wp_now.
  apply wp_bind, wp_upstashSet; intros b s1 Hmem1 _ _ Hcache1.
  apply wp_bind, wp_now.
  apply wp_bind, wp_brainWrite. rewrite store_answers.
  cbv beta iota delta [insert_row].
  apply wp_bind, wp_logTrace; intros s2 Hcache2 _ _ Hrow.
  destruct Hrow as (r2 & Hmem2 & Htag & _);
    [exact client_configured | apply store_answers |].
  apply wp_ret. eapply H.
  - reflexivity.
  - rewrite Hmem2. cbn [aba_memory upd_clock upd_next_id upd_memory].
    rewrite Hmem1. cbn [aba_memory upd_clock upd_console].
    rewrite <- app_assoc. reflexivity.
  - reflexivity.
  - exact Htag.
  - intros Hdown. rewrite Hcache2.
    cbn [cache upd_clock upd_next_id upd_memory].
    by destruct (Hcache1 Hdown) as [_ ->].
Qed.

Lemma wp_syncTraces s Q E :
  (forall st s' r,
     Sync.traceCount st = length (Sync.trace_records (aba_memory s)) ->
     aba_memory s' = aba_memory s ++ [r] ->
     (cache_down env -> cache s' = cache s) ->
     Q st s') ->
  wp Sync.syncTraces env s Q E.
Proof.
  intros H. unfold Sync.syncTraces.
  apply wp_bind, wp_createTrace; intros entry line.
  apply wp_bind, wp_createBrainClient. rewrite client_configured.
  apply wp_bind, wp_store_select. rewrite store_answers.
  apply wp_bind, wp_now.
  apply wp_bind, wp_upstashSet; intros b s1 Hmem1 _ _ Hcache1.
  apply wp_bind, wp_logTrace; intros s2 Hcache2 _ _ Hrow.
  destruct Hrow as (r2 & Hmem2 & _);
    [exact client_configured | apply store_answers |].
  apply wp_ret. eapply H.
  - reflexivity.
  - rewrite Hmem2, Hmem1. reflexivity.
  - intros Hdown. rewrite Hcache2. by destruct (Hcache1 Hdown) as [_ ->].
Qed.

Lemma wp_syncAll inputState s Q E :
  (forall agg s',
     Sync.agentCount (Sync.agents agg)
       = Nat.min 100 (length (List.filter is_agent_record (aba_memory s))) ->
     Sync.traceCount (Sync.traces agg)
       = Nat.min 100
           (S (length (List.filter is_trace_record (aba_memory s)))) ->
     Sync.inputState agg = Sync.state_or_empty inputState ->
     Sync.upstashConnected agg = env_upstash env ->
     (cache_down env -> cache s' = cache s) ->
     Q agg s') ->
  wp (Sync.syncAll inputState) env s Q E.
Proof.
  intros H. unfold Sync.syncAll.
  apply wp_bind, wp_createTrace; intros entry line.
  apply wp_bind, wp_now.
  apply wp_bind, wp_syncAgents;
    intros st1 s1 r1 r2 Hcount1 Hmem1 Hr1 Hr2 Hcache1.
  apply wp_bind, wp_syncTraces; intros st2 s2 r3 Hcount2 Hmem2 Hcache2.
  apply wp_bind, wp_ask.
  apply wp_bind, wp_upstashSet; intros b s3 _ _ _ Hcache3.
  apply wp_bind, wp_logTrace; intros s4 Hcache4 _ _ _.
  apply wp_ret, H; cbn [Sync.agents Sync.traces Sync.inputState
                         Sync.upstashConnected]; try reflexivity.
  - rewrite Hcount1, length_agent_records. reflexivity.
  - rewrite Hcount2, length_trace_records, Hmem1.
    cbn [aba_memory upd_console].
    rewrite List.filter_app, length_app. cbn [List.filter].
    rewrite Hr1, Hr2. cbn [length]. f_equal. lia.
  - intros Hdown. rewrite Hcache4.
    destruct (Hcache3 Hdown) as [_ ->].
    by rewrite (Hcache2 Hdown), (Hcache1 Hdown).
Qed.
End StoreAvailable.

Lemma upstashSet_cache_down key value ttl env s :
  cache_down env ->
  exists s', Sync.upstashSet key value ttl env s = (Ok false, s')
             /\ cache s' = cache s.
Proof.
  intros Hdown.
  enough (wp (Sync.upstashSet key value ttl) env s
            (fun b s' => b = false /\ cache s' = cache s) never) as H.
  { apply wp_returns in H as (b & s' & H & -> & Hc). eauto. }
  apply wp_upstashSet. intros b s' _ _ _ H. exact (H Hdown).
Qed.

(** C7: with the memory store available and the cache down (not configured,
    or every request to it failing), [syncAll] returns without throwing; the
    aggregate's summaries are computed from the memory table alone (the
    count of agent-registry rows, and the count of trace-tagged rows, which
    by then includes the trace row the agents sync has just logged), the
    cache is left as it was, and each [upstashSet] made meanwhile returns
    false instead of throwing. *)
Theorem syncAll_without_cache :
  forall inputState env s,
    env_supabase env = true ->
    (forall n, store_fault env n = None) ->
    cache_down env ->
    (exists agg s',
       Sync.syncAll inputState env s = (Ok agg, s')
       /\ Sync.agentCount (Sync.agents agg)
            = Nat.min 100 (length (List.filter is_agent_record (aba_memory s)))
       /\ Sync.traceCount (Sync.traces agg)
            = Nat.min 100
                (S (length (List.filter is_trace_record (aba_memory s))))
       /\ Sync.inputState agg = Sync.state_or_empty inputState
       /\ Sync.upstashConnected agg = env_upstash env
       /\ cache s' = cache s)
    /\ (forall key value ttl s0,
          exists s1, Sync.upstashSet key value ttl env s0 = (Ok false, s1)
                     /\ cache s1 = cache s0).
Proof.
  intros inputState env s Hclient Hstore Hdown. split.
  - enough (wp (Sync.syncAll inputState) env s
              (fun agg s' =>
                 Sync.agentCount (Sync.agents agg)
                   = Nat.min 100
                       (length (List.filter is_agent_record (aba_memory s)))
                 /\ Sync.traceCount (Sync.traces agg)
                      = Nat.min 100
                          (S (length (List.filter is_trace_record
                                        (aba_memory s))))
                 /\ Sync.inputState agg = Sync.state_or_empty inputState
                 /\ Sync.upstashConnected agg = env_upstash env
                 /\ cache s' = cache s) never) as H.
    { apply wp_returns in H as (agg & s' & Hrun & H). eauto. }
    apply wp_syncAll; [exact Hclient | exact Hstore |].
    intros agg s' Hagents Htraces Hinput Hconnected Hcache.
    repeat split; auto.
  - intros. by apply upstashSet_cache_down.
Qed.

(** C7, an instance: the cache out of reach, one agent-registry row and one
    trace row stored; the aggregate counts one agent and two traces. *)
Lemma syncAll_without_cache_witness :
  env_supabase cache_down_env = true
  /\ (forall n, store_fault cache_down_env n = None)
  /\ cache_down cache_down_env
  /\ (exists agg s',
        Sync.syncAll None cache_down_env (with_memory registry_rows fresh_state)
          = (Ok agg, s')
        /\ Sync.agentCount (Sync.agents agg) = 1%nat
        /\ Sync.traceCount (Sync.traces agg) = 2%nat
        /\ Sync.inputState agg = JObj []
        /\ Sync.upstashConnected agg = true
        /\ cache s' = ∅)
  /\ (forall key value ttl s0,
        exists s1,
          Sync.upstashSet key value ttl cache_down_env s0 = (Ok false, s1)
          /\ cache s1 = cache s0).
Proof.
  assert (forall n, store_fault cache_down_env n = None) as Hstore
    by (intros n; reflexivity).
  assert (cache_down cache_down_env) as Hdown
    by (right; intros n; discriminate).
  split; [reflexivity|]. split; [exact Hstore|]. split; [exact Hdown|].
  exact (syncAll_without_cache None cache_down_env
           (with_memory registry_rows fresh_state) eq_refl Hstore Hdown).
Defined.

(** *** The responses of the handlers *)

Lemma error_response_is_json_error fields message :
  js_field "status" fields = Some (JStr "error") ->
  js_field "error" fields = Some (JStr message) ->
  json_error 500 (json_response_with 500 (JObj fields)).
Proof. intros. repeat split. eauto. Qed.

Lemma json_response_is_success value : json_success (json_response value).
Proof. repeat split. eauto. Qed.

Lemma wp_plain_error agent_name message env s :
  wp (plain_error agent_name message) env s (fun r _ => within_contract r)
    never.
Proof. apply wp_ret. right. by eapply error_response_is_json_error. Qed.

(** A [catch] block that reports the failure and answers with the error
    object. *)
Lemma wp_reported_error agentId fields message env s :
  js_field "status" fields = Some (JStr "error") ->
  js_field "error" fields = Some (JStr message) ->
  wp (_ ← reportToAIR agentId "error" (JObj fields);
      mret (json_response_with 500 (JObj fields)))
    env s (fun r _ => within_contract r) never.
Proof.
  intros Hstatus Herror. apply wp_bind, wp_reportToAIR. intros s'.
  apply wp_ret. right. by eapply error_response_is_json_error.
Qed.

(** Walks through a handler body whose intermediate results do not matter:
    whatever a step returns the rest must answer well, and whatever it
    throws the [catch] block, of which [Hcatch] speaks, must. What is left
    is one goal for each response the body can return. *)
Ltac walk_handler Hcatch :=
  cbv zeta;
  lazymatch goal with
  | |- wp (mbind _ _) _ _ _ _ =>
      apply wp_bind_any; [intros ? ?; walk_handler Hcatch | exact Hcatch]
  | |- wp (if ?c then _ else _) _ _ _ _ => destruct c; walk_handler Hcatch
  | |- wp (match ?x with _ => _ end) _ _ _ _ =>
      destruct x; walk_handler Hcatch
  | |- wp (mret _) _ _ _ _ => apply wp_ret
  | |- wp (parse_body _) _ _ _ _ => unfold parse_body; walk_handler Hcatch
  | |- wp (throw _) _ _ _ _ => apply wp_throw, Hcatch
  end.

(** A handler that is one [try]/[catch] answers within the contract when its
    [catch] block does and every response of its body is a JSON success. *)
Ltac within_contract_by Hcatch_tac :=
  apply wp_try_catch;
  match goal with
  | |- wp _ ?env _ ?Q ?E =>
      let Hcatch := fresh "Hcatch" in
      assert (forall e s', E e s') as Hcatch
        by (intros e s'; cbv beta zeta; Hcatch_tac);
      walk_handler Hcatch; left; apply json_response_is_success
  end.

Ltac reported_error := eapply wp_reported_error; reflexivity.
Ltac unreported_error := apply wp_plain_error.

Lemma sync_serve_within_contract req env s :
  wp (Sync.serve req) env s (fun r _ => within_contract r) never.
Proof. unfold Sync.serve. within_contract_by reported_error. Qed.

Lemma sage_serve_within_contract req env s :
  wp (Sage.serve req) env s (fun r _ => within_contract r) never.
Proof. unfold Sage.serve. within_contract_by reported_error. Qed.

Lemma shadow_serve_within_contract env s :
  wp Shadow.serve env s (fun r _ => within_contract r) never.
Proof. unfold Shadow.serve. within_contract_by reported_error. Qed.

Lemma luke_serve_within_contract extractActionItems req env s :
  wp (Luke.serve extractActionItems req) env s
    (fun r _ => within_contract r) never.
Proof. unfold Luke.serve. within_contract_by reported_error. Qed.

Lemma iman_serve_within_contract req env s :
  wp (Iman.serve req) env s (fun r _ => within_contract r) never.
Proof. unfold Iman.serve. within_contract_by reported_error. Qed.

Lemma dawn_serve_within_contract req env s :
  wp (Dawn.serve req) env s (fun r _ => within_contract r) never.
Proof. unfold Dawn.serve. within_contract_by reported_error. Qed.

Lemma radar_serve_within_contract req env s :
  wp (Radar.serve req) env s (fun r _ => within_contract r) never.
Proof. unfold Radar.serve. within_contract_by reported_error. Qed.

Lemma grit_serve_within_contract req env s :
  wp (Grit.serve req) env s (fun r _ => within_contract r) never.
Proof. unfold Grit.serve. within_contract_by unreported_error. Qed.

Lemma dod_serve_within_contract req env s :
  wp (Dod.serve req) env s (fun r _ => within_contract r) never.
Proof. unfold Dod.serve. within_contract_by unreported_error. Qed.

Lemma tim_serve_within_contract req env s :
  wp (Tim.serve req) env s (fun r _ => within_contract r) never.
Proof.
  unfold Tim.serve. apply wp_bind, wp_now.
  within_contract_by unreported_error.
Qed.

Lemma hear_serve_within_contract req env s :
  wp (Hear.serve req) env s (fun r _ => within_contract r) never.
Proof. unfold Hear.serve. within_contract_by unreported_error. Qed.

Lemma hunter_serve_within_contract req env s :
  wp (Hunter.serve req) env s (fun r _ => within_contract r) never.
Proof. unfold Hunter.serve. within_contract_by unreported_error. Qed.

Lemma mark_serve_within_contract req env s :
  wp (Mark.serve req) env s (fun r _ => within_contract r) never.
Proof. unfold Mark.serve. within_contract_by unreported_error. Qed.

Lemma quill_serve_within_contract req env s :
  wp (Quill.serve req) env s (fun r _ => within_contract r) never.
Proof. unfold Quill.serve. within_contract_by unreported_error. Qed.

Lemma draft_serve_within_contract req env s :
  wp (Draft.serve req) env s (fun r _ => within_contract r) never.
Proof. unfold Draft.serve. within_contract_by unreported_error. Qed.

(** One step of such a walk. *)
Ltac handler_step Hcatch :=
  cbv zeta; apply wp_bind_any; [intros ? ? | exact Hcatch].

Lemma vara_serve_responses req env s :
  wp (Vara.serve req) env s
    (fun r _ =>
       within_contract r
       \/ (json_error 400 r
           /\ exists body, req = Some body
                           /\ or_string (Vara.req_text body) EmptyString
                                = EmptyString)
       \/ (audio_success r
           /\ exists body, req = Some body
                           /\ Vara.req_returnFormat body <> Some "base64"))
    never.
Proof.
  unfold Vara.serve. apply wp_try_catch.
  assert (forall e s',
            wp (_ ← reportToAIR "VARA" "error"
                      (JObj [("agent", JStr Vara.AGENT_NAME);
                             ("status", JStr "error"); ("error", JStr e)]);
                mret (json_response_with 500
                        (JObj [("agent", JStr Vara.AGENT_NAME);
                               ("status", JStr "error"); ("error", JStr e)])))
              env s'
              (fun r _ =>
                 within_contract r
                 \/ (json_error 400 r
                     /\ exists body, req = Some body
                           /\ or_string (Vara.req_text body) EmptyString
                                = EmptyString)
                 \/ (audio_success r
                     /\ exists body, req = Some body
                           /\ Vara.req_returnFormat body <> Some "base64"))
              never) as Hcatch.
  { intros e s'. apply wp_bind, wp_reportToAIR. intros s''. apply wp_ret.
    left. right. by eapply error_response_is_json_error. }
  destruct req as [body|]; [|apply wp_bind, wp_throw, Hcatch].
  apply wp_bind, wp_ret. handler_step Hcatch.
  destruct (String.eqb (or_string (Vara.req_text body) EmptyString) EmptyString)
    eqn:Hempty; cbn [orb].
  - apply wp_ret. right. left. split.
    + repeat split. do 2 eexists. repeat split.
    + exists body. split; [reflexivity|]. by apply String.eqb_eq.
  - destruct (Nat.ltb _ 1) eqn:Hshort.
    { apply Nat.ltb_lt in Hshort.
      destruct (or_string (Vara.req_text body) EmptyString);
        [discriminate | simpl in Hshort; lia]. }
    do 7 handler_step Hcatch.
    destruct (Vara.req_returnFormat body) as [format|] eqn:Hformat.
    + destruct (String.eqb format "base64") eqn:Hbase64.
      * apply wp_ret. left. left. apply json_response_is_success.
      * apply wp_ret. right. right. split.
        -- repeat split. eauto.
        -- exists body. split; [reflexivity|]. rewrite Hformat.
           intros [= ->]. by rewrite String.eqb_refl in Hbase64.
    + apply wp_ret. right. right. split.
      * repeat split. eauto.
      * exists body. split; [reflexivity|]. by rewrite Hformat.
Qed.

(** C9, as the source has it: fifteen of the sixteen handlers (SYNC, SAGE,
    SHADOW, LUKE, IMAN, DAWN, RADAR, GRIT, DOD, TIM, HEAR, HUNTER, MARK,
    QUILL, DRAFT) answer every request with a JSON body, status 200 on
    success and status 500 with the error object when anything inside
    throws. The VARA handler answers likewise except in two cases: a request
    without text gets the JSON error object with status 400, and a
    successful request that does not ask for base64 gets the audio bytes
    themselves (Content-Type audio/mpeg, status 200) instead of JSON. *)
Theorem handler_responses :
  (forall req env s,
     exists r s', Sync.serve req env s = (Ok r, s') /\ within_contract r)
  /\ (forall req env s,
        exists r s', Sage.serve req env s = (Ok r, s') /\ within_contract r)
  /\ (forall env s,
        exists r s', Shadow.serve env s = (Ok r, s') /\ within_contract r)
  /\ (forall extractActionItems req env s,
        exists r s',
          Luke.serve extractActionItems req env s = (Ok r, s')
          /\ within_contract r)
  /\ (forall req env s,
        exists r s', Iman.serve req env s = (Ok r, s') /\ within_contract r)
  /\ (forall req env s,
        exists r s', Dawn.serve req env s = (Ok r, s') /\ within_contract r)
  /\ (forall req env s,
        exists r s', Radar.serve req env s = (Ok r, s') /\ within_contract r)
  /\ (forall req env s,
        exists r s', Grit.serve req env s = (Ok r, s') /\ within_contract r)
  /\ (forall req env s,
        exists r s', Dod.serve req env s = (Ok r, s') /\ within_contract r)
  /\ (forall req env s,
        exists r s', Tim.serve req env s = (Ok r, s') /\ within_contract r)
  /\ (forall req env s,
        exists r s', Hear.serve req env s = (Ok r, s') /\ within_contract r)
  /\ (forall req env s,
        exists r s', Hunter.serve req env s = (Ok r, s') /\ within_contract r)
  /\ (forall req env s,
        exists r s', Mark.serve req env s = (Ok r, s') /\ within_contract r)
  /\ (forall req env s,
        exists r s', Quill.serve req env s = (Ok r, s') /\ within_contract r)
  /\ (forall req env s,
        exists r s', Draft.serve req env s = (Ok r, s') /\ within_contract r)
  /\ (forall req env s,
        exists r s',
          Vara.serve req env s = (Ok r, s')
          /\ (within_contract r
              \/ (json_error 400 r
                  /\ exists body,
                       req = Some body
                       /\ or_string (Vara.req_text body) EmptyString
                            = EmptyString)
              \/ (audio_success r
                  /\ exists body,
                       req = Some body
                       /\ Vara.req_returnFormat body <> Some "base64"))).
Proof.
  repeat split; intros.
  - apply wp_returns, sync_serve_within_contract.
  - apply wp_returns, sage_serve_within_contract.
  - apply wp_returns, shadow_serve_within_contract.
  - apply wp_returns, luke_serve_within_contract.
  - apply wp_returns, iman_serve_within_contract.
  - apply wp_returns, dawn_serve_within_contract.
  - apply wp_returns, radar_serve_within_contract.
  - apply wp_returns, grit_serve_within_contract.
  - apply wp_returns, dod_serve_within_contract.
  - apply wp_returns, tim_serve_within_contract.
  - apply wp_returns, hear_serve_within_contract.
  - apply wp_returns, hunter_serve_within_contract.
  - apply wp_returns, mark_serve_within_contract.
  - apply wp_returns, quill_serve_within_contract.
  - apply wp_returns, draft_serve_within_contract.
  - apply (wp_returns env (Vara.serve req) s), vara_serve_responses.
Qed.

(** C9, counterexample: VARA answers a request without text with status
    400, and a plain request with the audio bytes, not JSON. *)
Lemma vara_responses_outside_contract :
  (exists r s',
     Vara.serve (Some (Vara.mkVARARequest None None None)) calm_env fresh_state
       = (Ok r, s')
     /\ resp_status r = 400 /\ ~ within_contract r)
  /\ (exists r s',
        Vara.serve (Some (Vara.mkVARARequest (Some "Good morning") None None))
          calm_env fresh_state = (Ok r, s')
        /\ resp_body r = BinaryBody [73; 68; 51]
        /\ ~ within_contract r).
Proof.
  split.
  - do 2 eexists. split; [vm_compute; reflexivity|]. split; [reflexivity|].
    intros [(Hstatus & _)|(Hstatus & _)]; discriminate Hstatus.
  - do 2 eexists. split; [vm_compute; reflexivity|]. split; [reflexivity|].
    intros [(_ & _ & j & Hbody)|(Hstatus & _)]; discriminate.
Qed.

(** * Further properties of the handlers *)

(** *** What a run leaves alone *)

#[local] Instance same_preorder {B} (part : State -> B) : PreOrder (same part).
Proof.
  split; [intros s; reflexivity|].
  intros s1 s2 s3 H12 H23. unfold same in *. congruence.
Qed.

#[local] Instance grows_preorder : PreOrder grows.
Proof.
  split.
  - intros s. exists []. by rewrite app_nil_r.
  - intros s1 s2 s3 [a1 H1] [a2 H2]. exists (a1 ++ a2).
    by rewrite H2, H1, app_assoc.
Qed.

#[local] Instance grows_but_embeddings_preorder :
  PreOrder grows_but_embeddings.
Proof.
  split.
  - intros s. exists []. by rewrite app_nil_r.
  - intros s1 s2 s3 [a1 H1] [a2 H2]. exists (a1 ++ a2).
    by rewrite H2, H1, app_assoc.
Qed.

Section Keeps.
Variable R : State -> State -> Prop.
Context `{!PreOrder R}.

Lemma keeps_ret {A} (a : A) : keeps R (mret a).
Proof. intros env s. reflexivity. Qed.

Lemma keeps_throw {A} (e : string) : keeps R (@throw A e).
Proof. intros env s. reflexivity. Qed.

Lemma keeps_ask : keeps R ask.
Proof. intros env s. reflexivity. Qed.

Lemma keeps_now : keeps R now.
Proof. intros env s. reflexivity. Qed.

Lemma keeps_createBrainClient : keeps R createBrainClient.
Proof.
  intros env s. unfold createBrainClient.
  destruct (env_supabase env); reflexivity.
Qed.

Lemma keeps_bind {A B} (m : M A) (k : A -> M B) :
  keeps R m -> (forall a, keeps R (k a)) -> keeps R (m ≫= k).
Proof.
  intros Hm Hk env s. specialize (Hm env s).
  unfold mbind, M_bind. destruct (m env s) as [[a|e] s1]; [|exact Hm].
  etransitivity; [exact Hm | apply Hk].
Qed.

Lemma keeps_try_catch {A} (body : M A) (handler : string -> M A) :
  keeps R body -> (forall e, keeps R (handler e)) ->
  keeps R (try_catch body handler).
Proof.
  intros Hm Hk env s. specialize (Hm env s).
  unfold try_catch. destruct (body env s) as [[a|e] s1]; [exact Hm|].
  etransitivity; [exact Hm | apply Hk].
Qed.

Lemma keeps_for_each {A} (xs : list A) (body : A -> M unit) :
  (forall x, keeps R (body x)) -> keeps R (for_each xs body).
Proof.
  intros Hbody. induction xs as [|x xs IH]; simpl.
  - apply keeps_ret.
  - apply keeps_bind; [apply Hbody | intros _; exact IH].
Qed.

Lemma keeps_backfill_loop memories done :
  (forall memory n, keeps R (Sage.backfill_one memory n)) ->
  keeps R (Sage.backfill_loop memories done).
Proof.
  intros Hone. revert done. induction memories as [|memory rest IH];
    intros done; simpl.
  - apply keeps_ret.
  - apply keeps_bind; [apply Hone | intros n; apply IH].
Qed.

Lemma keeps_modify (f : State -> State) :
  (forall s, R s (f s)) -> keeps R (modify f).
Proof. intros H env s. apply H. Qed.

Lemma keeps_store_call {A} (run : State -> A * State) :
  (forall s, R s (upd_clock S s)) ->
  (forall s, R s (upd_clock S (snd (run s)))) ->
  keeps R (store_call run).
Proof.
  intros Hfault Hrun env s. unfold store_call.
  destruct (store_fault env (clock s)); [apply Hfault|].
  specialize (Hrun s). destruct (run s). exact Hrun.
Qed.

Lemma keeps_cache_fetch {A}
  (command : gmap string CacheEntry -> A * gmap string CacheEntry) :
  (forall s, R s (upd_clock S s)) ->
  (forall s,
     R s (upd_clock S (upd_cache (fun _ => snd (command (cache s))) s))) ->
  keeps R (Sync.cache_fetch command).
Proof.
  intros Hfault Hrun env s. unfold Sync.cache_fetch.
  destruct (cache_fault env (clock s)); [apply Hfault|].
  specialize (Hrun s). destruct (command (cache s)). exact Hrun.
Qed.
End Keeps.

(** The head symbol of an application. *)
Ltac head_of t :=
  lazymatch t with
  | ?f _ => head_of f
  | _ => t
  end.

(** Walks through a computation down to the steps that touch the state,
    leaving for each of those the relation between the states before and
    after it. *)
Ltac keeps_walk :=
  lazy zeta beta;
  lazymatch goal with
  | |- PreOrder _ => typeclasses eauto
  | |- forall _, _ => intros ?; keeps_walk
  | |- keeps _ (mbind _ _) => apply keeps_bind; keeps_walk
  | |- keeps _ (try_catch _ _) => apply keeps_try_catch; keeps_walk
  | |- keeps _ (mret _) => apply keeps_ret; keeps_walk
  | |- keeps _ (throw _) => apply keeps_throw; keeps_walk
  | |- keeps _ ask => apply keeps_ask; keeps_walk
  | |- keeps _ now => apply keeps_now; keeps_walk
  | |- keeps _ createBrainClient => apply keeps_createBrainClient; keeps_walk
  | |- keeps _ (for_each _ _) => apply keeps_for_each; keeps_walk
  | |- keeps _ (Sage.backfill_loop _ _) =>
      apply keeps_backfill_loop; keeps_walk
  | |- keeps _ (modify _) => apply keeps_modify; intros ?
  | |- keeps _ (store_call _) => apply keeps_store_call; intros ?
  | |- keeps _ (Sync.cache_fetch _) => apply keeps_cache_fetch; intros ?
  | |- keeps _ (if ?c then _ else _) => destruct c; keeps_walk
  | |- keeps _ (match ?x with _ => _ end) => destruct x; keeps_walk
  | |- keeps _ ?m => let h := head_of m in unfold h; keeps_walk
  end.

(** A step that leaves the part alone. *)
Ltac same_step := reflexivity.

(** A step that leaves the table alone, or appends to it. *)
Ltac grows_step :=
  first [ exists []; cbn; by rewrite app_nil_r
        | eexists; cbn; reflexivity ].

Lemma update_embedding_without id e rows :
  map without_embedding (Sage.update_embedding id e rows)
    = map without_embedding rows.
Proof.
  unfold Sage.update_embedding. rewrite map_map. apply map_ext.
  intros r. by destruct (String.eqb (row_id r) id).
Qed.

(** A step that leaves the table alone, appends to it, or sets embeddings. *)
Ltac grows_but_embeddings_step :=
  first [ exists []; cbn; by rewrite ?update_embedding_without, app_nil_r
        | eexists; cbn; rewrite map_app; reflexivity ].

(** X1: no handler but SAGE ever deletes or alters a stored record: after
    any request, answered or failed, the table is the table before followed
    by the rows the run has written. *)
Theorem handlers_only_append :
  (forall req, keeps grows (Sync.serve req))
  /\ keeps grows Shadow.serve
  /\ (forall extractActionItems req,
        keeps grows (Luke.serve extractActionItems req))
  /\ (forall req, keeps grows (Vara.serve req))
  /\ (forall req, keeps grows (Iman.serve req))
  /\ (forall req, keeps grows (Dawn.serve req))
  /\ (forall req, keeps grows (Radar.serve req))
  /\ (forall req, keeps grows (Grit.serve req))
  /\ (forall req, keeps grows (Dod.serve req))
  /\ (forall req, keeps grows (Tim.serve req))
  /\ (forall req, keeps grows (Hear.serve req))
  /\ (forall req, keeps grows (Hunter.serve req))
  /\ (forall req, keeps grows (Mark.serve req))
  /\ (forall req, keeps grows (Quill.serve req))
  /\ (forall req, keeps grows (Draft.serve req)).
Proof. repeat split; intros; keeps_walk; grows_step. Qed.

(** X2: SAGE, the one handler that updates stored records, changes nothing
    of them but the embedding: after any request the table, embeddings
    blanked, is what it was followed by the rows the run has written. *)
Theorem sage_changes_only_embeddings :
  forall req, keeps grows_but_embeddings (Sage.serve req).
Proof. intros; keeps_walk; grows_but_embeddings_step. Qed.

(** X3: the cache belongs to SYNC: no other handler writes to it, whatever
    the request and however the run ends. *)
Theorem cache_written_by_sync_only :
  (forall req, keeps (same cache) (Sage.serve req))
  /\ keeps (same cache) Shadow.serve
  /\ (forall extractActionItems req,
        keeps (same cache) (Luke.serve extractActionItems req))
  /\ (forall req, keeps (same cache) (Vara.serve req))
  /\ (forall req, keeps (same cache) (Iman.serve req))
  /\ (forall req, keeps (same cache) (Dawn.serve req))
  /\ (forall req, keeps (same cache) (Radar.serve req))
  /\ (forall req, keeps (same cache) (Grit.serve req))
  /\ (forall req, keeps (same cache) (Dod.serve req))
  /\ (forall req, keeps (same cache) (Tim.serve req))
  /\ (forall req, keeps (same cache) (Hear.serve req))
  /\ (forall req, keeps (same cache) (Hunter.serve req))
  /\ (forall req, keeps (same cache) (Mark.serve req))
  /\ (forall req, keeps (same cache) (Quill.serve req))
  /\ (forall req, keeps (same cache) (Draft.serve req)).
Proof. repeat split; intros; keeps_walk; same_step. Qed.

(** X4: only SHADOW, LUKE, IMAN, DAWN and RADAR contact the notification
    service; the other eleven handlers never issue a request to it. *)
Theorem reach_left_alone :
  (forall req, keeps (same reach_log) (Sync.serve req))
  /\ (forall req, keeps (same reach_log) (Sage.serve req))
  /\ (forall req, keeps (same reach_log) (Vara.serve req))
  /\ (forall req, keeps (same reach_log) (Grit.serve req))
  /\ (forall req, keeps (same reach_log) (Dod.serve req))
  /\ (forall req, keeps (same reach_log) (Tim.serve req))
  /\ (forall req, keeps (same reach_log) (Hear.serve req))
  /\ (forall req, keeps (same reach_log) (Hunter.serve req))
  /\ (forall req, keeps (same reach_log) (Mark.serve req))
  /\ (forall req, keeps (same reach_log) (Quill.serve req))
  /\ (forall req, keeps (same reach_log) (Draft.serve req)).
Proof. repeat split; intros; keeps_walk; same_step. Qed.



(** X6: [upstashSet] answering false does not mean nothing was written:
    when the cache takes the SET and rejects the EXPIRE that follows, the
    answer is false and the key holds the new value with no expiry. *)
Theorem upstashSet_false_yet_written key value ttl env s :
  env_upstash env = true ->
  0 < ttl ->
  cache_fault env (clock s) = None ->
  cache_fault env (S (clock s)) <> None ->
  exists s',
    Sync.upstashSet key value ttl env s = (Ok false, s')
    /\ cache s' = <[key := mkCacheEntry value None]> (cache s).
Proof.
  intros Hcfg Httl Hset Hexpire.
  unfold Sync.upstashSet, try_catch, Sync.cache_fetch, ask, console_log,
    modify.
  cbv [mbind M_bind mret M_ret]. rewrite Hcfg. cbn [negb].
  rewrite Hset. cbn [Sync.cmd_set].
  apply Z.ltb_lt in Httl. rewrite Httl.
  cbn [clock upd_clock upd_cache cache].
  destruct (cache_fault env (S (clock s))) as [e|]; [|congruence].
  eexists. split; reflexivity.
Qed.

Lemma upstashSet_false_yet_written_witness :
  exists s',
    Sync.upstashSet "sync:state" (JStr "ready") 300 expire_down_env
      fresh_state = (Ok false, s')
    /\ cache s'
       = <["sync:state" := mkCacheEntry (JStr "ready") None]>
           (cache fresh_state).
Proof.
  apply (upstashSet_false_yet_written "sync:state" (JStr "ready") 300
           expire_down_env fresh_state);
    [reflexivity | lia | reflexivity | discriminate].
Defined.

(** What [logTrace] and [reportToAIR] do, as equations. *)
Lemma logTrace_eq trace env s :
  logTrace trace env s =
  match store_refusal env (clock s) with
  | None =>
      (Ok tt,
       upd_clock S
         (upd_next_id S
            (upd_memory
               (fun rows => rows ++ [trace_row trace (next_id s) (clock s)])
               s)))
  | Some message =>
      (Ok tt,
       upd_console (fun c => c ++ ["[TRACE] Failed to log: " +:+ message])
         (if env_supabase env then upd_clock S s else s))
  end.
Proof.
  unfold logTrace, store_refusal, try_catch, createBrainClient.
  cbv [mbind M_bind]. destruct (env_supabase env); [|reflexivity].
  unfold now. rewrite brainWrite_eq.
  destruct (store_fault env (clock s)); reflexivity.
Qed.

Lemma reportToAIR_eq agentId status data env s :
  reportToAIR agentId status data env s =
  (Ok tt,
   match air_fault env (clock s) with
   | None =>
       upd_air (fun l => l ++ [mkAirReport agentId status data (clock s)])
         (upd_clock S s)
   | Some message =>
       upd_console
         (fun c => c ++ ["[" +:+ agentId +:+ "] Failed to report to AIR: "
                           +:+ message])
         (upd_clock S s)
   end).
Proof.
  unfold reportToAIR, try_catch, now, ask, tick, modify, console_log, throw.
  cbv [mbind M_bind]. destruct (air_fault env (clock s)); reflexivity.
Qed.

Lemma wp_run {A} (m : M A) env s a s' (Q : A -> State -> Prop)
  (E : string -> State -> Prop) :
  m env s = (Ok a, s') -> Q a s' -> wp m env s Q E.
Proof. unfold wp. by intros ->. Qed.


(** X7: [logTrace] is best effort: it never throws. When the client is
    configured and the store accepts the insert, the table gains exactly the
    trace row (importance 2, system record) and nothing is logged;
    otherwise the table is as before and the console gains one line naming
    the failure. *)
Theorem logTrace_best_effort trace env s :
  exists s',
    logTrace trace env s = (Ok tt, s')
    /\ cache s' = cache s /\ reach_log s' = reach_log s
    /\ air_inbox s' = air_inbox s
    /\ match store_refusal env (clock s) with
       | None =>
           aba_memory s'
             = aba_memory s ++ [trace_row trace (next_id s) (clock s)]
           /\ console s' = console s
       | Some message =>
           aba_memory s' = aba_memory s
           /\ console s'
              = console s ++ ["[TRACE] Failed to log: " +:+ message]
       end.
Proof.
  rewrite logTrace_eq. unfold store_refusal.
  destruct (env_supabase env); [destruct (store_fault env (clock s))|];
    eexists; (split; [reflexivity|]); by repeat split.
Qed.

(** X8: [reportToAIR] is best effort: it never throws and touches neither
    the table, the cache nor the notification service. A delivered report
    is the one entry added to the inbox; a rejected one leaves the inbox as
    it was and one line on the console. *)
Theorem reportToAIR_best_effort agentId status data env s :
  exists s',
    reportToAIR agentId status data env s = (Ok tt, s')
    /\ aba_memory s' = aba_memory s /\ cache s' = cache s
    /\ reach_log s' = reach_log s
    /\ match air_fault env (clock s) with
       | None =>
           air_inbox s'
             = air_inbox s ++ [mkAirReport agentId status data (clock s)]
           /\ console s' = console s
       | Some message =>
           air_inbox s' = air_inbox s
           /\ console s'
              = console s ++ ["[" +:+ agentId
                                +:+ "] Failed to report to AIR: "
                                +:+ message]
       end.
Proof.
  rewrite reportToAIR_eq.
  destruct (air_fault env (clock s));
    eexists; (split; [reflexivity|]); by repeat split.
Qed.

(** One turn of LUKE's loop when the store and the notification service
    work: the item is stored with its urgency as importance, and escalated
    when the urgency is 8 or more. *)
Lemma store_and_escalate_runs source item env s :
  store_fault env (clock s) = None ->
  reach_fault env (S (clock s)) = None ->
  exists r s',
    Luke.store_and_escalate source item env s = (Ok tt, s')
    /\ aba_memory s' = aba_memory s ++ [r]
    /\ row_importance r = Some (Luke.urgency item)
    /\ reach_log s'
       = reach_log s
           ++ (if luke_urgent item then [luke_escalation item] else [])
    /\ cache s' = cache s /\ air_inbox s' = air_inbox s.
Proof.
  intros Hstore Hreach. unfold Luke.store_and_escalate, luke_urgent.
  cbv [mbind M_bind now]. rewrite brainWrite_eq, Hstore.
  cbn [insert_row bm_id].
  destruct (8 <=? Luke.urgency item).
  - unfold escalateToREACH. cbv [mbind M_bind]. rewrite reach_post_eq.
    cbn [clock upd_clock upd_next_id upd_memory]. rewrite Hreach.
    rewrite createTrace_eq. do 2 eexists. split; [reflexivity|].
    by repeat split.
  - do 2 eexists. split; [reflexivity|]. cbn. rewrite app_nil_r.
    by repeat split.
Qed.

Lemma luke_loop source items env :
  (forall t, store_fault env t = None) ->
  (forall t, reach_fault env t = None) ->
  forall s, exists rows s',
    for_each items (Luke.store_and_escalate source) env s = (Ok tt, s')
    /\ aba_memory s' = aba_memory s ++ rows
    /\ map row_importance rows
       = map (fun i => Some (Luke.urgency i)) items
    /\ reach_log s'
       = reach_log s ++ map luke_escalation (List.filter luke_urgent items)
    /\ cache s' = cache s /\ air_inbox s' = air_inbox s.
Proof.
  intros Hstore Hreach. induction items as [|item items IH]; intros s.
  - exists [], s. cbn. rewrite !app_nil_r. by repeat split.
  - destruct (store_and_escalate_runs source item env s)
      as (r & s1 & Hrun & Hmem & Himp & Hlog & Hcache & Hair); auto.
    destruct (IH s1) as (rows & s2 & Hrun' & Hmem' & Himp' & Hlog' & Hcache'
                         & Hair').
    exists (r :: rows), s2. cbn [for_each]. cbv [mbind M_bind].
    rewrite Hrun, Hrun'. split; [reflexivity|].
    rewrite Hmem', Hmem, Hlog', Hlog, Hcache', Hair', <- !app_assoc.
    cbn [map List.filter]. rewrite Himp, Himp'.
    repeat split; auto. by destruct (luke_urgent item).
Qed.

Lemma luke_short_content extractActionItems body env s :
  env_supabase env = true ->
  (String.length (or_string (Luke.req_content body) EmptyString) < 10)%nat ->
  Luke.serve extractActionItems (Some body) env s = (Ok luke_skipped, s).
Proof.
  intros Hcfg Hshort. unfold Luke.serve, try_catch, createBrainClient.
  cbv [mbind M_bind mret M_ret]. rewrite Hcfg.
  apply Nat.ltb_lt in Hshort. rewrite Hshort, orb_true_r. reflexivity.
Qed.

(** X9: LUKE does not process content of fewer than ten characters: with
    the client configured it answers 200 [skipped] and the run leaves no
    trace at all, no record, no report, no console line. *)
Theorem luke_skips_short_content extractActionItems body env s :
  env_supabase env = true ->
  (String.length (or_string (Luke.req_content body) EmptyString) < 10)%nat ->
  Luke.serve extractActionItems (Some body) env s = (Ok luke_skipped, s).
Proof. apply luke_short_content. Qed.

Lemma luke_skips_short_content_witness :
  Luke.serve urgent_scan (Some short_note) calm_env fresh_state
    = (Ok luke_skipped, fresh_state).
Proof.
  apply (luke_skips_short_content urgent_scan short_note calm_env
           fresh_state); [reflexivity | cbn; lia].
Defined.

(** X10: when the store and the notification service work, LUKE answers
    200 after storing one record per extracted item, in order, with the
    item's urgency as importance, followed by its trace record; the
    requests it has sent to the notification service are exactly the
    escalations of the items with urgency 8 or more, in order, all
    delivered. *)
Theorem luke_stores_all_and_escalates_urgent extractActionItems body env s :
  env_supabase env = true ->
  (forall t, store_fault env t = None) ->
  (forall t, reach_fault env t = None) ->
  (10 <= String.length (or_string (Luke.req_content body) EmptyString))%nat ->
  let items :=
    extractActionItems (or_string (Luke.req_content body) EmptyString) in
  exists response s' rows trace_record,
    Luke.serve extractActionItems (Some body) env s = (Ok response, s')
    /\ resp_status response = 200
    /\ aba_memory s' = aba_memory s ++ rows ++ [trace_record]
    /\ map row_importance rows = map (fun i => Some (Luke.urgency i)) items
    /\ row_importance trace_record = Some 2
    /\ reach_log s'
       = reach_log s ++ map luke_escalation (List.filter luke_urgent items).
Proof.
  intros Hcfg Hstore Hreach Hlong items.
  set (content := or_string (Luke.req_content body) EmptyString) in *.
  set (source := or_string (Luke.req_source body) "manual").
  assert (String.eqb content EmptyString
          || Nat.ltb (String.length content) 10 = false) as Hgo.
  { apply orb_false_iff. split.
    - apply String.eqb_neq. intros Heq. rewrite Heq in Hlong. cbn in Hlong.
      lia.
    - apply Nat.ltb_ge. lia. }
  unfold Luke.serve, try_catch, createBrainClient.
  cbv [mbind M_bind mret M_ret]. rewrite Hcfg.
  fold content source. rewrite Hgo, createTrace_eq. cbv zeta.
  fold items.
  destruct (luke_loop source items env Hstore Hreach
              (upd_console
                 (fun c => c ++ [trace_line
                    (mkTraceEntry
                       ((if String.eqb source "omi" then "OMI" else "AIR")
                          +:+ "*" +:+ "LUKE" +:+ "*" +:+ "AIR")
                       ("Extracting from "
                          +:+ show_nat (String.length content) +:+ " chars")
                       (default "OK" (Some "EXTRACTING")) (clock s) "LUKE")])
                 s))
    as (rows & s1 & Hrun & Hmem & Himp & Hlog & _).
  rewrite Hrun, logTrace_eq.
  unfold store_refusal. rewrite Hcfg, Hstore, reportToAIR_eq.
  do 4 eexists. split; [reflexivity|].
  split; [reflexivity|]. split.
  { destruct (air_fault env _); cbn; rewrite Hmem; cbn;
      by rewrite <- app_assoc. }
  split; [exact Himp|]. split; [reflexivity|].
  destruct (air_fault env _); cbn; by rewrite Hlog.
Qed.

Lemma luke_stores_all_and_escalates_urgent_witness :
  exists response s' rows trace_record,
    Luke.serve urgent_scan (Some urgent_request) calm_env fresh_state
      = (Ok response, s')
    /\ resp_status response = 200
    /\ aba_memory s' = aba_memory fresh_state ++ rows ++ [trace_record]
    /\ map row_importance rows
       = map (fun i => Some (Luke.urgency i))
           (urgent_scan
              (or_string (Luke.req_content urgent_request) EmptyString))
    /\ row_importance trace_record = Some 2
    /\ reach_log s'
       = reach_log fresh_state
           ++ map luke_escalation
                (List.filter luke_urgent
                   (urgent_scan
                      (or_string (Luke.req_content urgent_request)
                         EmptyString))).
Proof.
  apply (luke_stores_all_and_escalates_urgent urgent_scan urgent_request
           calm_env fresh_state);
    [reflexivity | reflexivity | reflexivity | vm_compute; lia].
Defined.

(** X11: LUKE never sees the transcript another handler dispatches to it:
    [dispatchAgent] wraps its arguments as [{ intent, request }] while LUKE
    reads [content] at the top of the body, so whatever is dispatched the
    answer is [skipped] and nothing is extracted, stored or escalated. *)
Theorem luke_skips_dispatched_content extractActionItems intent request env s :
  env_supabase env = true ->
  Luke.serve extractActionItems
    (Some (luke_request_of (dispatch_body intent request))) env s
    = (Ok luke_skipped, s).
Proof.
  intros Hcfg. apply luke_short_content; [exact Hcfg|]. cbn. lia.
Qed.

Lemma luke_skips_dispatched_content_witness :
  Luke.serve urgent_scan
    (Some (luke_request_of
             (dispatch_body
                (JObj [("content", JStr "URGENT: call the bank today")])
                (JObj [("source", JStr "hear")]))))
    calm_env fresh_state
    = (Ok luke_skipped, fresh_state).
Proof.
  apply (luke_skips_dispatched_content urgent_scan
           (JObj [("content", JStr "URGENT: call the bank today")])
           (JObj [("source", JStr "hear")]) calm_env fresh_state).
  reflexivity.
Defined.

(** The dispatched body has none of the properties DRAFT reads. *)
Lemma draft_request_of_dispatch intent request :
  draft_request_of (dispatch_body intent request)
    = Draft.mkDRAFTRequest None None.
Proof. reflexivity. Qed.

(** X12: DRAFT never sees the text another handler dispatches to it: the
    text sits under [intent] while DRAFT reads [content] at the top of the
    body, so it audits the empty string and answers that the text passed
    with no violation, whatever the text was. *)
Theorem draft_passes_dispatched_content intent request env s :
  exists response s',
    Draft.serve (Some (draft_request_of (dispatch_body intent request))) env s
      = (Ok response, s')
    /\ resp_status response = 200
    /\ body_field "passed" response = Some (JBool true)
    /\ body_field "violationCount" response = Some (JNum 0)
    /\ body_field "violations" response = Some (JArr []).
Proof.
  rewrite draft_request_of_dispatch.
  unfold Draft.serve, try_catch, parse_body.
  cbv [mbind M_bind mret M_ret]. rewrite createTrace_eq. cbv zeta.
  cbn [Draft.req_content Draft.req_text or_string].
  rewrite reportToAIR_eq. do 2 eexists. split; [reflexivity|].
  by repeat split.
Qed.

(** *** The audit, check by check *)

Lemma wp_checkEndpoint_named url check_name env s Q E :
  (forall c,
     Shadow.name c = check_name ->
     Shadow.pass c = answers_ok env url (clock s) ->
     Q c (upd_clock S s)) ->
  wp (Shadow.checkEndpoint url check_name) env s Q E.
Proof.
  intros H. unfold wp, Shadow.checkEndpoint, answers_ok in *.
  cbv [mbind M_bind now ask tick modify mret M_ret].
  destruct (http_get env url (clock s)); by apply H.
Qed.

Lemma wp_brain_read_check_named score env s Q E :
  (forall c s',
     Shadow.name c = "BRAIN_READ" ->
     Shadow.pass c = probe_ok env (clock s) ->
     Q (c, score - fine (env_supabase env) 15) s') ->
  wp (Shadow.brain_read_check score) env s Q E.
Proof.
  intros H. unfold Shadow.brain_read_check, probe_ok in *.
  apply wp_try_catch, wp_bind. unfold fine in H.
  unfold wp at 1, createBrainClient. destruct (env_supabase env).
  - apply wp_bind. unfold wp at 1, store_select, store_call.
    replace score with (score - 0) by lia.
    destruct (store_fault env (clock s)); by apply wp_ret, H.
  - by apply wp_ret, H.
Qed.

Lemma length_filter_negb {A} (f : A -> bool) (l : list A) :
  (length (List.filter (fun x => negb (f x)) l) + length (List.filter f l)
   = length l)%nat.
Proof.
  induction l as [|x l IH]; [reflexivity|].
  cbn. destruct (f x); cbn; lia.
Qed.

(** X13: the audit always runs the same six checks in the same order. Each
    of the five endpoint checks passes exactly when its URL answers with a
    2xx status at the instant it is fetched; the memory check passes
    exactly when the client is configured and the store answers the read
    without an error. The hallucinations are those of the failed checks,
    one each, so passed checks and hallucinations add up to six. *)
Theorem runAudit_checks env s :
  exists snapshot s',
    Shadow.runAudit env s = (Ok snapshot, s')
    /\ map (fun c => (Shadow.name c, Shadow.pass c)) (Shadow.checks snapshot)
       = [("ABACIA_ALIVE", answers_ok env Shadow.ABACIA_URL (clock s));
          ("REACH_ALIVE",
            answers_ok env (Shadow.REACH_URL +:+ "/api/pulse/status")
              (1 + clock s));
          ("AIR_STATUS",
            answers_ok env (Shadow.ABACIA_URL +:+ "/api/air/status")
              (2 + clock s));
          ("EMAIL_ENDPOINT",
            answers_ok env (Shadow.ABACIA_URL +:+ "/api/email/inbox?limit=1")
              (3 + clock s));
          ("OMI_MANIFEST",
            answers_ok env (Shadow.ABACIA_URL +:+ "/api/omi/manifest")
              (4 + clock s));
          ("BRAIN_READ", probe_ok env (5 + clock s))]
    /\ Shadow.hallucinations snapshot
       = map Shadow.hallucination_of
           (List.filter (fun c => negb (Shadow.pass c))
              (Shadow.checks snapshot))
    /\ (length (Shadow.hallucinations snapshot)
        + length (List.filter Shadow.pass (Shadow.checks snapshot)) = 6)%nat.
Proof.
  apply wp_returns. unfold Shadow.runAudit.
  apply wp_bind, wp_now. apply wp_bind, wp_now.
  apply wp_bind, wp_createTrace; intros entry line.
  apply wp_bind, wp_checkEndpoint_named; intros c1 Hn1 Hp1.
  eapply wp_bind, wp_penalise; [reflexivity|].
  apply wp_bind, wp_checkEndpoint_named; intros c2 Hn2 Hp2.
  eapply wp_bind, wp_penalise; [reflexivity|].
  apply wp_bind, wp_checkEndpoint_named; intros c3 Hn3 Hp3.
  eapply wp_bind, wp_penalise; [reflexivity|].
  apply wp_bind, wp_checkEndpoint_named; intros c4 Hn4 Hp4.
  eapply wp_bind, wp_penalise; [reflexivity|].
  apply wp_bind, wp_checkEndpoint_named; intros c5 Hn5 Hp5.
  eapply wp_bind, wp_penalise; [reflexivity|].
  apply wp_bind, wp_brain_read_check_named; intros c6 s6 Hn6 Hp6.
  apply wp_ret. cbn [clock upd_clock upd_console] in *.
  cbn [Shadow.checks Shadow.hallucinations app map].
  rewrite Hn1, Hn2, Hn3, Hn4, Hn5, Hn6, Hp1, Hp2, Hp3, Hp4, Hp5, Hp6.
  split; [reflexivity|]. split; [reflexivity|].
  rewrite length_map.
  apply (length_filter_negb Shadow.pass [c1; c2; c3; c4; c5; c6]).
Qed.

(** *** The audit and its alert *)

Lemma runAudit_returns env s :
  exists snapshot s', Shadow.runAudit env s = (Ok snapshot, s').
Proof.
  enough (wp Shadow.runAudit env s (fun _ _ => True) never) as H.
  { apply wp_returns in H as (snapshot & s' & Hrun & _). eauto. }
  unfold Shadow.runAudit.
  apply wp_bind, wp_now. apply wp_bind, wp_now.
  apply wp_bind, wp_createTrace; intros entry line.
  do 5 (apply wp_bind, wp_checkEndpoint; intros ?;
        eapply wp_bind, wp_penalise; [reflexivity|]).
  apply wp_bind, wp_brain_read_check; intros c6 s6.
  by apply wp_ret.
Qed.

Lemma runAudit_reads_only :
  keeps (same aba_memory) Shadow.runAudit
  /\ keeps (same next_id) Shadow.runAudit
  /\ keeps (same reach_log) Shadow.runAudit.
Proof. repeat split; keeps_walk; same_step. Qed.

(** X14: when the store works, SHADOW answers 200 with the trust score of
    its audit after storing one snapshot record, of importance 9 when the
    score is below 80 and 4 otherwise. Below 80 it sends exactly one SMS,
    to Brandon's number, and reports [alertSent: true] whether or not the
    notification service took the message; at 80 and above it sends
    nothing. *)
Theorem shadow_alert_is_best_effort env s :
  env_supabase env = true ->
  (forall t, store_fault env t = None) ->
  exists snapshot s1 response s' record message,
    Shadow.runAudit env s = (Ok snapshot, s1)
    /\ Shadow.serve env s = (Ok response, s')
    /\ resp_status response = 200
    /\ body_field "trustScore" response
       = Some (JNum (Shadow.trustScore snapshot))
    /\ body_field "alertSent" response
       = Some (JBool (Shadow.trustScore snapshot <? 80))
    /\ aba_memory s' = aba_memory s ++ [record]
    /\ row_importance record
       = Some (if Shadow.trustScore snapshot <? 80 then 9 else 4)
    /\ reach_log s'
       = reach_log s
           ++ (if Shadow.trustScore snapshot <? 80 then
                 [mkReachCall
                    (ReachSms (mkSms Shadow.BRANDON_PHONE message))
                    (bool_decide (reach_fault env (S (clock s1)) = None))]
               else []).
Proof.
  intros Hcfg Hstore.
  destruct (runAudit_returns env s) as (snapshot & s1 & Hrun).
  destruct runAudit_reads_only as (Hmem & _ & Hlog).
  specialize (Hmem env s). specialize (Hlog env s).
  rewrite Hrun in Hmem, Hlog. unfold same in Hmem, Hlog.
  cbn [snd] in Hmem, Hlog.
  exists snapshot, s1.
  unfold Shadow.serve, try_catch, createBrainClient.
  cbv [mbind M_bind mret M_ret]. rewrite Hcfg, Hrun.
  unfold Shadow.storeSnapshot. cbv [mbind M_bind mret M_ret].
  rewrite brainWrite_eq, Hstore. cbn [insert_row bm_id].
  destruct (Shadow.trustScore snapshot <? 80) eqn:Hlow.
  - assert ((80 <=? Shadow.trustScore snapshot) = false) as Hhigh.
    { apply Z.ltb_lt in Hlow. apply Z.leb_gt. lia. }
    unfold Shadow.alertBrandon. rewrite Hhigh.
    cbv [mbind M_bind]. rewrite createTrace_eq. cbv zeta.
    unfold try_catch. rewrite reach_post_eq.
    cbn [clock upd_clock upd_console upd_next_id upd_memory].
    destruct (reach_fault env (S (clock s1))) as [e|].
    + unfold console_log, modify.
      rewrite createTrace_eq; cbv beta iota zeta; rewrite reportToAIR_eq.
      do 4 eexists; (split; [reflexivity|]); (split; [reflexivity|]);
      (split; [reflexivity|]); rewrite ?Hlow;
      (split; [reflexivity|]); (split; [reflexivity|]);
      (split; [destruct (air_fault env _); cbn; by rewrite Hmem|]);
      (split; [reflexivity|]);
      destruct (air_fault env _); cbn; by rewrite Hlog.
    + unfold console_log, modify.
      rewrite createTrace_eq; cbv beta iota zeta; rewrite reportToAIR_eq.
      do 4 eexists; (split; [reflexivity|]); (split; [reflexivity|]);
      (split; [reflexivity|]); rewrite ?Hlow;
      (split; [reflexivity|]); (split; [reflexivity|]);
      (split; [destruct (air_fault env _); cbn; by rewrite Hmem|]);
      (split; [reflexivity|]);
      destruct (air_fault env _); cbn; by rewrite Hlog.
  - rewrite createTrace_eq. cbv beta iota zeta. rewrite reportToAIR_eq.
    exists (json_response
      (JObj [("agent", JStr Shadow.AGENT_NAME); ("status", JStr "complete");
             ("vaulted", JBool true);
             ("access", JStr "AIR + ABA + BRANDON ONLY");
             ("trustScore", JNum (Shadow.trustScore snapshot));
             ("checksRun", JNat (length (Shadow.checks snapshot)));
             ("checksPassed",
               JNat (length (List.filter Shadow.pass
                               (Shadow.checks snapshot))));
             ("hallucinationsDetected",
               JNat (length (Shadow.hallucinations snapshot)));
             ("alertSent", JBool false)])).
    do 2 eexists. exists EmptyString.
    split; [reflexivity|]. split; [reflexivity|]. split; [reflexivity|].
    split; [reflexivity|]. split; [reflexivity|].
    split; [destruct (air_fault env _); cbn; by rewrite Hmem|].
    split; [reflexivity|].
    destruct (air_fault env _); cbn; by rewrite Hlog, app_nil_r.
Qed.

Lemma shadow_alert_is_best_effort_witness :
  exists snapshot s1 response s' record message,
    Shadow.runAudit outage_env fresh_state = (Ok snapshot, s1)
    /\ Shadow.serve outage_env fresh_state = (Ok response, s')
    /\ resp_status response = 200
    /\ body_field "trustScore" response
       = Some (JNum (Shadow.trustScore snapshot))
    /\ body_field "alertSent" response
       = Some (JBool (Shadow.trustScore snapshot <? 80))
    /\ aba_memory s' = aba_memory fresh_state ++ [record]
    /\ row_importance record
       = Some (if Shadow.trustScore snapshot <? 80 then 9 else 4)
    /\ reach_log s'
       = reach_log fresh_state
           ++ (if Shadow.trustScore snapshot <? 80 then
                 [mkReachCall
                    (ReachSms (mkSms Shadow.BRANDON_PHONE message))
                    (bool_decide
                       (reach_fault outage_env (S (clock s1))
                        = None))]
               else []).
Proof.
  apply (shadow_alert_is_best_effort outage_env fresh_state);
    reflexivity.
Defined.

(** *** RADAR *)

(** X15: [checkForConflicts] compares each event with the one that follows
    it and with no other: it reports at most one conflict less than there
    are events, and every conflict it reports names two consecutive events
    whose dates both parse, the first ending after the second starts. *)
Theorem checkForConflicts_adjacent parse events :
  (length (Radar.checkForConflicts parse events) <= pred (length events))%nat
  /\ forall c, c ∈ Radar.checkForConflicts parse events ->
       exists i current next ends starts,
         events !! i = Some current
         /\ events !! S i = Some next
         /\ c = Radar.mkConflict (summary current) (summary next)
         /\ parse (Radar.time_text (event_end current)) = Some ends
         /\ parse (Radar.time_text (event_start next)) = Some starts
         /\ starts < ends.
Proof.
  induction events as [|current [|next rest] IH].
  - split; [reflexivity|]. intros c Hc. by apply elem_of_nil in Hc.
  - split; [reflexivity|]. intros c Hc. by apply elem_of_nil in Hc.
  - destruct IH as [IHlen IHin]. split.
    + change (Radar.checkForConflicts parse (current :: next :: rest))
        with ((if Radar.date_gt (parse (Radar.time_text (event_end current)))
                    (parse (Radar.time_text (event_start next)))
               then [Radar.mkConflict (summary current) (summary next)]
               else [])
              ++ Radar.checkForConflicts parse (next :: rest)).
      rewrite length_app. cbn [length pred] in *.
      destruct (Radar.date_gt _ _); cbn [length]; lia.
    + intros c Hc.
      change (Radar.checkForConflicts parse (current :: next :: rest))
        with ((if Radar.date_gt (parse (Radar.time_text (event_end current)))
                    (parse (Radar.time_text (event_start next)))
               then [Radar.mkConflict (summary current) (summary next)]
               else [])
              ++ Radar.checkForConflicts parse (next :: rest)) in Hc.
      apply elem_of_app in Hc as [Hc|Hc].
      * unfold Radar.date_gt in Hc.
        destruct (parse (Radar.time_text (event_end current)))
          as [ends|] eqn:Hends; [|by apply elem_of_nil in Hc].
        destruct (parse (Radar.time_text (event_start next)))
          as [starts|] eqn:Hstarts; [|by apply elem_of_nil in Hc].
        destruct (starts <? ends) eqn:Hlt; [|by apply elem_of_nil in Hc].
        apply list_elem_of_singleton in Hc. apply Z.ltb_lt in Hlt.
        exists 0%nat, current, next, ends, starts. by repeat split.
      * destruct (IHin c Hc)
          as (i & a & b & ends & starts & Ha & Hb & Hab & He & Hs & Hlt).
        exists (S i), a, b, ends, starts.
        repeat (split; [assumption|]). assumption.
Qed.

(** *** DAWN *)

(** X16: DAWN sends its briefing by SMS only when the audience is Brandon:
    for any other audience it issues no request to the notification
    service, however the run ends. *)
Theorem dawn_texts_brandon_only body env s :
  or_string (Dawn.req_audience body) "brandon" <> "brandon" ->
  reach_log (snd (Dawn.serve (Some body) env s)) = reach_log s.
Proof.
  intros Hother. apply String.eqb_neq in Hother.
  enough (keeps (same reach_log) (Dawn.serve (Some body))) as H
    by exact (H env s).
  unfold Dawn.serve. cbv beta zeta iota delta [default from_option id].
  rewrite Hother.
  keeps_walk; same_step.
Qed.

Lemma dawn_texts_brandon_only_witness :
  reach_log (snd (Dawn.serve (Some team_briefing) calm_env fresh_state))
    = reach_log fresh_state.
Proof.
  apply (dawn_texts_brandon_only team_briefing calm_env fresh_state).
  discriminate.
Defined.

(** *** HEAR and MARK *)

(** X17: HEAR stores the transcript before it dispatches it: when the
    dispatch to LUKE is rejected the answer is 500 with the error of the
    fetch, the transcript record is in the table all the same, and nothing
    is reported to AIR. *)
Theorem hear_stores_before_dispatching body env s message :
  let transcript :=
    or_string (Hear.req_transcript body)
      (or_string (Hear.req_text body) EmptyString) in
  transcript <> EmptyString ->
  env_supabase env = true ->
  store_fault env (clock s) = None ->
  functions_reply env (S (clock s)) "luke"
    (dispatch_body (JObj [("content", JStr transcript)])
       (JObj [("source", JStr "hear")]))
    = JsonRejected message ->
  exists s' record,
    Hear.serve (Some body) env s
      = (Ok (plain_failure Hear.AGENT_NAME message), s')
    /\ aba_memory s' = aba_memory s ++ [record]
    /\ row_content record
       = "HEAR TRANSCRIPT [" +:+ show_nat (clock s) +:+ "]: "
           +:+ prefix_of 500 transcript
    /\ air_inbox s' = air_inbox s.
Proof.
  intros transcript Hsome Hcfg Hstore Hreject.
  apply String.eqb_neq in Hsome.
  unfold Hear.serve, try_catch, parse_body, createBrainClient, plain_error.
  cbv [mbind M_bind mret M_ret]. rewrite createTrace_eq.
  cbv beta iota zeta. fold transcript. rewrite Hsome, Hcfg.
  unfold now. cbn [clock upd_console].
  rewrite brainWrite_eq. cbn [clock upd_console]. rewrite Hstore.
  cbn [insert_row bm_id]. unfold dispatchAgent, ask, now, tick, modify, throw.
  cbv [mbind M_bind]. cbn [clock upd_clock upd_console upd_next_id upd_memory].
  change (toLowerCase "LUKE") with "luke".
  unfold dispatch_body in Hreject. rewrite Hreject.
  do 2 eexists. split; [reflexivity|]. by repeat split.
Qed.

Lemma hear_stores_before_dispatching_witness :
  exists s' record,
    Hear.serve (Some standup_recording) dispatch_down_env fresh_state
      = (Ok (plain_failure Hear.AGENT_NAME "connection refused"), s')
    /\ aba_memory s' = aba_memory fresh_state ++ [record]
    /\ row_content record
       = "HEAR TRANSCRIPT [" +:+ show_nat (clock fresh_state) +:+ "]: "
           +:+ prefix_of 500
                 (or_string (Hear.req_transcript standup_recording)
                    (or_string (Hear.req_text standup_recording)
                       EmptyString))
    /\ air_inbox s' = air_inbox fresh_state.
Proof.
  apply (hear_stores_before_dispatching standup_recording dispatch_down_env
           fresh_state "connection refused");
    [discriminate | reflexivity | reflexivity | reflexivity].
Defined.

(** X18: MARK dispatches the transcript before it stores its report: when
    the dispatch to LUKE is rejected the answer is 500 with the error of
    the fetch, no report is written to the table and nothing is reported
    to AIR. *)
Theorem mark_dispatches_before_storing body env s message :
  let transcript := or_string (Mark.req_transcript body) EmptyString in
  transcript <> EmptyString ->
  functions_reply env (clock s) "luke"
    (dispatch_body
       (JObj [("content", JStr transcript); ("source", JStr "mark")])
       (JObj []))
    = JsonRejected message ->
  exists s',
    Mark.serve (Some body) env s
      = (Ok (plain_failure Mark.AGENT_NAME message), s')
    /\ aba_memory s' = aba_memory s
    /\ air_inbox s' = air_inbox s.
Proof.
  intros transcript Hsome Hreject.
  apply String.eqb_neq in Hsome.
  unfold Mark.serve, try_catch, parse_body, plain_error.
  cbv [mbind M_bind mret M_ret]. rewrite createTrace_eq.
  cbv beta iota zeta. fold transcript. rewrite Hsome.
  unfold dispatchAgent, ask, now, tick, modify, throw.
  cbv [mbind M_bind]. cbn [clock upd_clock upd_console].
  change (toLowerCase "LUKE") with "luke".
  unfold dispatch_body in Hreject. rewrite Hreject.
  eexists. split; [reflexivity|]. by repeat split.
Qed.

Lemma mark_dispatches_before_storing_witness :
  exists s',
    Mark.serve (Some standup_meeting) dispatch_down_env fresh_state
      = (Ok (plain_failure Mark.AGENT_NAME "connection refused"), s')
    /\ aba_memory s' = aba_memory fresh_state
    /\ air_inbox s' = air_inbox fresh_state.
Proof.
  apply (mark_dispatches_before_storing standup_meeting dispatch_down_env
           fresh_state "connection refused");
    [discriminate | reflexivity].
Defined.

(** *** IMAN *)

Lemma categorizeEmail_cases email :
  Iman.categorizeEmail email ∈ iman_categories.
Proof.
  unfold Iman.categorizeEmail, iman_categories.
  destruct (existsb _ Iman.URGENT_KEYWORDS); [set_solver|].
  destruct (existsb _ Iman.JOB_KEYWORDS); [set_solver|].
  destruct (_ || _ || _); set_solver.
Qed.

(** X19: [categorizeEmail] files every email under one of four categories,
    and no email is both critical and a job alert: of the emails of an
    inbox, those IMAN escalates and those it stores as job alerts are
    disjoint, so together they are no more than the emails fetched. *)
Theorem iman_escalates_or_stores_never_both emails :
  Forall (fun email => Iman.categorizeEmail email ∈ iman_categories) emails
  /\ Forall (fun e => iman_critical e && iman_job_alert e = false)
       (map Iman.categorize emails)
  /\ (length (List.filter iman_critical (map Iman.categorize emails))
      + length (List.filter iman_job_alert (map Iman.categorize emails))
      <= length emails)%nat.
Proof.
  assert (forall email,
            iman_critical (Iman.categorize email)
            && iman_job_alert (Iman.categorize email) = false) as Hnever.
  { intros email. unfold iman_critical, iman_job_alert, Iman.categorize.
    cbn [Iman.c_category].
    pose proof (categorizeEmail_cases email) as Hc.
    unfold iman_categories in Hc.
    repeat (apply elem_of_cons in Hc as [->|Hc]; [reflexivity|]).
    by apply elem_of_nil in Hc. }
  split; [|split].
  - apply Forall_forall. intros email _. apply categorizeEmail_cases.
  - apply Forall_forall. intros e He.
    apply list_elem_of_fmap in He as (email & -> & _). apply Hnever.
  - induction emails as [|email emails IH]; [reflexivity|].
    cbn [map List.filter length]. specialize (Hnever email).
    destruct (iman_critical (Iman.categorize email)),
      (iman_job_alert (Iman.categorize email));
      try discriminate; cbn [length]; lia.
Qed.

(** X20: an email that mentions a deadline is always critical: the word is
    one of the urgent keywords, which are tried first, so the test for it
    among the marks of a work email never decides anything. *)
Theorem deadline_email_is_critical email :
  includes "deadline" (email_text email) = true ->
  Iman.categorizeEmail email = Iman.mkCategory "critical" 9 "urgent".
Proof.
  intros Hdeadline. unfold Iman.categorizeEmail. fold (email_text email).
  replace (existsb (fun kw => includes kw (email_text email))
             Iman.URGENT_KEYWORDS) with true; [reflexivity|].
  symmetry. apply existsb_exists. exists "deadline".
  split; [|exact Hdeadline]. cbn. tauto.
Qed.

Lemma deadline_email_is_critical_witness :
  Iman.categorizeEmail deadline_email = Iman.mkCategory "critical" 9 "urgent".
Proof.
  apply (deadline_email_is_critical deadline_email). vm_compute. reflexivity.
Defined.

(** *** DRAFT *)

Lemma length_flat_map_le {A B} (f : A -> list B) (l : list A) :
  (forall x, length (f x) <= 1)%nat ->
  (length (flat_map f l) <= length l)%nat.
Proof.
  intros Hf. induction l as [|x l IH]; [reflexivity|].
  cbn [flat_map length]. rewrite length_app. specialize (Hf x). lia.
Qed.

Lemma Forall_flat_map_each {A B} (P : B -> Prop) (f : A -> list B)
  (l : list A) :
  (forall x, Forall P (f x)) -> Forall P (flat_map f l).
Proof.
  intros Hf. induction l as [|x l IH]; [constructor|].
  cbn [flat_map]. apply Forall_app. auto.
Qed.

(** X21: DRAFT reports at most one violation per pattern family, six at
    most, so the ten it lists in its answer are always all of them; each
    violation counts at least one match and quotes the first three. *)
Theorem draft_lists_every_violation content :
  (length (Draft.violations_of content) <= 6)%nat
  /\ take 10 (Draft.violations_of content) = Draft.violations_of content
  /\ Forall (fun v => (1 <= Draft.v_count v)%nat
                      /\ length (Draft.v_matches v)
                         = Nat.min 3 (Draft.v_count v))
       (Draft.violations_of content).
Proof.
  assert (length (Draft.violations_of content) <= 6)%nat as Hlen.
  { unfold Draft.violations_of.
    etransitivity; [apply length_flat_map_le|reflexivity].
    intros p. destruct (Draft.match_all _ _ _); cbn; lia. }
  split; [exact Hlen|]. split; [apply take_ge; lia|].
  unfold Draft.violations_of. apply Forall_flat_map_each. intros p.
  destruct (Draft.match_all _ _ _) as [|m matches]; constructor; [|constructor].
  cbn [Draft.v_count Draft.v_matches]. rewrite length_take.
  cbn [length]. lia.
Qed.

(** *** VARA *)

(** X22: the emotion VARA detects in a text is always one of the four it
    has a voice for, so a request that names no emotion is always spoken
    with prosody tags around the text. *)
Theorem detected_emotion_is_tagged text :
  Vara.detectEmotion text ∈ ["concerned"; "excited"; "encouraging"; "warm"]
  /\ exists rate pitch,
       Vara.addEmotionTags text (Vara.detectEmotion text)
         = Vara.prosody rate pitch text.
Proof.
  unfold Vara.detectEmotion.
  destruct (Vara.mentions _ _); [split; [set_solver|by do 2 eexists]|].
  destruct (Vara.mentions _ _); [split; [set_solver|by do 2 eexists]|].
  destruct (Vara.mentions _ _); split; (set_solver || by do 2 eexists).
Qed.

(** *** SYNC and the cache *)

#[local] Instance only_keys_preorder keys : PreOrder (only_keys keys).
Proof.
  split; [by intros s k _|].
  intros s1 s2 s3 H12 H23 k Hk. rewrite (H23 k Hk). by apply H12.
Qed.

Ltac only_keys_step :=
  intros k Hk; unfold sync_keys in Hk;
  cbn [cache upd_clock upd_cache upd_console upd_memory upd_next_id upd_air
       upd_reach snd Sync.cmd_set Sync.cmd_expire Sync.cmd_get];
  first [ reflexivity
        | rewrite lookup_insert_ne; [reflexivity | intros <-; set_solver]
        | rewrite lookup_alter_ne; [reflexivity | intros <-; set_solver] ].

(** X23: of the cache SYNC writes three keys and no other: whatever the
    request, every other key holds after the run what it held before. A
    restore writes none at all. *)
Theorem sync_writes_its_three_keys_only :
  (forall req, keeps (only_keys sync_keys) (Sync.serve req))
  /\ keeps (same cache) Sync.restore.
Proof.
  split.
  - intros req. keeps_walk; only_keys_step.
  - keeps_walk; same_step.
Qed.

(** X24: TIM and DRAFT only read: neither ever writes to the memory table,
    and TIM never reports to AIR either. *)
Theorem tim_and_draft_only_read :
  (forall req, keeps (same aba_memory) (Tim.serve req))
  /\ (forall req, keeps (same air_inbox) (Tim.serve req))
  /\ (forall req, keeps (same aba_memory) (Draft.serve req)).
Proof. repeat split; intros; keeps_walk; same_step. Qed.

(** *** DAWN's reads *)

Lemma by_created_at_total r s :
  by_created_at r s = true \/ by_created_at s r = true.
Proof.
  unfold by_created_at.
  destruct (Nat.leb_spec (row_created_at s) (row_created_at r)); [by left|].
  right. apply Nat.leb_le. lia.
Qed.

Lemma by_created_at_trans r s t :
  by_created_at r s = true -> by_created_at s t = true ->
  by_created_at r t = true.
Proof. unfold by_created_at. rewrite !Nat.leb_le. lia. Qed.

(** X25: DAWN's two reads never throw: a read the store answers with an
    error counts as no items. Otherwise the action items are at most ten
    rows of the table tagged [action_needed], the most important first,
    and the pending reviews at most ten rows tagged [dawn_audit], the
    newest first. Neither read changes the table. *)
Theorem dawn_reads_are_best_effort env s :
  (exists items s',
     Dawn.getActionItems env s = (Ok items, s')
     /\ aba_memory s' = aba_memory s
     /\ (length items <= 10)%nat
     /\ ranked by_importance items
     /\ (forall r, r ∈ items ->
           r ∈ aba_memory s /\ Sync.has_tag "action_needed" r = true)
     /\ (store_fault env (clock s) <> None -> items = []))
  /\ (exists items s',
        Dawn.getPendingDAWNItems env s = (Ok items, s')
        /\ aba_memory s' = aba_memory s
        /\ (length items <= 10)%nat
        /\ ranked by_created_at items
        /\ (forall r, r ∈ items ->
              r ∈ aba_memory s /\ Sync.has_tag "dawn_audit" r = true)
        /\ (store_fault env (clock s) <> None -> items = [])).
Proof.
  split.
  - unfold Dawn.getActionItems, store_select, store_call.
    cbv [mbind M_bind mret M_ret].
    destruct (store_fault env (clock s)) as [e|].
    + exists [], (upd_clock S s).
      split; [reflexivity|]. split; [reflexivity|].
      split; [cbn; lia|]. split; [constructor|].
      split; [|reflexivity]. intros r Hr. by apply elem_of_nil in Hr.
    + do 2 eexists. split; [reflexivity|]. split; [reflexivity|].
      cbn [reply_data default from_option id].
      split; [rewrite length_take; lia|].
      split.
      { apply ranked_take, order_desc_ranked;
          [exact by_importance_total | exact by_importance_trans]. }
      split; [|congruence].
      intros r Hr. apply subseteq_take in Hr.
      apply elem_of_order_desc in Hr. by apply elem_of_bool_filter in Hr.
  - unfold Dawn.getPendingDAWNItems, store_select, store_call.
    cbv [mbind M_bind mret M_ret].
    destruct (store_fault env (clock s)) as [e|].
    + exists [], (upd_clock S s).
      split; [reflexivity|]. split; [reflexivity|].
      split; [cbn; lia|]. split; [constructor|].
      split; [|reflexivity]. intros r Hr. by apply elem_of_nil in Hr.
    + do 2 eexists. split; [reflexivity|]. split; [reflexivity|].
      cbn [reply_data default from_option id].
      split; [rewrite length_take; lia|].
      split.
      { apply ranked_take, order_desc_ranked;
          [exact by_created_at_total | exact by_created_at_trans]. }
      split; [|congruence].
      intros r Hr. apply subseteq_take in Hr.
      apply elem_of_order_desc in Hr. by apply elem_of_bool_filter in Hr.
Qed.

(** *** SAGE's searches *)

Lemma keeps_ret_bind {A B} R (a : A) (k : A -> M B) :
  keeps R (k a) -> keeps R (mret a ≫= k).
Proof. intros H env s. apply H. Qed.

(** X26: of SAGE's actions only the backfill changes a stored record: a
    text or a semantic search leaves every record as it was and only
    appends the rows of its trace. *)
Theorem sage_search_changes_no_record body :
  or_string (Sage.req_action body) "search" <> "backfill" ->
  keeps grows (Sage.serve (Some body)).
Proof.
  intros Hother. apply String.eqb_neq in Hother.
  unfold Sage.serve.
  apply keeps_try_catch; [typeclasses eauto | | keeps_walk; grows_step].
  apply keeps_ret_bind. cbv beta zeta.
  apply keeps_bind; [typeclasses eauto | keeps_walk | intros _].
  rewrite Hother. keeps_walk; grows_step.
Qed.

Lemma sage_search_changes_no_record_witness :
  grows fresh_state
    (snd (Sage.serve (Some search_request) calm_env fresh_state)).
Proof.
  apply (sage_search_changes_no_record search_request). discriminate.
Defined.

(** *** Backfill and the embeddings already there *)

Lemma update_embedding_lookup_ne id v rows i r :
  rows !! i = Some r -> row_id r <> id ->
  Sage.update_embedding id v rows !! i = Some r.
Proof.
  intros Hr Hid. unfold Sage.update_embedding.
  change (map ?f rows) with (f <$> rows).
  rewrite list_lookup_fmap, Hr. cbn.
  apply String.eqb_neq in Hid. by rewrite Hid.
Qed.

Lemma backfill_one_untouched memory done env s i r :
  aba_memory s !! i = Some r -> row_id r <> fst memory ->
  aba_memory (snd (Sage.backfill_one memory done env s)) !! i = Some r.
Proof.
  intros Hr Hid.
  unfold Sage.backfill_one, Sage.generateEmbedding.
  cbv [try_catch mbind M_bind mret M_ret ask now tick modify throw
       console_log store_call].
  destruct (embed_reply env (clock s) (prefix_of (80 * 100) (snd memory)));
    cbn; try exact Hr.
  destruct (store_fault env (S (clock s))); cbn; [exact Hr|].
  by apply update_embedding_lookup_ne.
Qed.

Lemma backfill_loop_untouched memories i r :
  row_id r ∉ map fst memories ->
  forall done env s,
    aba_memory s !! i = Some r ->
    aba_memory (snd (Sage.backfill_loop memories done env s)) !! i = Some r.
Proof.
  induction memories as [|memory rest IH]; intros Hid done env s Hr.
  - exact Hr.
  - cbn [map] in Hid. apply not_elem_of_cons in Hid as [Hhead Hrest].
    pose proof (backfill_one_untouched memory done env s i r Hr Hhead) as H1.
    cbn [Sage.backfill_loop]. cbv [mbind M_bind].
    destruct (Sage.backfill_one memory done env s) as [[n|e] s1];
      cbn [snd] in *; [|exact H1].
    by apply IH.
Qed.

Lemma logTrace_untouched trace env s i r :
  aba_memory s !! i = Some r ->
  aba_memory (snd (logTrace trace env s)) !! i = Some r.
Proof.
  intros Hr. rewrite logTrace_eq.
  destruct (store_refusal env (clock s)); cbn.
  - by destruct (env_supabase env).
  - by apply lookup_app_l_Some.
Qed.

Lemma same_id_same_row rows i j r r' :
  NoDup (map row_id rows) ->
  rows !! i = Some r -> rows !! j = Some r' -> row_id r = row_id r' ->
  r = r'.
Proof.
  intros Hnodup Hi Hj Hid.
  assert (i = j) as ->; [|congruence].
  eapply NoDup_lookup; [exact Hnodup| |].
  - change (map row_id rows) with (row_id <$> rows).
    rewrite list_lookup_fmap, Hi. reflexivity.
  - change (map row_id rows) with (row_id <$> rows).
    rewrite list_lookup_fmap, Hj. cbn. by rewrite Hid.
Qed.

(** X27: a backfill never overwrites an embedding: in a table whose
    identifiers are distinct, every record that had its embedding before
    the backfill is the same record, at the same place, after it, however
    the run ends. *)
Theorem backfill_keeps_existing_embeddings batchSize env s i r :
  NoDup (map row_id (aba_memory s)) ->
  aba_memory s !! i = Some r ->
  row_embedding r <> None ->
  aba_memory (snd (Sage.handleBackfill batchSize env s)) !! i = Some r.
Proof.
  intros Hnodup Hr Hembedded.
  unfold Sage.handleBackfill. cbv [mbind M_bind].
  rewrite createTrace_eq. cbv beta iota zeta.
  unfold store_select, store_call. cbn [clock aba_memory upd_console].
  destruct (store_fault env (clock s)); [exact Hr|].
  cbv [throw mret M_ret].
  set (memories := Sage.missing_embeddings batchSize (aba_memory s)).
  assert (row_id r ∉ map fst memories) as Hid.
  { intros Hin. change (map fst memories) with (fst <$> memories) in Hin.
    apply list_elem_of_fmap in Hin as ([id content] & Heq & Hin).
    apply elem_of_missing_embeddings in Hin as (r' & Hr' & Hid & _ & Hnone).
    apply list_elem_of_lookup in Hr' as [j Hj]. cbn in Heq. subst id.
    assert (r = r') as <-
        by (eapply same_id_same_row; [exact Hnodup|exact Hr|exact Hj|done]).
    contradiction. }
  pose proof (backfill_loop_untouched memories i r Hid 0%nat env
                (upd_clock S (upd_console
                   (fun c => c ++ [trace_line
                      (mkTraceEntry ("CRON" +:+ "*" +:+ "SAGE" +:+ "*"
                                       +:+ "SUPABASE")
                         "Starting embedding backfill"
                         (default "OK" (Some "BACKFILLING")) (clock s)
                         "SAGE")]) s)) Hr) as Hloop.
  destruct (Sage.backfill_loop memories 0%nat env _) as [[k|e] s1];
    cbn [snd] in *; [|exact Hloop].
  pose proof (logTrace_untouched
                (set_result ("Processed " +:+ show_nat k +:+ "/"
                               +:+ show_nat (length memories))
                   (mkTraceEntry ("CRON" +:+ "*" +:+ "SAGE" +:+ "*"
                                    +:+ "SUPABASE")
                      "Starting embedding backfill"
                      (default "OK" (Some "BACKFILLING")) (clock s) "SAGE"))
                env s1 i r Hloop) as Hlog.
  destruct (logTrace _ env s1) as [[[]|e] s2]; exact Hlog.
Qed.

Lemma backfill_keeps_existing_embeddings_witness :
  aba_memory (snd (Sage.handleBackfill 10 calm_env half_embedded)) !! 0%nat
    = Some embedded_note.
Proof.
  apply (backfill_keeps_existing_embeddings 10 calm_env half_embedded 0
           embedded_note);
    [ apply (bool_decide_unpack _); vm_compute; exact I
    | reflexivity | discriminate ].
Defined.

(** *** Writing, then searching *)

(** X28: a record that was written is found: when the store works, a
    search that follows a write and whose query matches the record returns
    it, provided the matches already in the table were fewer than the
    limit. *)
Theorem written_record_is_found memory query limit env s :
  store_fault env (clock s) = None ->
  store_fault env (S (clock s)) = None ->
  text_match env query (bm_content memory) = true ->
  (length (List.filter (fun r => text_match env query (row_content r))
             (aba_memory s)) < limit)%nat ->
  exists record s1 results s2,
    brainWrite memory env s = (Ok record, s1)
    /\ brainSearch query limit env s1 = (Ok results, s2)
    /\ row_content record = bm_content memory
    /\ record ∈ results.
Proof.
  intros Hwrite Hsearch Hmatch Hroom.
  rewrite brainWrite_eq, Hwrite. cbn [insert_row].
  do 4 eexists. split; [reflexivity|]. rewrite brainSearch_eq.
  cbn [clock upd_clock upd_next_id upd_memory aba_memory].
  rewrite Hsearch. split; [reflexivity|]. split; [reflexivity|].
  unfold search_rows. rewrite take_ge.
  - apply elem_of_order_desc, elem_of_bool_filter.
    split; [apply elem_of_app; right; apply list_elem_of_singleton;
            reflexivity | exact Hmatch].
  - rewrite length_order_desc, List.filter_app, length_app.
    cbn [List.filter row_content]. rewrite Hmatch. cbn [length]. lia.
Qed.

Lemma written_record_is_found_witness :
  exists record s1 results s2,
    brainWrite (sample_memory "deadline friday" 5) calm_env fresh_state
      = (Ok record, s1)
    /\ brainSearch "deadline" 10 calm_env s1 = (Ok results, s2)
    /\ row_content record = bm_content (sample_memory "deadline friday" 5)
    /\ record ∈ results.
Proof.
  apply (written_record_is_found (sample_memory "deadline friday" 5)
           "deadline" 10 calm_env fresh_state);
    [reflexivity | reflexivity | vm_compute; reflexivity | cbn; lia].
Defined.
